(** * DeepDriveMD: the OpenMM simulation application

    A shallow embedding of
    [deepdrivemd/applications/openmm_simulation/app.py]: the simulation
    lifecycle manager ([MDSimulationApplication.initialize_run] and the three
    initialisers it dispatches to), the simulation configurator
    ([configure_simulation]), the run orchestrator ([run]) and the trajectory
    analysis ([analyze_simulation]).

    Python objects are records, exceptions are values of [Exception], and a
    method of the application is a computation in the monad [M]: it receives
    the state of [self] and of the file system and returns either a value or a
    raised exception, together with the state as it was left.  A raise keeps
    the mutations made before it, as in Python. *)

From Stdlib Require Import ZArith QArith Qround List String Ascii Bool Lia.
Import ListNotations.

Local Open Scope string_scope.
Local Open Scope list_scope.
Local Open Scope Z_scope.

(* ===================================================================== *)
(** ** pathlib *)
(* ===================================================================== *)

Module Pathlib.

(** A [pathlib.Path] as the list of its components, root first. *)
Definition Path := list string.

(** [p / name_] *)
Definition joinpath (p : Path) (name_ : string) : Path := p ++ [name_].

(** [p.name]: the last component, [""] for the empty path. *)
Definition name (p : Path) : string := last p "".

(** [p.parent] *)
Definition parent (p : Path) : Path := removelast p.

Fixpoint Path_eqb (p q : Path) : bool :=
  match p, q with
  | [], [] => true
  | a :: p', b :: q' => String.eqb a b && Path_eqb p' q'
  | _, _ => false
  end.

(** [s.endswith(suffix)] *)
Definition endswith (s suffix : string) : bool :=
  let n := String.length s in
  let m := String.length suffix in
  (m <=? n)%nat && String.eqb (substring (n - m) m s) suffix.

(** The pattern ["*" ++ ext] of [Path.glob] against one file name. *)
Definition fnmatch_star (ext file_name : string) : bool :=
  endswith file_name ext.

End Pathlib.
Export Pathlib.

Declare Scope path_scope.
Delimit Scope path_scope with path.
Notation "p // s" := (joinpath p s) (at level 40, left associativity) : path_scope.
Local Open Scope path_scope.

(* ===================================================================== *)
(** ** str() and format() of Python integers *)
(* ===================================================================== *)

Module PyFormat.

Definition digit_char (d : Z) : ascii :=
  ascii_of_nat (48 + Z.to_nat d).

(** The decimal digits of a non-negative integer, most significant first.
    [fuel] bounds the number of digits produced. *)
Fixpoint digits_fuel (fuel : nat) (n : Z) : string :=
  match fuel with
  | O => EmptyString
  | S fuel' =>
      if n <? 10 then String (digit_char n) EmptyString
      else (digits_fuel fuel' (n / 10)
            ++ String (digit_char (n mod 10)) EmptyString)%string
  end.

(** A non-negative [n] has at most [log2 n + 1] decimal digits. *)
Definition digits (n : Z) : string :=
  digits_fuel (S (Z.to_nat (Z.log2 n))) n.

(** [str(z)] for a Python [int]. *)
Definition str (z : Z) : string :=
  if z <? 0 then String "-" (digits (- z)) else digits z.

Fixpoint zeros (n : nat) : string :=
  match n with
  | O => EmptyString
  | S n' => String "0" (zeros n')
  end.

(** [format(z, "06")], the [{frame:06}] of an f-string: sign-aware zero
    padding to a minimum width of six characters. *)
Definition format_06 (z : Z) : string :=
  if z <? 0 then
    let d := digits (- z) in
    String "-" (zeros (5 - String.length d) ++ d)%string
  else
    let d := digits z in
    (zeros (6 - String.length d) ++ d)%string.

(** The value of a string of decimal digits; [None] when a character is not
    a digit.  Used to read a formatted index back. *)
Fixpoint decimal_value_acc (acc : Z) (s : string) : option Z :=
  match s with
  | EmptyString => Some acc
  | String c s' =>
      let k := Z.of_nat (nat_of_ascii c) in
      if (48 <=? k) && (k <=? 57) then decimal_value_acc (10 * acc + (k - 48)) s'
      else None
  end.

Definition decimal_value (s : string) : option Z := decimal_value_acc 0 s.

End PyFormat.
Export PyFormat.

(* ===================================================================== *)
(** ** Exceptions and the monad of methods *)
(* ===================================================================== *)

Module Py.

Inductive Exception :=
| RuntimeError (msg : string)
| AssertionError
| ValueError (msg : string)
| StopIteration
| FileNotFoundError (p : Path)
| IndexError
| ZeroDivisionError
| AttributeError (attr : string)
| OpenMMException (msg : string).

Inductive Outcome (A : Type) :=
| Returns (a : A)
| Raises (e : Exception).
Arguments Returns {A} a.
Arguments Raises {A} e.

Section Monad.
Variable S : Type.

Definition M (A : Type) : Type := S -> Outcome A * S.

Definition ret {A} (a : A) : M A := fun s => (Returns a, s).

Definition raise {A} (e : Exception) : M A := fun s => (Raises e, s).

Definition bind {A B} (m : M A) (k : A -> M B) : M B :=
  fun s =>
    match m s with
    | (Returns a, s') => k a s'
    | (Raises e, s') => (Raises e, s')
    end.

Definition get : M S := fun s => (Returns s, s).

Definition modify (f : S -> S) : M unit := fun s => (Returns tt, f s).

(** An expression that may raise and touches no state. *)
Definition lift {A} (o : Outcome A) : M A := fun s => (o, s).

(** [assert b] *)
Definition assert (b : bool) : M unit :=
  if b then ret tt else raise AssertionError.

End Monad.

Arguments ret {S A} a.
Arguments raise {S A} e.
Arguments bind {S A B} m k.
Arguments get {S}.
Arguments modify {S} f.
Arguments lift {S A} o.
Arguments assert {S} b.

End Py.
Export Py.

Declare Scope py_scope.
Delimit Scope py_scope with py.
Notation "x <- m ;; k" := (bind m (fun x => k))
  (at level 61, m at next level, right associativity) : py_scope.
Notation "' pat <- m ;; k" := (bind m (fun x => match x with pat => k end))
  (at level 61, pat pattern, m at next level, right associativity) : py_scope.
Notation "m ;;; k" := (bind m (fun _ => k))
  (at level 61, right associativity) : py_scope.
Local Open Scope py_scope.

(* ===================================================================== *)
(** ** openmm.unit: quantities of time *)
(* ===================================================================== *)

Module Units.

Inductive TimeUnit := picoseconds | nanoseconds.

(** A number with a unit of time.  Python floats are modelled by exact
    rationals: the decimal literals of a settings file are rationals, and a
    unit conversion is a product with a power of ten. *)
Record Quantity := { q_value : Q; q_unit : TimeUnit }.

(** [value * unit] *)
Definition quantity (v : Q) (u : TimeUnit) : Quantity :=
  {| q_value := v; q_unit := u |}.

(** The length of one unit in picoseconds. *)
Definition in_picoseconds (u : TimeUnit) : Q :=
  match u with
  | picoseconds => 1
  | nanoseconds => 1000
  end.

Definition Qis_zero (x : Q) : bool := (Qnum x =? 0)%Z.

(** [a / b] of two quantities of time: the units cancel, the conversion
    factor stays, and the result is a plain number.  Dividing by a zero
    quantity raises. *)
Definition quantity_div (a b : Quantity) : Outcome Q :=
  if Qis_zero (q_value b) then Raises ZeroDivisionError
  else Returns ((q_value a * in_picoseconds (q_unit a))
                / (q_value b * in_picoseconds (q_unit b)))%Q.

(** [int(x)]: truncation toward zero. *)
Definition int (x : Q) : Z := Z.quot (Qnum x) (Zpos (Qden x)).

End Units.
Export Units.

(* ===================================================================== *)
(** ** Structures, trajectories and the files that hold them *)
(* ===================================================================== *)

Module Files.

Definition Vec3 : Type := Q * Q * Q.

(** A unit cell: three edge lengths and three angles.  A frame written
    without periodic box has no cell. *)
Record Cell := { cell_lx : Q; cell_ly : Q; cell_lz : Q;
                 cell_alpha : Q; cell_beta : Q; cell_gamma : Q }.

Definition Box := option Cell.

(** One frame of a trajectory: coordinates of all atoms and the box at
    that instant. *)
Record Frame := { frame_positions : list Vec3; frame_dimensions : Box }.

(** An atom, by its name. *)
Definition Atom := string.

Inductive FileData :=
| PdbData (atoms : list Atom) (coords : list Vec3) (box : Box)
| PrmtopData (atoms : list Atom)
| DcdData (frames : list Frame)
| LogData (steps : list Z)
| NpyContactMaps (maps : list (list Z))
| NpyRmsds (values : list Q).

(** The file system: the files in directory-listing order. *)
Definition FileSystem := list (Path * FileData).

Fixpoint read_file (p : Path) (fs : FileSystem) : option FileData :=
  match fs with
  | [] => None
  | (q, d) :: fs' => if Path_eqb p q then Some d else read_file p fs'
  end.

Definition exists_file (p : Path) (fs : FileSystem) : bool :=
  match read_file p fs with Some _ => true | None => false end.

(** Create or overwrite: an existing file keeps its place in the listing,
    a new one comes last. *)
Fixpoint write_file (p : Path) (d : FileData) (fs : FileSystem) : FileSystem :=
  match fs with
  | [] => [(p, d)]
  | (q, d') :: fs' =>
      if Path_eqb p q then (q, d) :: fs' else (q, d') :: write_file p d fs'
  end.

Definition is_child (dir p : Path) : bool :=
  match p with
  | [] => false
  | _ => Path_eqb (parent p) dir
  end.

(** [dir.glob("*" + ext)]: the children of [dir] whose name ends with
    [ext], in listing order. *)
Definition glob (dir : Path) (ext : string) (fs : FileSystem) : list Path :=
  filter (fun p => is_child dir p && fnmatch_star ext (name p)) (map fst fs).

(** [next(it)] *)
Definition next {A} (it : list A) : Outcome A :=
  match it with
  | x :: _ => Returns x
  | [] => Raises StopIteration
  end.

(** [next(it, None)] *)
Definition next_or_None {A} (it : list A) : option A :=
  match it with
  | x :: _ => Some x
  | [] => None
  end.

End Files.
Export Files.

(* ===================================================================== *)
(** ** The OpenMM objects the application builds *)
(* ===================================================================== *)

(** OpenMM is a library the application calls.  Its objects are modelled by
    records that keep what the application hands to their constructors and
    what the methods it calls set. *)

Module OpenMM.

Inductive NonbondedMethod := CutoffNonPeriodic | PME.

Inductive ImplicitSolvent := OBC1.

Inductive Force :=
| MonteCarloBarostat (pressure_bar temperature : Q)
| MonteCarloAnisotropicBarostat (pressure_bar temperature : Q)
    (scaleX scaleY scaleZ : bool).

Record System := {
  nonbondedMethod : NonbondedMethod;
  nonbondedCutoff_nm : Q;
  constraints_HBonds : bool;
  implicitSolvent : option ImplicitSolvent;
  forcefield_files : list string;
  forces : list Force }.

Record LangevinIntegrator := {
  integrator_temperature : Q;
  integrator_friction : Q;
  integrator_dt_ps : Q;
  constraintTolerance : option Q }.

Inductive Reporter :=
| DCDReporter (file : Path) (reportInterval : Z)
| StateDataReporter (file : Path) (reportInterval : Z).

Definition reportInterval_of (r : Reporter) : Z :=
  match r with
  | DCDReporter _ n => n
  | StateDataReporter _ n => n
  end.

(** [app.PDBFile(path)] once parsed. *)
Record PDBFile := {
  pdbfile_path : Path;
  pdbfile_topology : list Atom;
  pdbfile_positions : list Vec3 }.

(** An [app.Simulation].  [sim_id] is the identity of the Python object;
    [positions_file] records which structure file the positions were read
    from. *)
Record Simulation := {
  sim_id : nat;
  topology : list Atom;
  system : System;
  integrator : LangevinIntegrator;
  platform : string;
  platform_properties : list (string * string);
  context_positions : option (list Vec3);
  positions_file : option Path;
  minimized : bool;
  velocities_seed : option Z;
  reporters : list Reporter;
  currentStep : Z }.

Definition set_reporters (rs : list Reporter) (s : Simulation) : Simulation :=
  {| sim_id := sim_id s; topology := topology s; system := system s;
     integrator := integrator s; platform := platform s;
     platform_properties := platform_properties s;
     context_positions := context_positions s;
     positions_file := positions_file s; minimized := minimized s;
     velocities_seed := velocities_seed s; reporters := rs;
     currentStep := currentStep s |}.

Definition set_currentStep (n : Z) (s : Simulation) : Simulation :=
  {| sim_id := sim_id s; topology := topology s; system := system s;
     integrator := integrator s; platform := platform s;
     platform_properties := platform_properties s;
     context_positions := context_positions s;
     positions_file := positions_file s; minimized := minimized s;
     velocities_seed := velocities_seed s; reporters := reporters s;
     currentStep := n |}.

Definition setPositions (pdb : PDBFile) (s : Simulation) : Simulation :=
  {| sim_id := sim_id s; topology := topology s; system := system s;
     integrator := integrator s; platform := platform s;
     platform_properties := platform_properties s;
     context_positions := Some (pdbfile_positions pdb);
     positions_file := Some (pdbfile_path pdb); minimized := minimized s;
     velocities_seed := velocities_seed s; reporters := reporters s;
     currentStep := currentStep s |}.

Definition minimizeEnergy (s : Simulation) : Simulation :=
  {| sim_id := sim_id s; topology := topology s; system := system s;
     integrator := integrator s; platform := platform s;
     platform_properties := platform_properties s;
     context_positions := context_positions s;
     positions_file := positions_file s; minimized := true;
     velocities_seed := velocities_seed s; reporters := reporters s;
     currentStep := currentStep s |}.

Definition setVelocitiesToTemperature (seed : Z) (s : Simulation) : Simulation :=
  {| sim_id := sim_id s; topology := topology s; system := system s;
     integrator := integrator s; platform := platform s;
     platform_properties := platform_properties s;
     context_positions := context_positions s;
     positions_file := positions_file s; minimized := minimized s;
     velocities_seed := Some seed; reporters := reporters s;
     currentStep := currentStep s |}.

(** What the machine and the engine supply: the platforms installed, the
    frame the engine produces for a simulation at a step, and the stream
    [random.randint] draws from. *)
Record Env := {
  available_platforms : list string;
  dynamics : nat -> Z -> Frame;
  random_source : nat -> Z }.

(** [openmm.Platform_getPlatformByName(name)] *)
Definition Platform_getPlatformByName (env : Env) (name_ : string)
  : Outcome string :=
  if existsb (String.eqb name_) (available_platforms env)
  then Returns name_
  else Raises (OpenMMException "There is no registered Platform called").

End OpenMM.
Export OpenMM.

(* ===================================================================== *)
(** ** MDAnalysis: universes and the analysis functions *)
(* ===================================================================== *)

(** MDAnalysis is a library the application calls.  Readers and universes
    are modelled by lists of frames; the numerical routines are the fields
    of the class [Library]. *)

Module MDAnalysis.

(** A [Universe]: the atoms, the frames of its trajectory and the index of
    the frame the reader is on. *)
Record Universe := {
  u_atoms : list Atom;
  u_trajectory : list Frame;
  u_frame : nat }.

Definition empty_frame : Frame :=
  {| frame_positions := []; frame_dimensions := None |}.

(** [u.trajectory.ts] *)
Definition ts (u : Universe) : Frame :=
  nth (u_frame u) (u_trajectory u) empty_frame.

Definition read_structure (p : Path) (fs : FileSystem)
  : Outcome (list Atom * Frame) :=
  match read_file p fs with
  | None => Raises (FileNotFoundError p)
  | Some (PdbData atoms coords box) =>
      Returns (atoms, {| frame_positions := coords; frame_dimensions := box |})
  | Some _ => Raises (ValueError "not a structure file")
  end.

Definition read_trajectory (p : Path) (fs : FileSystem) : Outcome (list Frame) :=
  match read_file p fs with
  | None => Raises (FileNotFoundError p)
  | Some (DcdData frames) => Returns frames
  | Some _ => Raises (ValueError "not a trajectory file")
  end.

(** [MDAnalysis.Universe(structure)]: the structure is the only frame. *)
Definition Universe_of_structure (structure : Path) (fs : FileSystem)
  : Outcome Universe :=
  match read_structure structure fs with
  | Raises e => Raises e
  | Returns (atoms, fr) =>
      Returns {| u_atoms := atoms; u_trajectory := [fr]; u_frame := 0 |}
  end.

(** [MDAnalysis.Universe(structure, trajectory)]: atoms of the structure,
    frames of the trajectory, reader on the first frame. *)
Definition Universe_of_trajectory (structure traj : Path) (fs : FileSystem)
  : Outcome Universe :=
  match read_structure structure fs with
  | Raises e => Raises e
  | Returns (atoms, _) =>
      match read_trajectory traj fs with
      | Raises e => Raises e
      | Returns frames =>
          Returns {| u_atoms := atoms; u_trajectory := frames; u_frame := 0 |}
      end
  end.

(** [u.trajectory[frame]]: seek; a negative index counts from the end, an
    index outside the trajectory raises. *)
Definition trajectory_getitem (u : Universe) (frame : Z) : Outcome Universe :=
  let n := Z.of_nat (List.length (u_trajectory u)) in
  let i := if frame <? 0 then frame + n else frame in
  if (i <? 0) || (n <=? i) then Raises IndexError
  else Returns {| u_atoms := u_atoms u; u_trajectory := u_trajectory u;
                  u_frame := Z.to_nat i |}.

(** [u.atoms.write(path)]: the atoms at the frame the reader is on. *)
Definition atoms_write (u : Universe) (out : Path) (fs : FileSystem)
  : FileSystem :=
  write_file out
    (PdbData (u_atoms u) (frame_positions (ts u)) (frame_dimensions (ts u))) fs.

(** [u.atoms.dimensions]: a copy of the box of the frame the reader is on. *)
Definition atoms_dimensions (u : Universe) : Box := frame_dimensions (ts u).

(** [group.positions] at one frame, for a group given by atom indices. *)
Definition group_positions (group : list nat) (fr : Frame) : list Vec3 :=
  map (fun i => nth i (frame_positions fr) (0, 0, 0)%Q) group.

(** A sparse boolean matrix, as the coordinates of its [True] entries in
    row-major order. *)
Definition Sparse := list (Z * Z).

Record COO := { coo_row : list Z; coo_col : list Z }.

(** [cm.tocoo()] *)
Definition tocoo (cm : Sparse) : COO :=
  {| coo_row := map fst cm; coo_col := map snd cm |}.

(** [int16(z)] of a wider integer: the low sixteen bits, read as signed. *)
Definition int16 (z : Z) : Z := (z + 32768) mod 65536 - 32768.

(** Whether every index of a matrix in coordinate form lies in [0, n). *)
Definition coo_in_shape (n : nat) (coo : COO) : bool :=
  forallb (fun i => (0 <=? i) && (i <? Z.of_nat n))
          (coo_row coo ++ coo_col coo).

(** [a.astype("int16")] *)
Definition astype_int16 (a : list Z) : list Z := map int16 a.

(** [np.concatenate((a, b))] *)
Definition concatenate (row_col : list Z * list Z) : list Z :=
  fst row_col ++ snd row_col.

(** The numerical routines of the library, which the application calls and
    does not define:
    - [select_atoms sel atoms]: the indices of the atoms a selection
      expression picks;
    - [align_fit mobile ref coords]: [coords] after the rigid-body fit of
      [mobile] onto [ref];
    - [contact_matrix positions cutoff box]:
      [distances.contact_matrix(positions, cutoff, box=box,
      returntype="sparse")], a square matrix with a row and a column per
      position;
    - [rmsd a b]: [rms.rmsd(a, b, center=True, superposition=True)]. *)
Class Library := {
  select_atoms : string -> list Atom -> list nat;
  align_fit : list Vec3 -> list Vec3 -> list Vec3 -> list Vec3;
  contact_matrix : list Vec3 -> Q -> Box -> Sparse;
  rmsd : list Vec3 -> list Vec3 -> Q;
  contact_matrix_shape :
    forall (positions : list Vec3) (cutoff : Q) (box : Box),
      coo_in_shape (List.length positions)
                   (tocoo (contact_matrix positions cutoff box)) = true }.

(** [align.AlignTraj(mobile, ref, select=sel, in_memory=True).run()]: every
    frame is fitted onto the selection of the reference, boxes are kept,
    and the reader is rewound to the first frame. *)
Definition AlignTraj_run `{Library} (mobile ref : Universe) (sel : string)
  : Universe :=
  let group := select_atoms sel (u_atoms mobile) in
  let ref_positions := group_positions (select_atoms sel (u_atoms ref)) (ts ref) in
  {| u_atoms := u_atoms mobile;
     u_trajectory :=
       map (fun fr =>
              {| frame_positions :=
                   align_fit (group_positions group fr) ref_positions
                     (frame_positions fr);
                 frame_dimensions := frame_dimensions fr |})
           (u_trajectory mobile);
     u_frame := 0 |}.

End MDAnalysis.
Export MDAnalysis.

(* ===================================================================== *)
(** ** The application: data model *)
(* ===================================================================== *)

Module Model.

(** Modelled from the spec: the declaration of [MDSimulationSettings] is
    not in [app.py].  The fields are the configuration surface the spec
    lists; those [app.py] reads carry the names it reads them by, the two
    it never reads ([barostat_kind], [compute_device_index]) are named
    after the spec. *)
Record MDSimulationSettings := {
  solvent_type : string;
  dt_ps : Q;
  temperature_kelvin : Q;
  heat_bath_friction_coef : Q;
  barostat_kind : string;
  report_interval_ps : Q;
  simulation_length_ns : Q;
  rmsd_reference_pdb : Path;
  mda_selection : string;
  cutoff_angstrom : Q;
  compute_device_index : Z }.

(** [SimulationStartType]: the three start conditions. *)
Inductive SimulationStartType :=
| ContinueSimulation
| SimulationFromPDB (pdb_file : Path) (top_file : option Path)
| SimulationFromRestart (sim_dir : Path) (sim_frame : Z).

Record MDSimulationInput := { simulation_start : SimulationStartType }.

Record MDSimulationOutput := { contact_map_path : Path; rmsd_path : Path }.

(** The attribute [self.sim]: deleted by [del], [None], or a simulation. *)
Inductive SimAttr :=
| AttrDeleted
| AttrNone
| AttrSim (s : Simulation).

(** What happens to simulation objects, in the order it happens. *)
Inductive Event :=
| Released (id : nat)
| Built (id : nat)
| Installed (id : nat).

(** The state a method works on: the attributes of [self], the working
    and persistent directories its base class provides, the file system,
    and the bookkeeping of object identities and random draws. *)
Record State := {
  self_sim : SimAttr;
  self_pdb_file : option Path;
  self_top_file : option Path;
  self_workdir : Path;
  self_persistent_dir : Path;
  files : FileSystem;
  events : list Event;
  next_sim_id : nat;
  rng_calls : nat }.

Definition set_self_sim (a : SimAttr) (st : State) : State :=
  {| self_sim := a; self_pdb_file := self_pdb_file st;
     self_top_file := self_top_file st; self_workdir := self_workdir st;
     self_persistent_dir := self_persistent_dir st; files := files st;
     events := events st; next_sim_id := next_sim_id st;
     rng_calls := rng_calls st |}.

Definition set_self_pdb_file (p : option Path) (st : State) : State :=
  {| self_sim := self_sim st; self_pdb_file := p;
     self_top_file := self_top_file st; self_workdir := self_workdir st;
     self_persistent_dir := self_persistent_dir st; files := files st;
     events := events st; next_sim_id := next_sim_id st;
     rng_calls := rng_calls st |}.

Definition set_self_top_file (p : option Path) (st : State) : State :=
  {| self_sim := self_sim st; self_pdb_file := self_pdb_file st;
     self_top_file := p; self_workdir := self_workdir st;
     self_persistent_dir := self_persistent_dir st; files := files st;
     events := events st; next_sim_id := next_sim_id st;
     rng_calls := rng_calls st |}.

Definition set_self_workdir (w : Path) (st : State) : State :=
  {| self_sim := self_sim st; self_pdb_file := self_pdb_file st;
     self_top_file := self_top_file st; self_workdir := w;
     self_persistent_dir := self_persistent_dir st; files := files st;
     events := events st; next_sim_id := next_sim_id st;
     rng_calls := rng_calls st |}.

Definition set_files (fs : FileSystem) (st : State) : State :=
  {| self_sim := self_sim st; self_pdb_file := self_pdb_file st;
     self_top_file := self_top_file st; self_workdir := self_workdir st;
     self_persistent_dir := self_persistent_dir st; files := fs;
     events := events st; next_sim_id := next_sim_id st;
     rng_calls := rng_calls st |}.

Definition log_event (e : Event) (st : State) : State :=
  {| self_sim := self_sim st; self_pdb_file := self_pdb_file st;
     self_top_file := self_top_file st; self_workdir := self_workdir st;
     self_persistent_dir := self_persistent_dir st; files := files st;
     events := events st ++ [e]; next_sim_id := next_sim_id st;
     rng_calls := rng_calls st |}.

Definition bump_sim_id (st : State) : State :=
  {| self_sim := self_sim st; self_pdb_file := self_pdb_file st;
     self_top_file := self_top_file st; self_workdir := self_workdir st;
     self_persistent_dir := self_persistent_dir st; files := files st;
     events := events st; next_sim_id := S (next_sim_id st);
     rng_calls := rng_calls st |}.

Definition bump_rng (st : State) : State :=
  {| self_sim := self_sim st; self_pdb_file := self_pdb_file st;
     self_top_file := self_top_file st; self_workdir := self_workdir st;
     self_persistent_dir := self_persistent_dir st; files := files st;
     events := events st; next_sim_id := next_sim_id st;
     rng_calls := S (rng_calls st) |}.

(** [self.sim is not None], for a manager whose attribute is set. *)
Definition has_simulation (st : State) : bool :=
  match self_sim st with
  | AttrSim _ => true
  | _ => false
  end.

(** [MDSimulationApplication.__init__]: no simulation, no files. *)
Definition init (workdir persistent_dir : Path) (fs : FileSystem) : State :=
  {| self_sim := AttrNone; self_pdb_file := None; self_top_file := None;
     self_workdir := workdir; self_persistent_dir := persistent_dir;
     files := fs; events := []; next_sim_id := 0; rng_calls := 0 |}.

End Model.
Export Model.

(* ===================================================================== *)
(** ** The simulation configurator *)
(* ===================================================================== *)

Module Configurator.
Section Configurator.

Variable env : Env.

(** [app.PDBFile(str(path))] *)
Definition PDBFile_open (path : Path) : M State PDBFile :=
  st <- get ;;
  match read_file path (files st) with
  | None => raise (FileNotFoundError path)
  | Some (PdbData atoms coords _) =>
      ret {| pdbfile_path := path; pdbfile_topology := atoms;
             pdbfile_positions := coords |}
  | Some _ => raise (ValueError "not a PDB file")
  end.

(** [app.AmberPrmtopFile(str(path))], as the topology it holds. *)
Definition AmberPrmtopFile_open (path : Path) : M State (list Atom) :=
  st <- get ;;
  match read_file path (files st) with
  | None => raise (FileNotFoundError path)
  | Some (PrmtopData atoms) => ret atoms
  | Some _ => raise (ValueError "not a prmtop file")
  end.

(** [app.Simulation(top, system, integrator, platform, properties)]: a new
    object, with no positions, no reporters and no step taken. *)
Definition Simulation_new (top : list Atom) (sys : System)
    (integ : LangevinIntegrator) (platform_ : string)
    (properties : list (string * string)) : M State Simulation :=
  st <- get ;;
  let id := next_sim_id st in
  modify bump_sim_id ;;;
  modify (log_event (Built id)) ;;;
  ret {| sim_id := id; topology := top; system := sys; integrator := integ;
         platform := platform_; platform_properties := properties;
         context_positions := None; positions_file := None;
         minimized := false; velocities_seed := None; reporters := [];
         currentStep := 0 |}.

(** [random.randint(1, 10000)] *)
Definition randint_1_10000 : M State Z :=
  st <- get ;;
  modify bump_rng ;;;
  ret (1 + (random_source env (rng_calls st)) mod 10000).

Definition _configure_amber_implicit (pdb_file : Path) (top_file : option Path)
    (dt_ps temperature_kelvin heat_bath_friction_coef : Q)
    (platform_ : string) (platform_properties_ : list (string * string))
  : M State (Simulation * option PDBFile) :=
  '(pdb, top, system_) <-
    match top_file with
    | Some top_path =>
        top <- AmberPrmtopFile_open top_path ;;
        ret (None, top,
             {| nonbondedMethod := CutoffNonPeriodic;
                nonbondedCutoff_nm := 1;
                constraints_HBonds := true;
                implicitSolvent := Some OBC1;
                forcefield_files := [];
                forces := [] |})
    | None =>
        pdb <- PDBFile_open pdb_file ;;
        ret (Some pdb, pdbfile_topology pdb,
             {| nonbondedMethod := CutoffNonPeriodic;
                nonbondedCutoff_nm := 1;
                constraints_HBonds := true;
                implicitSolvent := None;
                forcefield_files := ["amber99sbildn.xml"; "amber99_obc.xml"];
                forces := [] |})
    end ;;
  let integrator_ :=
    {| integrator_temperature := temperature_kelvin;
       integrator_friction := heat_bath_friction_coef;
       integrator_dt_ps := dt_ps;
       constraintTolerance := Some (1 # 100000)%Q |} in
  sim <- Simulation_new top system_ integrator_ platform_ platform_properties_ ;;
  ret (sim, pdb).

Definition _configure_amber_explicit (top_file : Path)
    (dt_ps temperature_kelvin heat_bath_friction_coef : Q)
    (platform_ : string) (platform_properties_ : list (string * string))
    (explicit_barostat : string) : M State Simulation :=
  top <- AmberPrmtopFile_open top_file ;;
  let integrator_ :=
    {| integrator_temperature := temperature_kelvin;
       integrator_friction := heat_bath_friction_coef;
       integrator_dt_ps := dt_ps;
       constraintTolerance := None |} in
  barostat <-
    (if String.eqb explicit_barostat "MonteCarloBarostat" then
       ret (MonteCarloBarostat 1 temperature_kelvin)
     else if String.eqb explicit_barostat "MonteCarloAnisotropicBarostat" then
       ret (MonteCarloAnisotropicBarostat 1 temperature_kelvin false false true)
     else raise (ValueError "Invalid explicit_barostat option")) ;;
  let system_ :=
    {| nonbondedMethod := PME;
       nonbondedCutoff_nm := 1;
       constraints_HBonds := true;
       implicitSolvent := None;
       forcefield_files := [];
       forces := [barostat] |} in
  Simulation_new top system_ integrator_ platform_ platform_properties_.

(** The hardware block of [configure_simulation]: CUDA, else OpenCL, else
    CPU; a platform that cannot be had is an exception that is caught. *)
Definition configure_hardware (gpu_index : Z)
  : Outcome (string * list (string * string)) :=
  match Platform_getPlatformByName env "CUDA" with
  | Returns p =>
      Returns (p, [("DeviceIndex", str gpu_index); ("CudaPrecision", "mixed")])
  | Raises _ =>
      match Platform_getPlatformByName env "OpenCL" with
      | Returns p => Returns (p, [("DeviceIndex", str gpu_index)])
      | Raises _ =>
          match Platform_getPlatformByName env "CPU" with
          | Returns p => Returns (p, [])
          | Raises e => Raises e
          end
      end
  end.

Definition configure_simulation (pdb_file : Path) (top_file : option Path)
    (solvent_type : string) (gpu_index : Z)
    (dt_ps temperature_kelvin heat_bath_friction_coef : Q)
    (explicit_barostat : string)
    (run_minimization set_positions set_velocities : bool)
  : M State Simulation :=
  '(platform_, platform_properties_) <- lift (configure_hardware gpu_index) ;;
  '(sim, pdb) <-
    (if String.eqb solvent_type "implicit" then
       _configure_amber_implicit pdb_file top_file dt_ps temperature_kelvin
         heat_bath_friction_coef platform_ platform_properties_
     else
       assert (String.eqb solvent_type "explicit") ;;;
       match top_file with
       | None => raise AssertionError
       | Some top_path =>
           sim <- _configure_amber_explicit top_path dt_ps temperature_kelvin
                    heat_bath_friction_coef platform_ platform_properties_
                    explicit_barostat ;;
           ret (sim, None)
       end) ;;
  sim <-
    (if set_positions then
       pdb <- match pdb with
              | None => PDBFile_open pdb_file
              | Some pdb => ret pdb
              end ;;
       ret (setPositions pdb sim)
     else ret sim) ;;
  let sim := if run_minimization then minimizeEnergy sim else sim in
  (if set_velocities then
     seed <- randint_1_10000 ;;
     ret (setVelocitiesToTemperature seed sim)
   else ret sim).

End Configurator.
End Configurator.
Export Configurator.

(* ===================================================================== *)
(** ** The engine at work: reporters and stepping *)
(* ===================================================================== *)

(** The contract of [Simulation.step] with its reporters: every reporter
    writes a record whenever the step count reaches a multiple of its
    interval.  The frames themselves come from [dynamics]. *)

Module Stepping.
Section Stepping.

Variable env : Env.

(** [app.DCDReporter(file, reportInterval)]: the file is opened for
    writing, so it exists and is empty from here on. *)
Definition DCDReporter_new (file : Path) (interval : Z) : M State Reporter :=
  st <- get ;;
  modify (set_files (write_file file (DcdData []) (files st))) ;;;
  ret (DCDReporter file interval).

(** [app.StateDataReporter(file, reportInterval, ...)] *)
Definition StateDataReporter_new (file : Path) (interval : Z)
  : M State Reporter :=
  st <- get ;;
  modify (set_files (write_file file (LogData []) (files st))) ;;;
  ret (StateDataReporter file interval).

(** One reporter writes its record of the current step. *)
Definition report (s : Simulation) (r : Reporter) (fs : FileSystem)
  : FileSystem :=
  match r with
  | DCDReporter file _ =>
      let fr := dynamics env (sim_id s) (currentStep s) in
      match read_file file fs with
      | Some (DcdData frames) => write_file file (DcdData (frames ++ [fr])) fs
      | _ => write_file file (DcdData [fr]) fs
      end
  | StateDataReporter file _ =>
      match read_file file fs with
      | Some (LogData steps) =>
          write_file file (LogData (steps ++ [currentStep s])) fs
      | _ => write_file file (LogData [currentStep s]) fs
      end
  end.

(** A reporter is due when the step count is a multiple of its interval. *)
Definition due (r : Reporter) (step_ : Z) : bool :=
  (0 <? reportInterval_of r) && (step_ mod reportInterval_of r =? 0).

(** One integration step, then the reports that are due. *)
Definition step_once (s : Simulation) (fs : FileSystem)
  : Simulation * FileSystem :=
  let s' := set_currentStep (currentStep s + 1) s in
  (s', fold_left (fun fs r => if due r (currentStep s') then report s' r fs
                              else fs)
                 (reporters s') fs).

Fixpoint simulate (n : nat) (s : Simulation) (fs : FileSystem)
  : Simulation * FileSystem :=
  match n with
  | O => (s, fs)
  | S n' => let '(s', fs') := step_once s fs in simulate n' s' fs'
  end.

(** [sim.step(steps)]: a reporter whose interval is zero makes the engine
    divide by zero as soon as there is a step to take. *)
Definition Simulation_step (steps : Z) (s : Simulation)
  : M State Simulation :=
  if 0 <? steps then
    if existsb (fun r => reportInterval_of r =? 0) (reporters s)
    then raise ZeroDivisionError
    else
      st <- get ;;
      let '(s', fs') := simulate (Z.to_nat steps) s (files st) in
      modify (set_files fs') ;;;
      ret s'
  else ret s.

End Stepping.
End Stepping.
Export Stepping.

(* ===================================================================== *)
(** ** MDSimulationApplication *)
(* ===================================================================== *)

Module MDSimulationApplication.
Section Application.

Variable config : MDSimulationSettings.
Variable env : Env.
Context `{Library}.

(** Modelled from the spec: [Application.copy_to_workdir] belongs to
    [deepdrivemd.utils], which is not in [app.py].  It copies the supplied
    structure or topology file into the managed working area and answers
    the path of the copy; an absent optional file stays absent. *)
Definition copy_to_workdir (p : option Path) : M State (option Path) :=
  match p with
  | None => ret None
  | Some src =>
      st <- get ;;
      match read_file src (files st) with
      | None => raise (FileNotFoundError src)
      | Some data =>
          let dst := self_workdir st // name src in
          modify (set_files (write_file dst data (files st))) ;;;
          ret (Some dst)
      end
  end.

Definition write_pdb_frame (pdb_file dcd_file : Path) (frame : Z)
    (output_pdb_file : Path) : M State unit :=
  st <- get ;;
  mda_u <- lift (Universe_of_trajectory pdb_file dcd_file (files st)) ;;
  mda_u <- lift (trajectory_getitem mda_u frame) ;;
  modify (set_files (atoms_write mda_u output_pdb_file (files st))).

(** [if self.sim is not None: del self.sim] *)
Definition release_cached_simulation : M State unit :=
  st <- get ;;
  match self_sim st with
  | AttrDeleted => raise (AttributeError "sim")
  | AttrNone => ret tt
  | AttrSim old =>
      modify (set_self_sim AttrDeleted) ;;;
      modify (log_event (Released (sim_id old)))
  end.

(** Initialize and cache a simulation object. *)
Definition init_simulation (pdb_file : Path) (top_file : option Path)
  : M State unit :=
  release_cached_simulation ;;;
  sim <- configure_simulation env pdb_file top_file
           (solvent_type config) 0 (dt_ps config)
           (temperature_kelvin config) (heat_bath_friction_coef config)
           "MonteCarloBarostat" true true true ;;
  modify (set_self_sim (AttrSim sim)) ;;;
  modify (log_event (Installed (sim_id sim))).

Definition init_continue_simulation : M State unit :=
  st <- get ;;
  match self_sim st with
  | AttrDeleted => raise (AttributeError "sim")
  | AttrNone =>
      raise (RuntimeError "Tried to continue a simulation that doesn't exist.")
  | AttrSim _ =>
      assert (match self_pdb_file st with Some _ => true | None => false end) ;;;
      pdb <- copy_to_workdir (self_pdb_file st) ;;
      modify (set_self_pdb_file pdb) ;;;
      top <- copy_to_workdir (self_top_file st) ;;
      modify (set_self_top_file top)
  end.

Definition init_simulation_from_pdb (pdb_file : Path) (top_file : option Path)
  : M State unit :=
  pdb <- copy_to_workdir (Some pdb_file) ;;
  modify (set_self_pdb_file pdb) ;;;
  top <- copy_to_workdir top_file ;;
  modify (set_self_top_file top) ;;;
  match pdb with
  | None => raise AssertionError
  | Some pdb_path => init_simulation pdb_path top
  end.

Definition init_simulation_from_restart (sim_dir : Path) (frame : Z)
  : M State unit :=
  st <- get ;;
  old_pdb_file <- lift (next (glob sim_dir ".pdb" (files st))) ;;
  dcd_file <- lift (next (glob sim_dir ".dcd" (files st))) ;;
  let top_file := next_or_None (glob sim_dir ".top" (files st)) in
  let top_file :=
    match top_file with
    | None => next_or_None (glob sim_dir ".prmtop" (files st))
    | Some _ => top_file
    end in
  top <- copy_to_workdir top_file ;;
  modify (set_self_top_file top) ;;;
  let pdb_name :=
    (name (parent old_pdb_file) ++ "_frame" ++ format_06 frame ++ ".pdb")%string in
  let pdb_path := self_workdir st // pdb_name in
  modify (set_self_pdb_file (Some pdb_path)) ;;;
  write_pdb_frame old_pdb_file dcd_file frame pdb_path ;;;
  init_simulation pdb_path top.

Definition initialize_run (simulation_start_ : SimulationStartType)
  : M State unit :=
  match simulation_start_ with
  | ContinueSimulation => init_continue_simulation
  | SimulationFromPDB pdb_file top_file =>
      init_simulation_from_pdb pdb_file top_file
  | SimulationFromRestart sim_dir sim_frame =>
      init_simulation_from_restart sim_dir sim_frame
  end.

(** The contact map of one frame, in coordinate form: the positions are
    those of the frame, the box is the one handed in. *)
Definition frame_coo (atoms : list nat) (box : Box) (fr : Frame) : COO :=
  let positions := group_positions atoms fr in
  let cm := contact_matrix positions (cutoff_angstrom config) box in
  tocoo cm.

(** The body of the loop over the trajectory in [analyze_simulation]. *)
Definition analyze_frame (atoms : list nat) (ref_positions : list Vec3)
    (box : Box) (acc : list (list Z) * list (list Z) * list Q) (fr : Frame)
  : list (list Z) * list (list Z) * list Q :=
  let '(rows, cols, rmsds) := acc in
  let positions := group_positions atoms fr in
  let coo := frame_coo atoms box fr in
  (rows ++ [astype_int16 (coo_row coo)],
   cols ++ [astype_int16 (coo_col coo)],
   rmsds ++ [rmsd positions ref_positions]).

(** [analyze_simulation] once both universes are open: alignment, the box
    read once before the loop, the loop, and the concatenation after it. *)
Definition analyze_universe (mda_u ref_u : Universe)
  : list (list Z) * list Q :=
  let mda_u := AlignTraj_run mda_u ref_u (mda_selection config) in
  let ref_positions :=
    group_positions (select_atoms (mda_selection config) (u_atoms ref_u))
      (ts ref_u) in
  let atoms := select_atoms (mda_selection config) (u_atoms mda_u) in
  let box := atoms_dimensions mda_u in
  let '(rows, cols, rmsds) :=
    fold_left (analyze_frame atoms ref_positions box) (u_trajectory mda_u)
      ([], [], []) in
  let contact_maps := map concatenate (combine rows cols) in
  (contact_maps, rmsds).

(** Analyze trajectory and return a contact map and the RMSD to native
    state for each frame. *)
Definition analyze_simulation (pdb_file traj_file : Path)
  : M State (list (list Z) * list Q) :=
  st <- get ;;
  mda_u <- lift (Universe_of_trajectory pdb_file traj_file (files st)) ;;
  ref_u <- lift (Universe_of_structure (rmsd_reference_pdb config) (files st)) ;;
  ret (analyze_universe mda_u ref_u).

(** [self.sim], which must be a simulation to have attributes. *)
Definition the_sim : M State Simulation :=
  st <- get ;;
  match self_sim st with
  | AttrSim s => ret s
  | AttrNone => raise (AttributeError "reporters")
  | AttrDeleted => raise (AttributeError "sim")
  end.

(** Mutation of the object [self.sim] refers to. *)
Definition update_sim (f : Simulation -> Simulation) : M State unit :=
  s <- the_sim ;;
  modify (set_self_sim (AttrSim (f s))).

(** [np.save(path, arr)] *)
Definition np_save (path : Path) (arr : FileData) : M State unit :=
  st <- get ;;
  modify (set_files (write_file path arr (files st))).

(** The step arithmetic of [run]. *)
Definition report_steps_of : Outcome Z :=
  match quantity_div (quantity (report_interval_ps config) picoseconds)
                     (quantity (dt_ps config) picoseconds) with
  | Returns x => Returns (int x)
  | Raises e => Raises e
  end.

Definition nsteps_of : Outcome Z :=
  match quantity_div (quantity (simulation_length_ns config) nanoseconds)
                     (quantity (dt_ps config) picoseconds) with
  | Returns x => Returns (int x)
  | Raises e => Raises e
  end.

(** The reporter block of [run]: the cached list is replaced by an empty
    one, then the trajectory and the log reporter are appended. *)
Definition setup_reporters (traj_file : Path) (report_steps : Z)
  : M State unit :=
  update_sim (set_reporters []) ;;;
  st <- get ;;
  dcd <- DCDReporter_new traj_file report_steps ;;
  update_sim (fun s => set_reporters (reporters s ++ [dcd]) s) ;;;
  log <- StateDataReporter_new (self_workdir st // "sim.log") report_steps ;;
  update_sim (fun s => set_reporters (reporters s ++ [log]) s).

Definition run (input_data : MDSimulationInput) : M State MDSimulationOutput :=
  initialize_run (simulation_start input_data) ;;;
  report_steps <- lift report_steps_of ;;
  nsteps <- lift nsteps_of ;;
  st <- get ;;
  let traj_file := self_workdir st // "sim.dcd" in
  setup_reporters traj_file report_steps ;;;
  sim <- the_sim ;;
  sim <- Simulation_step env nsteps sim ;;
  modify (set_self_sim (AttrSim sim)) ;;;
  st <- get ;;
  match self_pdb_file st with
  | None => raise AssertionError
  | Some pdb_file =>
      '(contact_maps, rmsds) <- analyze_simulation pdb_file traj_file ;;
      np_save (self_workdir st // "contact_map.npy")
              (NpyContactMaps contact_maps) ;;;
      np_save (self_workdir st // "rmsd.npy") (NpyRmsds rmsds) ;;;
      ret {| contact_map_path := self_persistent_dir st // "contact_map.npy";
             rmsd_path := self_persistent_dir st // "rmsd.npy" |}
  end.

End Application.
End MDSimulationApplication.
Export MDSimulationApplication.

(* ===================================================================== *)
(** ** Concrete inputs *)
(* ===================================================================== *)

Module Scenario.

Local Open Scope Q_scope.

(** A small instance of the analysis library, for running the model on
    concrete inputs:
    selection by atom name (["all"] selects every atom), the identity as
    fit, minimum-image contacts in an orthorhombic cell with the diagonal
    set, and the mean squared deviation. *)
Definition sample_select (sel : string) (atoms : list Atom) : list nat :=
  filter (fun i => String.eqb sel "all" || String.eqb (nth i atoms "") sel)
         (seq 0 (List.length atoms)).

Definition min_image (d L : Q) : Q :=
  if Qle_bool L 0 then d else d - L * inject_Z (Qfloor (d / L + (1 # 2))).

Definition dist2 (box : Box) (a b : Vec3) : Q :=
  let '(ax, ay, az) := a in
  let '(bx, by_, bz) := b in
  match box with
  | None => (ax - bx) * (ax - bx) + (ay - by_) * (ay - by_) + (az - bz) * (az - bz)
  | Some c =>
      let dx := min_image (ax - bx) (cell_lx c) in
      let dy := min_image (ay - by_) (cell_ly c) in
      let dz := min_image (az - bz) (cell_lz c) in
      dx * dx + dy * dy + dz * dz
  end.

Definition sample_contact_matrix (positions : list Vec3) (cutoff : Q) (box : Box)
  : Sparse :=
  let idx := seq 0 (List.length positions) in
  flat_map
    (fun i =>
       flat_map
         (fun j =>
            let a := nth i positions (0, 0, 0) in
            let b := nth j positions (0, 0, 0) in
            if (i =? j)%nat || negb (Qle_bool (cutoff * cutoff) (dist2 box a b))
            then [(Z.of_nat i, Z.of_nat j)] else [])
         idx)
    idx.

Definition sample_msd (a b : list Vec3) : Q :=
  fold_left Qplus (map (fun ab => dist2 None (fst ab) (snd ab)) (combine a b)) 0
  / inject_Z (Z.of_nat (Nat.max 1 (List.length a))).

#[export, refine] Instance sample_library : Library :=
  {| select_atoms := sample_select;
     align_fit := fun _ _ coords => coords;
     contact_matrix := sample_contact_matrix;
     rmsd := sample_msd;
     contact_matrix_shape := _ |}.
Proof.
  intros positions cutoff box. unfold coo_in_shape, tocoo. simpl.
  apply forallb_forall. intros x Hx.
  assert (Hpair : exists i j,
             In (i, j) (sample_contact_matrix positions cutoff box) /\
             (x = i \/ x = j)).
  { apply in_app_or in Hx. destruct Hx as [Hx | Hx];
      apply in_map_iff in Hx; destruct Hx as [[i j] [Hij Hin]];
      exists i, j; simpl in Hij; auto. }
  destruct Hpair as (i & j & Hin & Hx').
  unfold sample_contact_matrix in Hin.
  apply in_flat_map in Hin. destruct Hin as (a & Ha & Hin).
  apply in_flat_map in Hin. destruct Hin as (b & Hb & Hin).
  apply in_seq in Ha. apply in_seq in Hb.
  destruct ((a =? b)%nat || _); [| contradiction].
  destruct Hin as [Hin | []]. inversion Hin; subst i j.
  apply andb_true_iff.
  destruct Hx' as [-> | ->]; split;
    first [apply Z.leb_le | apply Z.ltb_lt]; lia.
Defined.

(** Twenty atoms, five residues of four. *)
Definition atoms20 : list Atom := List.concat (repeat ["N"; "CA"; "C"; "O"]%string 5).

Definition coords20 : list Vec3 :=
  map (fun i => (inject_Z (Z.of_nat i) * (3 # 2), 0, 0)) (seq 0 20).

Definition cubic (L : Q) : Box :=
  Some {| cell_lx := L; cell_ly := L; cell_lz := L;
          cell_alpha := 90; cell_beta := 90; cell_gamma := 90 |}.

Definition data_dir : Path := ["data"]%string.
Definition run1 : Path := ["runs"; "run-0001"]%string.
Definition run2 : Path := ["runs"; "run-0002"]%string.
Definition out1 : Path := ["out"; "run-0001"]%string.

Definition fs0 : FileSystem :=
  [ (data_dir // "protein.pdb", PdbData atoms20 coords20 None);
    (data_dir // "protein.prmtop", PrmtopData atoms20);
    (data_dir // "reference.pdb", PdbData atoms20 coords20 None) ]%string.

(** The end-to-end scenario of the spec: implicit solvent, a timestep of
    0.002 ps, a report interval of 0.002 ps, 0.01 ns of simulated time. *)
Definition config_e2e : MDSimulationSettings :=
  {| solvent_type := "implicit";
     dt_ps := 0.002;
     temperature_kelvin := 310;
     heat_bath_friction_coef := 1;
     barostat_kind := "MonteCarloBarostat";
     report_interval_ps := 0.002;
     simulation_length_ns := 0.01;
     rmsd_reference_pdb := data_dir // "reference.pdb";
     mda_selection := "CA";
     cutoff_angstrom := 8;
     compute_device_index := 0 |}.

(** The same settings with a short run (ten steps, a frame every second
    step) and device 1 asked for. *)
Definition config_short : MDSimulationSettings :=
  {| solvent_type := "implicit";
     dt_ps := 0.002;
     temperature_kelvin := 310;
     heat_bath_friction_coef := 1;
     barostat_kind := "MonteCarloBarostat";
     report_interval_ps := 0.004;
     simulation_length_ns := 0.00002;
     rmsd_reference_pdb := data_dir // "reference.pdb";
     mda_selection := "CA";
     cutoff_angstrom := 8;
     compute_device_index := 1 |}.

(** The engine moves every atom by a thousandth per step along x. *)
Definition drift (id : nat) (step_ : Z) : Frame :=
  {| frame_positions :=
       map (fun p => let '(x, y, z) := p in (x + inject_Z step_ / 1000, y, z))
           coords20;
     frame_dimensions := None |}.

Definition env_cpu : Env :=
  {| available_platforms := ["CPU"]%string;
     dynamics := drift;
     random_source := fun n => (Z.of_nat n * 7919)%Z |}.

(** An engine on the CPU that leaves every atom where it is. *)
Definition env_still : Env :=
  {| available_platforms := ["CPU"]%string;
     dynamics := fun _ _ => {| frame_positions := coords20;
                               frame_dimensions := None |};
     random_source := fun n => (Z.of_nat n * 7919)%Z |}.

Definition env_cuda : Env :=
  {| available_platforms := ["CUDA"; "OpenCL"; "CPU"]%string;
     dynamics := drift;
     random_source := fun n => (Z.of_nat n * 7919)%Z |}.

Definition st0 : State := init run1 out1 fs0.

Definition from_pdb : SimulationStartType :=
  SimulationFromPDB (data_dir // "protein.pdb") (Some (data_dir // "protein.prmtop")).

(** An explicit-solvent trajectory under pressure coupling: two atoms at
    x = 1 and x = 9.5, in a cubic box of edge 10 in the first frame and of
    edge 20 in the second. *)
Definition config_pbc : MDSimulationSettings :=
  {| solvent_type := "explicit";
     dt_ps := 0.002;
     temperature_kelvin := 310;
     heat_bath_friction_coef := 1;
     barostat_kind := "MonteCarloBarostat";
     report_interval_ps := 0.002;
     simulation_length_ns := 0.000004;
     rmsd_reference_pdb := data_dir // "pair.pdb";
     mda_selection := "CA";
     cutoff_angstrom := 2;
     compute_device_index := 0 |}.

Definition pair_coords : list Vec3 := [(1, 0, 0); (9.5, 0, 0)].

Definition frame_box10 : Frame :=
  {| frame_positions := pair_coords; frame_dimensions := cubic 10 |}.

Definition frame_box20 : Frame :=
  {| frame_positions := pair_coords; frame_dimensions := cubic 20 |}.

Definition fs_pbc : FileSystem :=
  [ (data_dir // "pair.pdb", PdbData ["CA"; "CA"] pair_coords (cubic 10));
    (run1 // "sim.dcd", DcdData [frame_box10; frame_box20]) ]%string.

Definition st_pbc : State := init run1 out1 fs_pbc.

(** A manager after a first run from a structure file in [run1], and the
    same manager when its base class has moved it on to the working
    directory of the next run. *)
Definition st_first : State :=
  snd (initialize_run config_short env_cuda from_pdb st0).

Definition st_second : State := set_self_workdir run2 st_first.

(** The restart scenario of the spec: the source run directory [run1]
    holds a structure, a topology and a trajectory of ten frames; a fresh
    manager working in [run2] is asked for frame 3. *)
Definition fs_restart : FileSystem :=
  [ (run1 // "protein.pdb", PdbData atoms20 coords20 None);
    (run1 // "protein.prmtop", PrmtopData atoms20);
    (run1 // "sim.dcd",
     DcdData (map (fun i => drift 0 (Z.of_nat i)) (seq 1 10)));
    (data_dir // "reference.pdb", PdbData atoms20 coords20 None) ]%string.

Definition st_restart : State := init run2 ["out"; "run-0002"]%string fs_restart.

(** What a run leaves, in numbers: whether it returned, the step count of
    the simulation, and the number of entries of the trajectory, of the
    contact-map array and of the RMSD array in the working directory. *)
Definition run_summary (r : Outcome MDSimulationOutput * State)
  : bool * Z * Z * Z * Z :=
  let st := snd r in
  (match fst r with Returns _ => true | Raises _ => false end,
   match self_sim st with AttrSim sim => currentStep sim | _ => (-1)%Z end,
   match read_file (self_workdir st // "sim.dcd") (files st) with
   | Some (DcdData frames) => Z.of_nat (List.length frames)
   | _ => (-1)%Z
   end,
   match read_file (self_workdir st // "contact_map.npy") (files st) with
   | Some (NpyContactMaps maps) => Z.of_nat (List.length maps)
   | _ => (-1)%Z
   end,
   match read_file (self_workdir st // "rmsd.npy") (files st) with
   | Some (NpyRmsds values) => Z.of_nat (List.length values)
   | _ => (-1)%Z
   end).

(** A manager after a complete short run in [run1], moved on to [run2]:
    its cached simulation carries the two reporters of the first run. *)
Definition st_after_run : State :=
  set_self_workdir run2
    (snd (run config_short env_cpu {| simulation_start := from_pdb |} st0)).

End Scenario.

(* ===================================================================== *)
(** ** MockMDSimulationApplication *)
(* ===================================================================== *)

Module MockMDSimulationApplication.
Section Mock.

(** What a file of no bytes holds. *)
Variable empty_file : FileData.

(** [path.touch()]: a file that is there keeps its content, one that is not
    is created empty. *)
Definition touch (p : Path) : M State unit :=
  st <- get ;;
  if exists_file p (files st) then ret tt
  else modify (set_files (write_file p empty_file (files st))).

Definition run (input_data : MDSimulationInput) : M State MDSimulationOutput :=
  st <- get ;;
  touch (self_workdir st // "contact_map.npy") ;;;
  touch (self_workdir st // "rmsd.npy") ;;;
  ret {| contact_map_path := self_persistent_dir st // "contact_map.npy";
         rmsd_path := self_persistent_dir st // "rmsd.npy" |}.

End Mock.
End MockMDSimulationApplication.

(* ===================================================================== *)
(** ** What the properties are stated with *)
(* ===================================================================== *)

Module Footprint.

(** The file a reporter writes to. *)
Definition reporter_file (r : Reporter) : Path :=
  match r with
  | DCDReporter file _ => file
  | StateDataReporter file _ => file
  end.

(** Two file systems that agree on every file that is not a child of
    [dir]. *)
Definition same_outside (dir : Path) (fs fs' : FileSystem) : Prop :=
  forall p, is_child dir p = false -> read_file p fs' = read_file p fs.

(** A state that differs from an earlier one, in its files, only inside the
    working directory, which is the same. *)
Definition within_workdir (st st' : State) : Prop :=
  self_workdir st' = self_workdir st /\
  same_outside (self_workdir st) (files st) (files st').


End Footprint.
Export Footprint.

Module Variants.
Import Scenario.

(** The short run with a timestep of zero. *)
Definition config_zero_dt : MDSimulationSettings :=
  {| solvent_type := "implicit";
     dt_ps := 0;
     temperature_kelvin := 310;
     heat_bath_friction_coef := 1;
     barostat_kind := "MonteCarloBarostat";
     report_interval_ps := 0.004;
     simulation_length_ns := 0.00002;
     rmsd_reference_pdb := data_dir // "reference.pdb";
     mda_selection := "CA";
     cutoff_angstrom := 8;
     compute_device_index := 0 |}.



End Variants.

(* ===================================================================== *)
(** * Properties *)
(* ===================================================================== *)

Import Scenario.
Import Variants.

(** ** The monad *)

Lemma bind_returns_inv {S A B} (m : M S A) (k : A -> M S B) s b s' :
  bind m k s = (Returns b, s') ->
  exists a s1, m s = (Returns a, s1) /\ k a s1 = (Returns b, s').
Proof.
  unfold bind. destruct (m s) as [[a | e] s1]; intros E.
  - exists a, s1. split; [reflexivity | exact E].
  - discriminate E.
Qed.

Lemma bind_returns {S A B} (m : M S A) (k : A -> M S B) s a s1 :
  m s = (Returns a, s1) -> bind m k s = k a s1.
Proof. intros E. unfold bind. rewrite E. reflexivity. Qed.

Lemma bind_raises {S A B} (m : M S A) (k : A -> M S B) s e s1 :
  m s = (Raises e, s1) -> bind m k s = (Raises e, s1).
Proof. intros E. unfold bind. rewrite E. reflexivity. Qed.

Lemma lift_returns_inv {S A} (o : Outcome A) (s s' : S) a :
  lift o s = (Returns a, s') -> o = Returns a /\ s' = s.
Proof. unfold lift. intros E. inversion E. split; reflexivity. Qed.

(** ** Paths and files *)

Lemma Path_eqb_refl p : Path_eqb p p = true.
Proof.
  induction p as [| a p IH]; simpl; [reflexivity |].
  rewrite String.eqb_refl, IH. reflexivity.
Qed.

Lemma Path_eqb_eq p q : Path_eqb p q = true <-> p = q.
Proof.
  split.
  - revert q. induction p as [| a p IH]; intros [| b q] E; simpl in E;
      try discriminate; [reflexivity |].
    apply andb_true_iff in E. destruct E as [Ea Ep].
    apply String.eqb_eq in Ea. rewrite Ea, (IH q Ep). reflexivity.
  - intros ->. apply Path_eqb_refl.
Qed.

Lemma Path_eqb_neq p q : p <> q -> Path_eqb p q = false.
Proof.
  intros N. destruct (Path_eqb p q) eqn:E; [|reflexivity].
  apply Path_eqb_eq in E. contradiction.
Qed.

Lemma joinpath_inj p a b : p // a = p // b -> a = b.
Proof. unfold joinpath. intros E. apply app_inj_tail in E. tauto. Qed.

Lemma read_write_same p d fs : read_file p (write_file p d fs) = Some d.
Proof.
  induction fs as [| [q d'] fs IH]; simpl.
  - rewrite Path_eqb_refl. reflexivity.
  - destruct (Path_eqb p q) eqn:E; simpl; rewrite E; [reflexivity | exact IH].
Qed.

Lemma read_write_other p q d fs :
  p <> q -> read_file p (write_file q d fs) = read_file p fs.
Proof.
  intros N. induction fs as [| [r d'] fs IH]; simpl.
  - rewrite (Path_eqb_neq _ _ N). reflexivity.
  - destruct (Path_eqb q r) eqn:E; simpl.
    + apply Path_eqb_eq in E. subst r. rewrite (Path_eqb_neq _ _ N). reflexivity.
    + destruct (Path_eqb p r); [reflexivity | exact IH].
Qed.

(** ** C3: continuing without a cached simulation *)

(** C3.  [initialize_run] with the Continue start condition, on a manager
    whose [sim] is still [None], raises [RuntimeError]; the state it leaves
    is the state it found, so no simulation has been built, installed or
    released and no file has been written. *)
Theorem continue_without_cached_simulation_raises
    (config : MDSimulationSettings) (env : Env) (st : State) :
  self_sim st = AttrNone ->
  initialize_run config env ContinueSimulation st
  = (Raises (RuntimeError "Tried to continue a simulation that doesn't exist."),
     st).
Proof.
  intros Hnone. simpl. unfold init_continue_simulation, bind, get.
  rewrite Hnone. reflexivity.
Qed.

Lemma continue_without_cached_simulation_raises_witness :
  self_sim st0 = AttrNone /\
  initialize_run config_e2e env_cpu ContinueSimulation st0
  = (Raises (RuntimeError "Tried to continue a simulation that doesn't exist."),
     st0).
Proof.
  split.
  - reflexivity.
  - apply (continue_without_cached_simulation_raises config_e2e env_cpu st0).
    reflexivity.
Defined.

(** ** The analysis loop *)

Section Analysis.

Variable config : MDSimulationSettings.
Context `{Library}.

(** The row block, the column block and the RMSD the loop stores for one
    frame. *)
Let stored_row atoms box fr := astype_int16 (coo_row (frame_coo config atoms box fr)).
Let stored_col atoms box fr := astype_int16 (coo_col (frame_coo config atoms box fr)).

Lemma analyze_frame_fold atoms ref_positions box frames rows cols rmsds :
  fold_left (analyze_frame config atoms ref_positions box) frames
            (rows, cols, rmsds)
  = (rows ++ map (stored_row atoms box) frames,
     cols ++ map (stored_col atoms box) frames,
     rmsds ++ map (fun fr => rmsd (group_positions atoms fr) ref_positions)
                  frames).
Proof.
  revert rows cols rmsds.
  induction frames as [| fr frames IH]; intros rows cols rmsds; simpl.
  - rewrite !app_nil_r. reflexivity.
  - rewrite IH. rewrite <- !app_assoc. reflexivity.
Qed.

Lemma combine_map_map {A B C} (f : A -> B) (g : A -> C) (l : list A) :
  combine (map f l) (map g l) = map (fun x => (f x, g x)) l.
Proof. induction l as [| x l IH]; simpl; [reflexivity | now rewrite IH]. Qed.

(** The analysis as two maps over the aligned trajectory. *)
Lemma analyze_universe_maps (mda_u ref_u : Universe) :
  let aligned := AlignTraj_run mda_u ref_u (mda_selection config) in
  let atoms := select_atoms (mda_selection config) (u_atoms aligned) in
  let box := atoms_dimensions aligned in
  let ref_positions :=
    group_positions (select_atoms (mda_selection config) (u_atoms ref_u))
                    (ts ref_u) in
  analyze_universe config mda_u ref_u
  = (map (fun fr => stored_row atoms box fr ++ stored_col atoms box fr)
         (u_trajectory aligned),
     map (fun fr => rmsd (group_positions atoms fr) ref_positions)
         (u_trajectory aligned)).
Proof.
  intros aligned atoms box ref_positions. unfold analyze_universe.
  fold aligned. fold atoms. fold box. fold ref_positions.
  rewrite analyze_frame_fold. simpl.
  rewrite combine_map_map, map_map. reflexivity.
Qed.

Lemma AlignTraj_run_length (mda_u ref_u : Universe) sel :
  List.length (u_trajectory (AlignTraj_run mda_u ref_u sel))
  = List.length (u_trajectory mda_u).
Proof. unfold AlignTraj_run. simpl. apply length_map. Qed.

Lemma int16_small z : -32768 <= z <= 32767 -> int16 z = z.
Proof. intros Hz. unfold int16. rewrite Z.mod_small; lia. Qed.

Lemma astype_int16_small (n : nat) (a : list Z) :
  Z.of_nat n <= 32767 ->
  forallb (fun i => (0 <=? i) && (i <? Z.of_nat n)) a = true ->
  astype_int16 a = a.
Proof.
  intros Hn Ha. unfold astype_int16.
  induction a as [| z a IH]; simpl in *; [reflexivity |].
  apply andb_true_iff in Ha. destruct Ha as [Hz Ha].
  apply andb_true_iff in Hz. destruct Hz as [Hlo Hhi].
  apply Z.leb_le in Hlo. apply Z.ltb_lt in Hhi.
  rewrite int16_small by lia. rewrite (IH Ha). reflexivity.
Qed.

End Analysis.

(** The box the loop uses is read once, with the reader on the first frame:
    it is the box of the first frame of the trajectory. *)
Lemma analysis_box_is_first_frame_box `{Library} (mda_u ref_u : Universe) sel :
  atoms_dimensions (AlignTraj_run mda_u ref_u sel)
  = frame_dimensions (nth 0 (u_trajectory mda_u) empty_frame).
Proof.
  unfold atoms_dimensions, ts, AlignTraj_run. simpl.
  destruct (u_trajectory mda_u) as [| fr frames]; reflexivity.
Qed.

(** ** C6: one entry per frame, rows before columns *)

(** C6.  When the structure, the trajectory of [F] frames and the reference
    can be read, [analyze_simulation] returns a contact-map list and an RMSD
    list of [F] entries each, in frame order; the entry of frame [k] in the
    contact-map list is the row-index array stored for that frame followed
    by its column-index array, and the entry in the RMSD list is the RMSD of
    that frame. *)
Theorem analyze_simulation_one_entry_per_frame
    (config : MDSimulationSettings) `{Library} (st : State)
    (pdb_file traj_file : Path) (atoms_ : list Atom) (fr0 : Frame)
    (frames : list Frame) (ref_atoms : list Atom) (ref_fr : Frame) :
  read_structure pdb_file (files st) = Returns (atoms_, fr0) ->
  read_trajectory traj_file (files st) = Returns frames ->
  read_structure (rmsd_reference_pdb config) (files st)
  = Returns (ref_atoms, ref_fr) ->
  exists contact_maps rmsds,
    analyze_simulation config pdb_file traj_file st
    = (Returns (contact_maps, rmsds), st) /\
    List.length contact_maps = List.length frames /\
    List.length rmsds = List.length frames /\
    let mda_u := {| u_atoms := atoms_; u_trajectory := frames; u_frame := 0 |} in
    let ref_u := {| u_atoms := ref_atoms; u_trajectory := [ref_fr]; u_frame := 0 |} in
    let aligned := AlignTraj_run mda_u ref_u (mda_selection config) in
    let atoms := select_atoms (mda_selection config) atoms_ in
    let box := atoms_dimensions aligned in
    forall (k : nat) (fr : Frame),
      nth_error (u_trajectory aligned) k = Some fr ->
      nth_error contact_maps k
      = Some (astype_int16 (coo_row (frame_coo config atoms box fr))
              ++ astype_int16 (coo_col (frame_coo config atoms box fr))) /\
      nth_error rmsds k
      = Some (rmsd (group_positions atoms fr)
                   (group_positions (select_atoms (mda_selection config) ref_atoms)
                                    ref_fr)).
Proof.
  intros Hpdb Htraj Href.
  set (mda_u := {| u_atoms := atoms_; u_trajectory := frames; u_frame := 0 |}).
  set (ref_u := {| u_atoms := ref_atoms; u_trajectory := [ref_fr]; u_frame := 0 |}).
  exists (fst (analyze_universe config mda_u ref_u)),
         (snd (analyze_universe config mda_u ref_u)).
  split.
  - unfold analyze_simulation, bind, get, lift, ret.
    unfold Universe_of_trajectory, Universe_of_structure.
    rewrite Hpdb, Htraj, Href. fold mda_u. fold ref_u.
    destruct (analyze_universe config mda_u ref_u). reflexivity.
  - rewrite analyze_universe_maps. cbv zeta. unfold fst, snd.
    rewrite !length_map, AlignTraj_run_length.
    split; [reflexivity |]. split; [reflexivity |].
    intros k fr Hk. rewrite !nth_error_map, Hk. split; reflexivity.
Qed.

Lemma analyze_simulation_one_entry_per_frame_witness :
  read_trajectory (run1 // "sim.dcd") (files st_pbc)
  = Returns [frame_box10; frame_box20] /\
  exists contact_maps rmsds,
    analyze_simulation config_pbc (data_dir // "pair.pdb") (run1 // "sim.dcd")
                       st_pbc
    = (Returns (contact_maps, rmsds), st_pbc) /\
    List.length contact_maps = 2%nat /\ List.length rmsds = 2%nat.
Proof.
  split; [reflexivity |].
  destruct (analyze_simulation_one_entry_per_frame config_pbc st_pbc
              (data_dir // "pair.pdb") (run1 // "sim.dcd")
              ["CA"; "CA"] frame_box10 [frame_box10; frame_box20]
              ["CA"; "CA"] frame_box10 eq_refl eq_refl eq_refl)
    as (contact_maps & rmsds & Hrun & Hmaps & Hrmsds & _).
  exists contact_maps, rmsds. repeat split; assumption.
Defined.

(** ** C8: the sixteen-bit indices *)

(** C8.  When the selection has at most 32767 atoms, the array stored for a
    frame holds the row indices and the column indices of the contact matrix
    of the frame themselves: the cast to sixteen bits changes none of
    them. *)
Theorem stored_contact_indices_are_exact
    (config : MDSimulationSettings) `{Library} (mda_u ref_u : Universe) :
  let aligned := AlignTraj_run mda_u ref_u (mda_selection config) in
  let atoms := select_atoms (mda_selection config) (u_atoms aligned) in
  let box := atoms_dimensions aligned in
  Z.of_nat (List.length atoms) <= 32767 ->
  forall (k : nat) (fr : Frame),
    nth_error (u_trajectory aligned) k = Some fr ->
    nth_error (fst (analyze_universe config mda_u ref_u)) k
    = Some (coo_row (frame_coo config atoms box fr)
            ++ coo_col (frame_coo config atoms box fr)).
Proof.
  intros aligned atoms box Hcount k fr Hk.
  rewrite analyze_universe_maps. cbv zeta. unfold fst.
  fold aligned. fold atoms. fold box.
  rewrite nth_error_map, Hk. cbn [option_map]. cbv beta. f_equal.
  pose proof (contact_matrix_shape (group_positions atoms fr)
                (cutoff_angstrom config) box) as Hshape.
  unfold group_positions in Hshape at 1. rewrite length_map in Hshape.
  change (tocoo (contact_matrix (group_positions atoms fr)
                   (cutoff_angstrom config) box))
    with (frame_coo config atoms box fr) in Hshape.
  unfold coo_in_shape in Hshape. rewrite forallb_app in Hshape.
  apply andb_true_iff in Hshape. destruct Hshape as [Hrow Hcol].
  rewrite (astype_int16_small _ _ Hcount Hrow).
  rewrite (astype_int16_small _ _ Hcount Hcol). reflexivity.
Qed.

Lemma stored_contact_indices_are_exact_witness :
  nth_error
    (fst (analyze_universe config_pbc
            {| u_atoms := ["CA"; "CA"]; u_trajectory := [frame_box10; frame_box20];
               u_frame := 0 |}
            {| u_atoms := ["CA"; "CA"]; u_trajectory := [frame_box10];
               u_frame := 0 |})) 1
  = Some (coo_row (frame_coo config_pbc [0; 1]%nat (cubic 10) frame_box20)
          ++ coo_col (frame_coo config_pbc [0; 1]%nat (cubic 10) frame_box20)).
Proof.
  pose proof (stored_contact_indices_are_exact config_pbc
           {| u_atoms := ["CA"; "CA"]; u_trajectory := [frame_box10; frame_box20];
              u_frame := 0 |}
           {| u_atoms := ["CA"; "CA"]; u_trajectory := [frame_box10];
              u_frame := 0 |}) as W.
  cbv zeta in W.
  assert (Hcount : Z.of_nat 2 <= 32767) by lia.
  specialize (W Hcount 1%nat frame_box20 eq_refl).
  exact W.
Defined.

(** The bound is where the cast starts to change indices. *)
Lemma int16_wraps_at_32768 : int16 32767 = 32767 /\ int16 32768 = -32768.
Proof. split; reflexivity. Qed.

(** ** C2: the box of the contact computation *)

(** C2.  A trajectory of two frames with the same coordinates, two atoms at
    x = 1 and x = 9.5, a cutoff of 2, a cubic box of edge 10 in the first
    frame and of edge 20 in the second.  Under its own box the second frame
    has no contact between the two atoms (its coordinate form is rows
    [0; 1], columns [0; 1]); the analysis stores for it the contacts under
    the box of the first frame, where the two atoms are in contact across
    the boundary. *)
Theorem analyze_simulation_reuses_first_box :
  exists rmsds,
    analyze_simulation config_pbc (data_dir // "pair.pdb") (run1 // "sim.dcd")
                       st_pbc
    = (Returns ([[0; 0; 1; 1; 0; 1; 0; 1]; [0; 0; 1; 1; 0; 1; 0; 1]], rmsds),
       st_pbc) /\
    frame_dimensions frame_box20 = cubic 20 /\
    concatenate
      (coo_row (frame_coo config_pbc [0; 1]%nat (cubic 20) frame_box20),
       coo_col (frame_coo config_pbc [0; 1]%nat (cubic 20) frame_box20))
    = [0; 1; 0; 1].
Proof.
  eexists. split; [| split].
  - vm_compute. reflexivity.
  - reflexivity.
  - vm_compute. reflexivity.
Qed.

(** ** The configurator and the lifecycle manager, step by step *)

Ltac step_in H :=
  match type of H with
  | context [match ?x with _ => _ end] =>
      lazymatch x with
      | context [match _ with _ => _ end] => fail
      | _ => destruct x eqn:?; try discriminate H
      end
  end.

Ltac unfold_monad_in H :=
  unfold assert in H; unfold bind, get, modify, ret, lift, raise in H.

(** A simulation that [configure_simulation] returns is a new object, fully
    set up: positions read from [pdb_file], energy minimised, velocities
    drawn, no reporter, no step taken; the platform and its properties are
    those of the hardware block. *)
Lemma configure_simulation_returns env pdb top solvent gpu dt T fr baro st sim st' :
  configure_simulation env pdb top solvent gpu dt T fr baro true true true st
  = (Returns sim, st') ->
  st' = bump_rng (log_event (Built (next_sim_id st)) (bump_sim_id st)) /\
  sim_id sim = next_sim_id st /\
  reporters sim = [] /\ currentStep sim = 0 /\ minimized sim = true /\
  velocities_seed sim = Some (1 + random_source env (rng_calls st) mod 10000) /\
  positions_file sim = Some pdb /\
  (exists atoms coords box,
      read_file pdb (files st) = Some (PdbData atoms coords box) /\
      context_positions sim = Some coords) /\
  configure_hardware env gpu = Returns (platform sim, platform_properties sim).
Proof.
  unfold configure_simulation, _configure_amber_implicit,
    _configure_amber_explicit, Simulation_new, PDBFile_open,
    AmberPrmtopFile_open, randint_1_10000.
  intros E. unfold_monad_in E.
  repeat step_in E.
  all: inversion E; subst; clear E.
  all: repeat match goal with
         | H : (_, _) = (_, _) |- _ => inversion H; subst; clear H
         end.
  all: simpl in *.
  all: repeat split; try reflexivity; try assumption; eauto.
Qed.

Lemma release_cached_simulation_returns st st1 :
  release_cached_simulation st = (Returns tt, st1) ->
  st1 = match self_sim st with
        | AttrSim old =>
            log_event (Released (sim_id old)) (set_self_sim AttrDeleted st)
        | _ => st
        end.
Proof.
  unfold release_cached_simulation. intros E. unfold_monad_in E.
  destruct (self_sim st); inversion E; reflexivity.
Qed.

Lemma init_simulation_returns config env pdb top st st' :
  init_simulation config env pdb top st = (Returns tt, st') ->
  exists st1 sim st2,
    release_cached_simulation st = (Returns tt, st1) /\
    configure_simulation env pdb top (solvent_type config) 0 (dt_ps config)
      (temperature_kelvin config) (heat_bath_friction_coef config)
      "MonteCarloBarostat" true true true st1 = (Returns sim, st2) /\
    st' = log_event (Installed (sim_id sim)) (set_self_sim (AttrSim sim) st2).
Proof.
  unfold init_simulation. intros E.
  apply bind_returns_inv in E. destruct E as ([] & st1 & E1 & E).
  apply bind_returns_inv in E. destruct E as (sim & st2 & E2 & E).
  exists st1, sim, st2. repeat split; try assumption.
  unfold_monad_in E. inversion E. reflexivity.
Qed.

Lemma copy_to_workdir_returns p st r st1 :
  copy_to_workdir p st = (Returns r, st1) ->
  match p with
  | None => r = None /\ st1 = st
  | Some src =>
      exists data,
        read_file src (files st) = Some data /\
        r = Some (self_workdir st // name src) /\
        st1 = set_files (write_file (self_workdir st // name src) data (files st)) st
  end.
Proof.
  unfold copy_to_workdir. intros E. destruct p as [src |].
  - unfold_monad_in E.
    destruct (read_file src (files st)) as [data |]; [| discriminate].
    inversion E. exists data. repeat split.
  - unfold_monad_in E. inversion E. split; reflexivity.
Qed.

(** What [init_simulation] leaves when it returns: the new simulation in
    [self.sim], and in the record of events the release of the simulation
    that was cached, if one was, then the construction and the installation
    of the new one. *)
Lemma init_simulation_installs config env pdb top st st' :
  init_simulation config env pdb top st = (Returns tt, st') ->
  exists sim,
    self_sim st' = AttrSim sim /\
    sim_id sim = next_sim_id st /\
    reporters sim = [] /\ currentStep sim = 0 /\ minimized sim = true /\
    velocities_seed sim <> None /\
    positions_file sim = Some pdb /\
    (exists atoms coords box,
        read_file pdb (files st) = Some (PdbData atoms coords box) /\
        context_positions sim = Some coords) /\
    configure_hardware env 0 = Returns (platform sim, platform_properties sim) /\
    events st'
    = events st
      ++ match self_sim st with
         | AttrSim old => [Released (sim_id old)]
         | _ => []
         end
      ++ [Built (sim_id sim); Installed (sim_id sim)] /\
    files st' = files st /\
    self_pdb_file st' = self_pdb_file st /\
    self_top_file st' = self_top_file st /\
    self_workdir st' = self_workdir st /\
    self_persistent_dir st' = self_persistent_dir st.
Proof.
  intros E. apply init_simulation_returns in E.
  destruct E as (st1 & sim & st2 & Erel & Econf & ->).
  apply release_cached_simulation_returns in Erel.
  apply configure_simulation_returns in Econf.
  destruct Econf as (-> & Hid & Hrep & Hstep & Hmin & Hvel & Hpos & Hctx & Hhw).
  exists sim. subst st1.
  destruct Hctx as (atoms & coords & box & Hread & Hctx).
  destruct (self_sim st) as [| | old] eqn:Hold; simpl in *;
    rewrite ?Hid; repeat split; try assumption; try reflexivity;
    try (rewrite Hvel; discriminate);
    try (exists atoms, coords, box; split; assumption);
    try (rewrite <- !app_assoc; reflexivity).
Qed.

(** ** C1: the Continue start condition *)

(** C1, as the code has it.  With a simulation cached and the cached
    structure file (and topology file, if there is one) still readable,
    [initialize_run] with the Continue start condition returns; it keeps
    the cached simulation object as it is and builds or releases none; it
    copies the cached structure and topology files into the working
    directory and rebinds [pdb_file] and [top_file] to the copies. *)
Theorem continue_keeps_simulation_and_copies_files
    (config : MDSimulationSettings) (env : Env) (st : State)
    (pdb : Path) (data : FileData) :
  has_simulation st = true ->
  self_pdb_file st = Some pdb ->
  read_file pdb (files st) = Some data ->
  (forall top, self_top_file st = Some top ->
     exists_file top (write_file (self_workdir st // name pdb) data (files st))
     = true) ->
  exists st',
    initialize_run config env ContinueSimulation st = (Returns tt, st') /\
    self_sim st' = self_sim st /\
    events st' = events st /\
    next_sim_id st' = next_sim_id st /\
    self_pdb_file st' = Some (self_workdir st // name pdb) /\
    self_top_file st'
    = option_map (fun top => self_workdir st // name top) (self_top_file st) /\
    files st'
    = let fs1 := write_file (self_workdir st // name pdb) data (files st) in
      match self_top_file st with
      | None => fs1
      | Some top =>
          match read_file top fs1 with
          | Some top_data => write_file (self_workdir st // name top) top_data fs1
          | None => fs1
          end
      end.
Proof.
  intros Hsim Hpdb Hread Htop.
  unfold has_simulation in Hsim.
  destruct (self_sim st) as [| | sim] eqn:Hcached; try discriminate.
  simpl initialize_run. unfold init_continue_simulation, copy_to_workdir.
  unfold assert. unfold bind, get, modify, ret, raise.
  rewrite Hcached, Hpdb, Hread. simpl.
  destruct (self_top_file st) as [top |] eqn:Htopfile.
  - specialize (Htop top eq_refl). unfold exists_file in Htop.
    destruct (read_file top _) as [top_data |] eqn:Hreadtop; [| discriminate].
    eexists. split; [reflexivity |]. simpl. repeat split; assumption.
  - eexists. split; [reflexivity |]. simpl. repeat split; assumption.
Qed.

Lemma continue_keeps_simulation_and_copies_files_witness :
  exists st',
    initialize_run config_short env_cuda ContinueSimulation st_second
    = (Returns tt, st') /\
    self_sim st' = self_sim st_second /\
    events st' = events st_second /\
    self_pdb_file st' = Some (run2 // "protein.pdb") /\
    self_top_file st' = Some (run2 // "protein.prmtop").
Proof.
  destruct (continue_keeps_simulation_and_copies_files config_short env_cuda
              st_second (run1 // "protein.pdb") (PdbData atoms20 coords20 None))
    as (st' & Hrun & Hsim & Hev & _ & Hpdb & Htop & _).
  - reflexivity.
  - reflexivity.
  - reflexivity.
  - intros top Htop. vm_compute in Htop. inversion Htop. reflexivity.
  - exists st'. repeat split; assumption.
Defined.

(** C1, as the spec has it, fails: a manager that ran in [run1] and continues
    in [run2] leaves Continue with its structure path changed from the file
    in [run1] to a file in [run2] that did not exist before the call. *)
Lemma continue_rebinds_paths_and_writes_files :
  exists st',
    initialize_run config_short env_cuda ContinueSimulation st_second
    = (Returns tt, st') /\
    self_pdb_file st_second = Some (run1 // "protein.pdb") /\
    self_pdb_file st' = Some (run2 // "protein.pdb") /\
    self_pdb_file st' <> self_pdb_file st_second /\
    exists_file (run2 // "protein.pdb") (files st_second) = false /\
    exists_file (run2 // "protein.pdb") (files st') = true /\
    files st' <> files st_second.
Proof.
  eexists. split; [vm_compute; reflexivity |].
  repeat split; try reflexivity; vm_compute; discriminate.
Qed.

(** ** The three initialisers, step by step *)

Lemma init_simulation_from_pdb_returns config env pdb top st st' :
  init_simulation_from_pdb config env pdb top st = (Returns tt, st') ->
  exists top' st1 st2,
    copy_to_workdir (Some pdb) st = (Returns (Some (self_workdir st // name pdb)), st1) /\
    copy_to_workdir top (set_self_pdb_file (Some (self_workdir st // name pdb)) st1)
    = (Returns top', st2) /\
    init_simulation config env (self_workdir st // name pdb) top'
      (set_self_top_file top' st2) = (Returns tt, st').
Proof.
  unfold init_simulation_from_pdb. intros E.
  apply bind_returns_inv in E. destruct E as (p & st1 & E1 & E).
  pose proof (copy_to_workdir_returns _ _ _ _ E1) as (data & _ & -> & _).
  apply bind_returns_inv in E. destruct E as ([] & s & Es & E).
  unfold modify in Es. inversion Es; subst s; clear Es.
  apply bind_returns_inv in E. destruct E as (top' & st2 & E2 & E).
  apply bind_returns_inv in E. destruct E as ([] & s & Es & E).
  unfold modify in Es. inversion Es; subst s; clear Es.
  exists top', st1, st2. repeat split; assumption.
Qed.

Lemma write_pdb_frame_returns pdb dcd frame out st st1 :
  write_pdb_frame pdb dcd frame out st = (Returns tt, st1) ->
  exists mda_u mda_u',
    Universe_of_trajectory pdb dcd (files st) = Returns mda_u /\
    trajectory_getitem mda_u frame = Returns mda_u' /\
    st1 = set_files (atoms_write mda_u' out (files st)) st.
Proof.
  unfold write_pdb_frame. intros E. unfold_monad_in E.
  destruct (Universe_of_trajectory pdb dcd (files st)) as [u |] eqn:Hu;
    [| discriminate].
  destruct (trajectory_getitem u frame) as [u' |] eqn:Hu'; [| discriminate].
  inversion E; subst st1. exists u, u'. repeat split; assumption.
Qed.

Lemma init_simulation_from_restart_returns config env sim_dir frame st st' :
  init_simulation_from_restart config env sim_dir frame st = (Returns tt, st') ->
  exists old_pdb_file dcd_file top st1 st2,
    next (glob sim_dir ".pdb" (files st)) = Returns old_pdb_file /\
    next (glob sim_dir ".dcd" (files st)) = Returns dcd_file /\
    copy_to_workdir
      (match next_or_None (glob sim_dir ".top" (files st)) with
       | None => next_or_None (glob sim_dir ".prmtop" (files st))
       | Some top_file => Some top_file
       end) st = (Returns top, st1) /\
    let pdb_path :=
      self_workdir st
      // (name (parent old_pdb_file) ++ "_frame" ++ format_06 frame ++ ".pdb")%string in
    write_pdb_frame old_pdb_file dcd_file frame pdb_path
      (set_self_pdb_file (Some pdb_path) (set_self_top_file top st1))
    = (Returns tt, st2) /\
    init_simulation config env pdb_path top st2 = (Returns tt, st').
Proof.
  unfold init_simulation_from_restart. intros E.
  apply bind_returns_inv in E. destruct E as (s0 & s & Es & E).
  unfold get in Es. inversion Es; subst s0 s; clear Es.
  apply bind_returns_inv in E. destruct E as (old_pdb_file & s & Es & E).
  apply lift_returns_inv in Es. destruct Es as (Hpdb & ->).
  apply bind_returns_inv in E. destruct E as (dcd_file & s & Es & E).
  apply lift_returns_inv in Es. destruct Es as (Hdcd & ->).
  apply bind_returns_inv in E. destruct E as (top & st1 & Ecopy & E).
  apply bind_returns_inv in E. destruct E as ([] & s & Es & E).
  unfold modify in Es. inversion Es; subst s; clear Es.
  apply bind_returns_inv in E. destruct E as ([] & s & Es & E).
  unfold modify in Es. inversion Es; subst s; clear Es.
  apply bind_returns_inv in E. destruct E as ([] & st2 & Ewrite & E).
  exists old_pdb_file, dcd_file, top, st1, st2.
  split; [assumption |]. split; [assumption |].
  split.
  - destruct (next_or_None (glob sim_dir ".top" (files st))); assumption.
  - cbv zeta. split; assumption.
Qed.

Lemma init_continue_simulation_returns st st' :
  init_continue_simulation st = (Returns tt, st') ->
  has_simulation st = true /\
  self_sim st' = self_sim st /\
  events st' = events st /\
  next_sim_id st' = next_sim_id st.
Proof.
  unfold init_continue_simulation, copy_to_workdir, has_simulation.
  intros E. unfold_monad_in E.
  repeat step_in E.
  all: inversion E; subst; clear E.
  all: repeat match goal with
         | H : (_, _) = (_, _) |- _ => inversion H; subst; clear H
         end.
  all: simpl; repeat split; congruence.
Qed.

(** What each of the two rebuilding start conditions leaves. *)
Lemma rebuilding_start_installs config env start st st' :
  start <> ContinueSimulation ->
  initialize_run config env start st = (Returns tt, st') ->
  exists sim pdb,
    self_sim st' = AttrSim sim /\
    self_pdb_file st' = Some pdb /\
    sim_id sim = next_sim_id st /\
    reporters sim = [] /\ currentStep sim = 0 /\ minimized sim = true /\
    velocities_seed sim <> None /\
    positions_file sim = Some pdb /\
    (exists atoms coords box,
        read_file pdb (files st') = Some (PdbData atoms coords box) /\
        context_positions sim = Some coords) /\
    configure_hardware env 0 = Returns (platform sim, platform_properties sim) /\
    events st'
    = events st
      ++ match self_sim st with
         | AttrSim old => [Released (sim_id old)]
         | _ => []
         end
      ++ [Built (sim_id sim); Installed (sim_id sim)].
Proof.
  intros Hstart E. destruct start as [| pdb_file top_file | sim_dir frame];
    [contradiction | |]; simpl in E.
  - apply init_simulation_from_pdb_returns in E.
    destruct E as (top' & st1 & st2 & E1 & E2 & E).
    apply copy_to_workdir_returns in E1. destruct E1 as (data & _ & _ & ->).
    apply copy_to_workdir_returns in E2.
    apply init_simulation_installs in E.
    destruct E as (sim & Hsim & Hid & Hrep & Hstep & Hmin & Hvel & Hpos & Hctx
                   & Hhw & Hev & Hfiles & Hpdb & _).
    exists sim, (self_workdir st // name pdb_file).
    destruct top_file as [top_src |].
    + destruct E2 as (top_data & _ & -> & ->). simpl in *.
      rewrite Hfiles. repeat split; assumption.
    + destruct E2 as (-> & ->). simpl in *.
      rewrite Hfiles. repeat split; assumption.
  - apply init_simulation_from_restart_returns in E.
    destruct E as (old_pdb & dcd & top & st1 & st2 & _ & _ & Ecopy & Ewrite & E).
    cbv zeta in Ewrite, E.
    apply write_pdb_frame_returns in Ewrite.
    destruct Ewrite as (u & u' & _ & _ & ->).
    apply init_simulation_installs in E.
    destruct E as (sim & Hsim & Hid & Hrep & Hstep & Hmin & Hvel & Hpos & Hctx
                   & Hhw & Hev & Hfiles & Hpdb & _).
    apply copy_to_workdir_returns in Ecopy.
    eexists sim, _.
    destruct (match next_or_None (glob sim_dir ".top" (files st)) with
              | Some top_file => Some top_file
              | None => next_or_None (glob sim_dir ".prmtop" (files st))
              end) as [top_src |].
    + destruct Ecopy as (top_data & _ & -> & ->). simpl in *.
      rewrite Hfiles. repeat split; try eassumption.
    + destruct Ecopy as (-> & ->). simpl in *.
      rewrite Hfiles. repeat split; try eassumption.
Qed.

(** ** C4: what [initialize_run] leaves, and in which order it replaces *)

(** C4, as the code has it.  When [initialize_run] returns, the manager
    holds either the cached simulation it held before, untouched (Continue),
    or a simulation that was built completely in this call: positions set
    from the structure file now cached, energy minimised, velocities drawn,
    no reporter, no step taken.  When a cached simulation is replaced, the
    old one is released first, then the new one is built, then it is
    installed. *)
Theorem initialize_run_keeps_or_rebuilds
    (config : MDSimulationSettings) (env : Env)
    (start : SimulationStartType) (st st' : State) :
  initialize_run config env start st = (Returns tt, st') ->
  match start with
  | ContinueSimulation =>
      has_simulation st = true /\
      self_sim st' = self_sim st /\
      events st' = events st
  | _ =>
      exists sim,
        self_sim st' = AttrSim sim /\
        sim_id sim = next_sim_id st /\
        reporters sim = [] /\ currentStep sim = 0 /\
        context_positions sim <> None /\ positions_file sim = self_pdb_file st' /\
        minimized sim = true /\ velocities_seed sim <> None /\
        events st'
        = events st
          ++ match self_sim st with
             | AttrSim old => [Released (sim_id old)]
             | _ => []
             end
          ++ [Built (sim_id sim); Installed (sim_id sim)]
  end.
Proof.
  intros E. destruct start as [| pdb_file top_file | sim_dir frame].
  - apply init_continue_simulation_returns in E. tauto.
  - apply rebuilding_start_installs in E; [| discriminate].
    destruct E as (sim & pdb & Hsim & Hpdb & Hid & Hrep & Hstep & Hmin & Hvel
                   & Hpos & (a & c & b & _ & Hctx) & _ & Hev).
    exists sim. rewrite Hpdb, Hctx. repeat split; try assumption; discriminate.
  - apply rebuilding_start_installs in E; [| discriminate].
    destruct E as (sim & pdb & Hsim & Hpdb & Hid & Hrep & Hstep & Hmin & Hvel
                   & Hpos & (a & c & b & _ & Hctx) & _ & Hev).
    exists sim. rewrite Hpdb, Hctx. repeat split; try assumption; discriminate.
Qed.

Lemma initialize_run_keeps_or_rebuilds_witness :
  exists st' sim,
    initialize_run config_short env_cuda from_pdb st_first = (Returns tt, st') /\
    self_sim st' = AttrSim sim /\
    sim_id sim = next_sim_id st_first /\
    events st'
    = events st_first
      ++ match self_sim st_first with
         | AttrSim old => [Released (sim_id old)]
         | _ => []
         end
      ++ [Built (sim_id sim); Installed (sim_id sim)].
Proof.
  pose proof (initialize_run_keeps_or_rebuilds config_short env_cuda from_pdb
                st_first
                (snd (initialize_run config_short env_cuda from_pdb st_first)))
    as W.
  assert (E : initialize_run config_short env_cuda from_pdb st_first
              = (Returns tt,
                 snd (initialize_run config_short env_cuda from_pdb st_first)))
    by (vm_compute; reflexivity).
  specialize (W E). cbv beta iota in W.
  destruct W as (sim & Hsim & Hid & _ & _ & _ & _ & _ & _ & Hev).
  exists (snd (initialize_run config_short env_cuda from_pdb st_first)), sim.
  split; [exact E |]. split; [exact Hsim |]. split; [exact Hid |]. exact Hev.
Defined.

(** C4, as the spec has it, fails in the order of replacement: a second run
    from a structure file releases simulation 0 before simulation 1 is
    built. *)
Lemma replacement_releases_before_building :
  exists st',
    initialize_run config_short env_cuda from_pdb st_first = (Returns tt, st') /\
    events st_first = [Built 0; Installed 0]%nat /\
    events st' = [Built 0; Installed 0; Released 0; Built 1; Installed 1]%nat /\
    nth_error (events st') 2 = Some (Released 0) /\
    nth_error (events st') 3 = Some (Built 1).
Proof.
  eexists. split; [vm_compute; reflexivity |].
  split; [reflexivity |]. split; [reflexivity |]. split; reflexivity.
Qed.

(** ** C9: the device index *)

(** C9, as the code has it.  Whatever the settings say,
    [init_simulation] asks the configurator for device 0: the simulation a
    rebuilding start condition installs runs on the first platform to be had
    among CUDA, OpenCL and CPU, with ["DeviceIndex"] = ["0"] in the
    properties of either accelerator platform and no property on the CPU. *)
Theorem device_index_is_zero
    (config : MDSimulationSettings) (env : Env)
    (start : SimulationStartType) (st st' : State) :
  start <> ContinueSimulation ->
  initialize_run config env start st = (Returns tt, st') ->
  exists sim,
    self_sim st' = AttrSim sim /\
    ((platform sim = "CUDA" /\
      platform_properties sim
      = [("DeviceIndex", "0"); ("CudaPrecision", "mixed")]) \/
     (platform sim = "OpenCL" /\
      platform_properties sim = [("DeviceIndex", "0")]) \/
     (platform sim = "CPU" /\ platform_properties sim = [])).
Proof.
  intros Hstart E.
  apply rebuilding_start_installs in E; [| exact Hstart].
  destruct E as (sim & pdb & Hsim & _ & _ & _ & _ & _ & _ & _ & _ & Hhw & _).
  exists sim. split; [exact Hsim |].
  unfold configure_hardware, Platform_getPlatformByName in Hhw.
  destruct (existsb (String.eqb "CUDA") (available_platforms env)).
  - left. inversion Hhw. split; reflexivity.
  - destruct (existsb (String.eqb "OpenCL") (available_platforms env)).
    + right; left. inversion Hhw. split; reflexivity.
    + destruct (existsb (String.eqb "CPU") (available_platforms env));
        [| discriminate Hhw].
      right; right. inversion Hhw. split; reflexivity.
Qed.

Lemma device_index_is_zero_witness :
  exists sim,
    self_sim st_first = AttrSim sim /\
    ((platform sim = "CUDA" /\
      platform_properties sim
      = [("DeviceIndex", "0"); ("CudaPrecision", "mixed")]) \/
     (platform sim = "OpenCL" /\
      platform_properties sim = [("DeviceIndex", "0")]) \/
     (platform sim = "CPU" /\ platform_properties sim = [])).
Proof.
  assert (Hstart : from_pdb <> ContinueSimulation) by discriminate.
  assert (E : initialize_run config_short env_cuda from_pdb st0
              = (Returns tt, st_first))
    by (vm_compute; reflexivity).
  exact (device_index_is_zero config_short env_cuda from_pdb st0 st_first
           Hstart E).
Defined.

(** C9, as the spec has it, fails: with device 1 in the settings and CUDA to
    be had, the simulation is configured for device 0. *)
Lemma device_index_of_settings_is_ignored :
  exists st' sim,
    initialize_run config_short env_cuda from_pdb st0 = (Returns tt, st') /\
    self_sim st' = AttrSim sim /\
    platform sim = "CUDA" /\
    compute_device_index config_short = 1 /\
    platform_properties sim
    = [("DeviceIndex", "0"); ("CudaPrecision", "mixed")] /\
    platform_properties sim
    <> [("DeviceIndex", str (compute_device_index config_short));
        ("CudaPrecision", "mixed")].
Proof.
  eexists. eexists. split; [vm_compute; reflexivity |].
  split; [reflexivity |]. split; [reflexivity |]. split; [reflexivity |].
  split; [reflexivity |]. vm_compute. discriminate.
Qed.

(** ** Formatting a frame index *)

Lemma string_app_assoc (a b c : string) :
  ((a ++ b) ++ c = a ++ (b ++ c))%string.
Proof. induction a as [| x a IH]; simpl; [reflexivity | now rewrite IH]. Qed.

Lemma string_app_nil_r (a : string) : (a ++ "" = a)%string.
Proof. induction a as [| x a IH]; simpl; [reflexivity | now rewrite IH]. Qed.

Lemma string_length_app (a b : string) :
  String.length (a ++ b) = (String.length a + String.length b)%nat.
Proof. induction a as [| x a IH]; simpl; [reflexivity | now rewrite IH]. Qed.

Lemma digit_char_code d :
  0 <= d <= 9 -> Z.of_nat (nat_of_ascii (digit_char d)) = 48 + d.
Proof.
  intros Hd. unfold digit_char. rewrite nat_ascii_embedding; lia.
Qed.

Lemma decimal_value_acc_digit acc d rest :
  0 <= d <= 9 ->
  decimal_value_acc acc (String (digit_char d) rest)
  = decimal_value_acc (10 * acc + d) rest.
Proof.
  intros Hd. cbn [decimal_value_acc]. rewrite (digit_char_code d Hd).
  replace (48 <=? 48 + d) with true by (symmetry; apply Z.leb_le; lia).
  replace (48 + d <=? 57) with true by (symmetry; apply Z.leb_le; lia).
  cbn [andb]. f_equal. lia.
Qed.

Lemma digits_fuel_value fuel : forall n acc rest,
  0 <= n < 10 ^ Z.of_nat fuel ->
  decimal_value_acc acc (digits_fuel fuel n ++ rest)%string
  = decimal_value_acc
      (acc * 10 ^ Z.of_nat (String.length (digits_fuel fuel n)) + n) rest.
Proof.
  induction fuel as [| fuel IH]; intros n acc rest Hn.
  - simpl in *. f_equal. lia.
  - cbn [digits_fuel]. destruct (n <? 10) eqn:Hsmall.
    + apply Z.ltb_lt in Hsmall. cbn [String.append String.length].
      rewrite decimal_value_acc_digit by lia. f_equal.
      change (10 ^ Z.of_nat 1) with 10. lia.
    + apply Z.ltb_ge in Hsmall.
      assert (Hdiv : 0 <= n / 10 < 10 ^ Z.of_nat fuel).
      { split; [apply Z.div_pos; lia |].
        apply Z.div_lt_upper_bound; [lia |].
        rewrite Nat2Z.inj_succ, Z.pow_succ_r in Hn by lia. lia. }
      rewrite string_app_assoc. rewrite (IH _ _ _ Hdiv).
      cbn [String.append].
      rewrite decimal_value_acc_digit
        by (pose proof (Z.mod_pos_bound n 10); lia).
      f_equal. rewrite string_length_app. cbn [String.length].
      rewrite Nat2Z.inj_add, Z.pow_add_r by lia.
      change (10 ^ Z.of_nat 1) with 10.
      pose proof (Z.div_mod n 10). lia.
Qed.

Lemma digits_fuel_length fuel : forall n (m : nat),
  0 <= n < 10 ^ Z.of_nat m -> (1 <= m)%nat ->
  (String.length (digits_fuel fuel n) <= m)%nat.
Proof.
  induction fuel as [| fuel IH]; intros n m Hn Hm.
  - simpl. lia.
  - cbn [digits_fuel]. destruct (n <? 10) eqn:Hsmall.
    + simpl. lia.
    + apply Z.ltb_ge in Hsmall.
      destruct m as [| [| m]]; [lia | simpl in Hn; lia |].
      rewrite string_length_app. cbn [String.length].
      assert (Hdiv : 0 <= n / 10 < 10 ^ Z.of_nat (S m)).
      { split; [apply Z.div_pos; lia |].
        apply Z.div_lt_upper_bound; [lia |].
        rewrite (Nat2Z.inj_succ (S m)), Z.pow_succ_r in Hn by lia. lia. }
      specialize (IH _ (S m) Hdiv ltac:(lia)). lia.
Qed.

Lemma digits_fuel_enough n :
  0 <= n -> n < 10 ^ Z.of_nat (S (Z.to_nat (Z.log2 n))).
Proof.
  intros Hn. rewrite Nat2Z.inj_succ, Z2Nat.id by apply Z.log2_nonneg.
  destruct (Z.eq_dec n 0) as [-> | Hpos]; [reflexivity |].
  pose proof (Z.log2_spec n ltac:(lia)) as [_ Hup].
  eapply Z.lt_le_trans; [exact Hup |].
  apply Z.pow_le_mono_l. pose proof (Z.log2_nonneg n). lia.
Qed.

Lemma zeros_value k : forall s, decimal_value_acc 0 (zeros k ++ s)%string
                                 = decimal_value_acc 0 s.
Proof.
  induction k as [| k IH]; intros s; [reflexivity |].
  cbn [zeros String.append]. exact (IH s).
Qed.

Lemma zeros_length k : String.length (zeros k) = k.
Proof. induction k as [| k IH]; simpl; [reflexivity | now rewrite IH]. Qed.

Lemma format_06_six_digits k :
  0 <= k < 1000000 ->
  String.length (format_06 k) = 6%nat /\ decimal_value (format_06 k) = Some k.
Proof.
  intros Hk. unfold format_06.
  replace (k <? 0) with false by (symmetry; apply Z.ltb_ge; lia).
  cbv zeta. split.
  - rewrite string_length_app, zeros_length.
    assert (String.length (digits k) <= 6)%nat.
    { unfold digits. apply digits_fuel_length; [| lia].
      change (10 ^ Z.of_nat 6) with 1000000. lia. }
    lia.
  - unfold decimal_value. rewrite zeros_value.
    rewrite <- (string_app_nil_r (digits k)). unfold digits.
    rewrite digits_fuel_value
      by (split; [lia | apply digits_fuel_enough; lia]).
    reflexivity.
Qed.

(** ** Globbing and seeking *)

Lemma glob_first_is_child dir ext fs p :
  next (glob dir ext fs) = Returns p ->
  parent p = dir /\ endswith (name p) ext = true /\ In p (map fst fs).
Proof.
  unfold next. intros E.
  destruct (glob dir ext fs) as [| q rest] eqn:Hglob; [discriminate |].
  inversion E; subst q; clear E.
  assert (Hin : In p (glob dir ext fs)) by (rewrite Hglob; left; reflexivity).
  unfold glob in Hin. apply filter_In in Hin. destruct Hin as [Hin Hmatch].
  apply andb_true_iff in Hmatch. destruct Hmatch as [Hchild Hext].
  unfold is_child in Hchild. destruct p as [| c p]; [discriminate |].
  apply Path_eqb_eq in Hchild. repeat split; assumption.
Qed.

Lemma trajectory_getitem_returns u k u' :
  trajectory_getitem u k = Returns u' ->
  u_atoms u' = u_atoms u /\ u_trajectory u' = u_trajectory u /\
  (0 <= k ->
   u_frame u' = Z.to_nat k /\ (Z.to_nat k < List.length (u_trajectory u))%nat).
Proof.
  unfold trajectory_getitem. intros E.
  destruct (k <? 0) eqn:Hneg.
  - destruct (_ || _); [discriminate |]. inversion E; subst; simpl.
    repeat split; apply Z.ltb_lt in Hneg; lia.
  - destruct ((k <? 0) || _) eqn:Hout; [discriminate |].
    inversion E; subst; simpl. apply orb_false_iff in Hout.
    destruct Hout as [_ Hup]. apply Z.leb_gt in Hup.
    repeat split; lia.
Qed.

(** ** C7: restarting from a frame *)

(** C7.  When [initialize_run] returns from a FromRestart start condition
    with source run directory [sim_dir] and frame index [k]: the structure
    and the trajectory are the first [*.pdb] and the first [*.dcd] of the
    directory; the topology is the first [*.top] if there is one, else the
    first [*.prmtop], else none; the manager has written a structure file
    named by the name of [sim_dir], ["_frame"], the index [k] zero-padded
    (six digits that read back as [k] when [0 <= k < 1000000]) and [".pdb"]
    in its working directory, holding the atoms at frame [k] of the
    trajectory; that file is the cached structure file, and the new
    simulation has its positions from that file: the coordinates of frame
    [k]. *)
Theorem restart_extracts_frame_and_starts_from_it
    (config : MDSimulationSettings) (env : Env) (sim_dir : Path) (k : Z)
    (st st' : State) :
  initialize_run config env (SimulationFromRestart sim_dir k) st
  = (Returns tt, st') ->
  let top_file :=
    match next_or_None (glob sim_dir ".top" (files st)) with
    | Some top => Some top
    | None => next_or_None (glob sim_dir ".prmtop" (files st))
    end in
  let files_with_top :=
    match top_file with
    | Some top =>
        match read_file top (files st) with
        | Some data => write_file (self_workdir st // name top) data (files st)
        | None => files st
        end
    | None => files st
    end in
  let pdb_path :=
    self_workdir st
    // (name sim_dir ++ "_frame" ++ format_06 k ++ ".pdb")%string in
  exists old_pdb_file dcd_file mda_u frame_u sim,
    next (glob sim_dir ".pdb" (files st)) = Returns old_pdb_file /\
    next (glob sim_dir ".dcd" (files st)) = Returns dcd_file /\
    Universe_of_trajectory old_pdb_file dcd_file files_with_top = Returns mda_u /\
    trajectory_getitem mda_u k = Returns frame_u /\
    (0 <= k < 1000000 ->
     String.length (format_06 k) = 6%nat /\
     decimal_value (format_06 k) = Some k /\
     ts frame_u = nth (Z.to_nat k) (u_trajectory mda_u) empty_frame) /\
    self_top_file st'
    = option_map (fun top => self_workdir st // name top) top_file /\
    self_pdb_file st' = Some pdb_path /\
    read_file pdb_path (files st')
    = Some (PdbData (u_atoms mda_u) (frame_positions (ts frame_u))
                    (frame_dimensions (ts frame_u))) /\
    self_sim st' = AttrSim sim /\
    positions_file sim = Some pdb_path /\
    context_positions sim = Some (frame_positions (ts frame_u)).
Proof.
  intros E top_file files_with_top pdb_path. simpl in E.
  apply init_simulation_from_restart_returns in E.
  destruct E as (old_pdb & dcd & top & st1 & st2 & Hpdb & Hdcd & Ecopy & Ewrite & E).
  cbv zeta in Ewrite, E.
  pose proof (glob_first_is_child _ _ _ _ Hpdb) as (Hparent & _ & _).
  rewrite Hparent in Ewrite, E. fold pdb_path in Ewrite, E.
  apply write_pdb_frame_returns in Ewrite.
  destruct Ewrite as (u & u' & Hu & Hu' & ->).
  apply init_simulation_installs in E.
  destruct E as (sim & Hsim & _ & _ & _ & _ & _ & Hpos & Hctx & _ & _ & Hfiles
                 & Hpdbfile & Htopfile & _).
  destruct Hctx as (atoms & coords & box & Hread & Hctx).
  simpl in Hread, Hfiles, Hpdbfile, Htopfile, Hu.
  unfold atoms_write in Hread, Hfiles. rewrite read_write_same in Hread.
  inversion Hread; subst atoms coords box; clear Hread.
  pose proof (trajectory_getitem_returns _ _ _ Hu') as (Hatoms & Htraj & Hframe).
  apply copy_to_workdir_returns in Ecopy. fold top_file in Ecopy.
  assert (Hst1 : files st1 = files_with_top /\
                 top = option_map (fun t => self_workdir st // name t) top_file).
  { unfold files_with_top. destruct top_file as [top_src |].
    - destruct Ecopy as (data & Hdata & -> & ->). rewrite Hdata. split; reflexivity.
    - destruct Ecopy as (-> & ->). split; reflexivity. }
  destruct Hst1 as (Hfs1 & Htop). rewrite Hfs1 in Hu.
  exists old_pdb, dcd, u, u', sim.
  split; [exact Hpdb |]. split; [exact Hdcd |]. split; [exact Hu |].
  split; [exact Hu' |]. split.
  { intros Hk. destruct (format_06_six_digits k Hk) as (Hlen & Hval).
    split; [exact Hlen |]. split; [exact Hval |].
    destruct (Hframe ltac:(lia)) as (Hidx & _).
    unfold ts. rewrite Hidx, Htraj. reflexivity. }
  split; [rewrite Htopfile; exact Htop |].
  split; [exact Hpdbfile |].
  split.
  { rewrite Hfiles. rewrite read_write_same. rewrite Hatoms. reflexivity. }
  split; [exact Hsim |]. split; [exact Hpos | exact Hctx].
Qed.

Lemma restart_extracts_frame_and_starts_from_it_witness :
  exists st' sim,
    initialize_run config_short env_cpu (SimulationFromRestart run1 3) st_restart
    = (Returns tt, st') /\
    self_pdb_file st' = Some (run2 // "run-0001_frame000003.pdb") /\
    self_top_file st' = Some (run2 // "protein.prmtop") /\
    self_sim st' = AttrSim sim /\
    positions_file sim = Some (run2 // "run-0001_frame000003.pdb").
Proof.
  pose proof (restart_extracts_frame_and_starts_from_it config_short env_cpu
                run1 3 st_restart
                (snd (initialize_run config_short env_cpu
                        (SimulationFromRestart run1 3) st_restart))) as W.
  assert (E : initialize_run config_short env_cpu
                (SimulationFromRestart run1 3) st_restart
              = (Returns tt,
                 snd (initialize_run config_short env_cpu
                        (SimulationFromRestart run1 3) st_restart)))
    by (vm_compute; reflexivity).
  specialize (W E). cbv zeta in W.
  destruct W as (old_pdb & dcd & u & u' & sim & _ & _ & _ & _ & _ & Htop & Hpdb
                 & _ & Hsim & Hpos & _).
  exists (snd (initialize_run config_short env_cpu
                 (SimulationFromRestart run1 3) st_restart)), sim.
  split; [exact E |]. split; [exact Hpdb |]. split; [exact Htop |].
  split; [exact Hsim | exact Hpos].
Defined.

(** ** Reporters and stepping *)

Lemma div_succ_step c r :
  0 < r -> (c + 1) / r = c / r + (if (c + 1) mod r =? 0 then 1 else 0).
Proof.
  intros Hr. destruct ((c + 1) mod r =? 0) eqn:Hdue.
  - apply Z.eqb_eq in Hdue.
    Z.div_mod_to_equations. nia.
  - apply Z.eqb_neq in Hdue.
    Z.div_mod_to_equations. nia.
Qed.

Lemma simulate_reporters env n : forall s fs,
  reporters (fst (simulate env n s fs)) = reporters s /\
  currentStep (fst (simulate env n s fs)) = currentStep s + Z.of_nat n /\
  sim_id (fst (simulate env n s fs)) = sim_id s.
Proof.
  induction n as [| n IH]; intros s fs.
  - simpl. repeat split; lia.
  - cbn [simulate]. unfold step_once.
    match goal with
    | |- context [simulate env n ?s1 ?fs1] =>
        destruct (IH s1 fs1) as (Hrep & Hstep & Hid)
    end.
    rewrite Hrep, Hstep, Hid. simpl. repeat split; lia.
Qed.

(** With a trajectory reporter on [traj] and a log reporter on another
    file, both every [r] steps, the trajectory gains one frame for every
    multiple of [r] the step count passes. *)
Lemma simulate_frames env traj log r n : forall s fs frames,
  0 < r -> traj <> log ->
  reporters s = [DCDReporter traj r; StateDataReporter log r] ->
  read_file traj fs = Some (DcdData frames) ->
  exists frames',
    read_file traj (snd (simulate env n s fs)) = Some (DcdData frames') /\
    Z.of_nat (List.length frames')
    = Z.of_nat (List.length frames)
      + ((currentStep s + Z.of_nat n) / r - currentStep s / r).
Proof.
  induction n as [| n IH]; intros s fs frames Hr Hneq Hrep Hread.
  - exists frames. simpl. split; [exact Hread |].
    rewrite Z.add_0_r. lia.
  - cbn [simulate]. unfold step_once.
    cbn [reporters set_currentStep currentStep]. rewrite Hrep.
    cbn [fold_left]. unfold due. cbn [reportInterval_of].
    replace (0 <? r) with true by (symmetry; apply Z.ltb_lt; exact Hr).
    cbn [andb].
    pose proof (div_succ_step (currentStep s) r Hr) as Hdiv.
    destruct ((currentStep s + 1) mod r =? 0) eqn:Hdue.
    + cbn [report]. rewrite Hread.
      set (fr := dynamics env _ _).
      set (fs1 := write_file traj (DcdData (frames ++ [fr])) fs).
      set (fs2 := match read_file log fs1 with
                  | Some (LogData steps) => _
                  | _ => _
                  end).
      assert (Hread2 : read_file traj fs2 = Some (DcdData (frames ++ [fr]))).
      { unfold fs2. destruct (read_file log fs1) as [[] |];
          rewrite read_write_other by exact Hneq;
          unfold fs1; apply read_write_same. }
      destruct (IH (set_currentStep (currentStep s + 1) s) fs2 (frames ++ [fr])
                   Hr Hneq Hrep Hread2) as (frames' & Hread' & Hlen).
      exists frames'. split; [exact Hread' |].
      rewrite Hlen. rewrite length_app. cbn [List.length set_currentStep currentStep].
      rewrite Nat2Z.inj_succ.
      replace (currentStep s + 1 + Z.of_nat n)
        with (currentStep s + Z.succ (Z.of_nat n)) by lia.
      lia.
    + destruct (IH (set_currentStep (currentStep s + 1) s) fs frames
                   Hr Hneq Hrep Hread) as (frames' & Hread' & Hlen).
      exists frames'. split; [exact Hread' |].
      rewrite Hlen. cbn [set_currentStep currentStep].
      rewrite Nat2Z.inj_succ.
      replace (currentStep s + 1 + Z.of_nat n)
        with (currentStep s + Z.succ (Z.of_nat n)) by lia.
      lia.
Qed.

Lemma setup_reporters_returns traj r st o st' :
  setup_reporters traj r st = (o, st') ->
  o = Returns tt ->
  exists sim,
    self_sim st = AttrSim sim /\
    st' = set_self_sim
            (AttrSim (set_reporters
                        [DCDReporter traj r;
                         StateDataReporter (self_workdir st // "sim.log") r] sim))
            (set_files
               (write_file (self_workdir st // "sim.log") (LogData [])
                  (write_file traj (DcdData []) (files st)))
               st).
Proof.
  unfold setup_reporters, update_sim, the_sim, DCDReporter_new,
    StateDataReporter_new.
  intros E Ho. subst o. unfold_monad_in E.
  destruct (self_sim st) as [| | sim] eqn:Hsim; try discriminate E.
  simpl in E. inversion E. exists sim. split; reflexivity.
Qed.


Lemma Simulation_step_returns env steps s st s' st' :
  Simulation_step env steps s st = (Returns s', st') ->
  (0 < steps -> forallb (fun r => negb (reportInterval_of r =? 0)) (reporters s) = true) /\
  s' = fst (simulate env (Z.to_nat steps) s (files st)) /\
  st' = (if 0 <? steps
         then set_files (snd (simulate env (Z.to_nat steps) s (files st))) st
         else st).
Proof.
  unfold Simulation_step. intros E.
  destruct (0 <? steps) eqn:Hpos.
  - destruct (existsb _ (reporters s)) eqn:Hzero; [discriminate E |].
    unfold_monad_in E.
    destruct (simulate env (Z.to_nat steps) s (files st)) as [s1 fs1] eqn:Hsim.
    inversion E; subst. split; [| split; reflexivity].
    intros _. apply forallb_forall. intros r Hr.
    destruct (reportInterval_of r =? 0) eqn:Hr0; [| reflexivity].
    assert (existsb (fun r => reportInterval_of r =? 0) (reporters s) = true).
    { apply existsb_exists. exists r. split; assumption. }
    congruence.
  - unfold ret in E. inversion E; subst.
    apply Z.ltb_ge in Hpos.
    replace (Z.to_nat steps) with 0%nat by lia. simpl.
    split; [lia | split; reflexivity].
Qed.

Lemma analyze_simulation_returns config `{Library} pdb traj st maps rmsds st' :
  analyze_simulation config pdb traj st = (Returns (maps, rmsds), st') ->
  st' = st /\
  exists frames,
    read_trajectory traj (files st) = Returns frames /\
    List.length maps = List.length frames /\
    List.length rmsds = List.length frames.
Proof.
  unfold analyze_simulation, Universe_of_trajectory, Universe_of_structure.
  intros E. unfold_monad_in E.
  destruct (read_structure pdb (files st)) as [[atoms fr0] |]; [| discriminate].
  destruct (read_trajectory traj (files st)) as [frames |]; [| discriminate].
  destruct (read_structure (rmsd_reference_pdb config) (files st))
    as [[ref_atoms ref_fr] |]; [| discriminate].
  rewrite analyze_universe_maps in E. cbv zeta in E.
  inversion E; subst maps rmsds st'.
  split; [reflexivity |]. exists frames. split; [reflexivity |].
  unfold AlignTraj_run. cbn [u_trajectory]. rewrite !length_map.
  split; reflexivity.
Qed.

Lemma run_returns config env `{Library} input st out st' :
  run config env input st = (Returns out, st') ->
  exists st1 report_steps nsteps st2 sim2 sim3 st3 pdb_file contact_maps rmsds,
    initialize_run config env (simulation_start input) st = (Returns tt, st1) /\
    report_steps_of config = Returns report_steps /\
    nsteps_of config = Returns nsteps /\
    setup_reporters (self_workdir st1 // "sim.dcd") report_steps st1
    = (Returns tt, st2) /\
    self_sim st2 = AttrSim sim2 /\
    Simulation_step env nsteps sim2 st2 = (Returns sim3, st3) /\
    self_pdb_file st3 = Some pdb_file /\
    analyze_simulation config pdb_file (self_workdir st1 // "sim.dcd")
      (set_self_sim (AttrSim sim3) st3)
    = (Returns (contact_maps, rmsds), set_self_sim (AttrSim sim3) st3) /\
    st' = set_files
            (write_file (self_workdir st3 // "rmsd.npy") (NpyRmsds rmsds)
               (write_file (self_workdir st3 // "contact_map.npy")
                  (NpyContactMaps contact_maps) (files st3)))
            (set_self_sim (AttrSim sim3) st3) /\
    out = {| contact_map_path := self_persistent_dir st3 // "contact_map.npy";
             rmsd_path := self_persistent_dir st3 // "rmsd.npy" |}.
Proof.
  unfold run. intros E.
  apply bind_returns_inv in E. destruct E as ([] & st1 & Einit & E).
  apply bind_returns_inv in E. destruct E as (report_steps & s & Es & E).
  apply lift_returns_inv in Es. destruct Es as (Hreport & ->).
  apply bind_returns_inv in E. destruct E as (nsteps & s & Es & E).
  apply lift_returns_inv in Es. destruct Es as (Hnsteps & ->).
  apply bind_returns_inv in E. destruct E as (s0 & s & Es & E).
  unfold get in Es. inversion Es; subst s0 s; clear Es.
  apply bind_returns_inv in E. destruct E as ([] & st2 & Esetup & E).
  apply bind_returns_inv in E. destruct E as (sim2 & s & Es & E).
  assert (Hsim2 : self_sim st2 = AttrSim sim2 /\ s = st2).
  { unfold the_sim in Es. unfold_monad_in Es.
    destruct (self_sim st2); inversion Es. split; reflexivity. }
  destruct Hsim2 as (Hsim2 & ->). clear Es.
  apply bind_returns_inv in E. destruct E as (sim3 & st3 & Estep & E).
  apply bind_returns_inv in E. destruct E as ([] & s & Es & E).
  unfold modify in Es. inversion Es; subst s; clear Es.
  apply bind_returns_inv in E. destruct E as (s0 & s & Es & E).
  unfold get in Es. inversion Es; subst s0 s; clear Es.
  cbn [self_pdb_file set_self_sim self_workdir self_persistent_dir] in E.
  destruct (self_pdb_file st3) as [pdb_file |] eqn:Hpdb; [| discriminate E].
  apply bind_returns_inv in E. destruct E as ([contact_maps rmsds] & s & Ean & E).
  pose proof (analyze_simulation_returns _ _ _ _ _ _ _ Ean) as (-> & _).
  exists st1, report_steps, nsteps, st2, sim2, sim3, st3, pdb_file,
    contact_maps, rmsds.
  unfold np_save in E. unfold_monad_in E. inversion E.
  repeat (split; [first [assumption | reflexivity] |]). reflexivity.
Qed.

(** ** C10: the reporters of a run *)

(** C10.  In every run that returns, the reporter list of the cached
    simulation, whatever it held, is replaced before stepping by exactly the
    trajectory reporter and the log reporter of this run, both on files of
    the working directory; the simulation steps with these two reporters and
    still has exactly these two when the run returns. *)
Theorem run_steps_with_its_own_two_reporters
    (config : MDSimulationSettings) (env : Env) `{Library}
    (input : MDSimulationInput) (st st' : State) (out : MDSimulationOutput) :
  run config env input st = (Returns out, st') ->
  exists st1 cached report_steps nsteps st2 sim st3,
    initialize_run config env (simulation_start input) st = (Returns tt, st1) /\
    self_sim st1 = AttrSim cached /\
    report_steps_of config = Returns report_steps /\
    nsteps_of config = Returns nsteps /\
    let attached :=
      [DCDReporter (self_workdir st1 // "sim.dcd") report_steps;
       StateDataReporter (self_workdir st1 // "sim.log") report_steps] in
    setup_reporters (self_workdir st1 // "sim.dcd") report_steps st1
    = (Returns tt, st2) /\
    self_sim st2 = AttrSim (set_reporters attached cached) /\
    Simulation_step env nsteps (set_reporters attached cached) st2
    = (Returns sim, st3) /\
    self_sim st' = AttrSim sim /\
    reporters sim = attached.
Proof.
  intros E. apply run_returns in E.
  destruct E as (st1 & report_steps & nsteps & st2 & sim2 & sim3 & st3 & pdb
                 & maps & rmsds & Einit & Hreport & Hnsteps & Esetup & Hsim2
                 & Estep & _ & _ & -> & _).
  destruct (setup_reporters_returns _ _ _ _ _ Esetup eq_refl)
    as (cached & Hcached & Hst2).
  assert (Hsim2' : sim2 = set_reporters
                     [DCDReporter (self_workdir st1 // "sim.dcd") report_steps;
                      StateDataReporter (self_workdir st1 // "sim.log") report_steps]
                     cached).
  { rewrite Hst2 in Hsim2. simpl in Hsim2. inversion Hsim2. reflexivity. }
  subst sim2.
  exists st1, cached, report_steps, nsteps, st2, sim3, st3.
  split; [exact Einit |]. split; [exact Hcached |]. split; [exact Hreport |].
  split; [exact Hnsteps |]. cbv zeta.
  split; [exact Esetup |]. split; [exact Hsim2 |]. split; [exact Estep |].
  split; [reflexivity |].
  apply Simulation_step_returns in Estep. destruct Estep as (_ & -> & _).
  destruct (simulate_reporters env (Z.to_nat nsteps)
              (set_reporters
                 [DCDReporter (self_workdir st1 // "sim.dcd") report_steps;
                  StateDataReporter (self_workdir st1 // "sim.log") report_steps]
                 cached) (files st2)) as (Hrep & _).
  rewrite Hrep. reflexivity.
Qed.

Lemma run_steps_with_its_own_two_reporters_witness :
  exists st1 cached report_steps nsteps st2 sim st3,
    initialize_run config_short env_cpu ContinueSimulation st_after_run
    = (Returns tt, st1) /\
    self_sim st1 = AttrSim cached /\
    report_steps_of config_short = Returns report_steps /\
    nsteps_of config_short = Returns nsteps /\
    let attached :=
      [DCDReporter (self_workdir st1 // "sim.dcd") report_steps;
       StateDataReporter (self_workdir st1 // "sim.log") report_steps] in
    setup_reporters (self_workdir st1 // "sim.dcd") report_steps st1
    = (Returns tt, st2) /\
    self_sim st2 = AttrSim (set_reporters attached cached) /\
    Simulation_step env_cpu nsteps (set_reporters attached cached) st2
    = (Returns sim, st3) /\
    self_sim
      (snd (run config_short env_cpu
              {| simulation_start := ContinueSimulation |} st_after_run))
    = AttrSim sim /\
    reporters sim = attached.
Proof.
  assert (E : run config_short env_cpu
                {| simulation_start := ContinueSimulation |} st_after_run
              = (Returns {| contact_map_path := ["out"; "run-0001"; "contact_map.npy"];
                            rmsd_path := ["out"; "run-0001"; "rmsd.npy"] |},
                 snd (run config_short env_cpu
                        {| simulation_start := ContinueSimulation |} st_after_run)))
    by (vm_compute; reflexivity).
  exact (run_steps_with_its_own_two_reporters config_short env_cpu
           {| simulation_start := ContinueSimulation |} st_after_run _ _ E).
Defined.

(** A run that continues in [run2] a simulation used in [run1]: the cached
    simulation comes with the reporters of [run1] and leaves with those of
    [run2] only. *)
Example continued_run_drops_old_reporters :
  (match self_sim st_after_run with
   | AttrSim cached => reporters cached
   | _ => []
   end)
  = [DCDReporter (run1 // "sim.dcd") 2; StateDataReporter (run1 // "sim.log") 2] /\
  (match self_sim (snd (run config_short env_cpu
                          {| simulation_start := ContinueSimulation |}
                          st_after_run)) with
   | AttrSim sim => reporters sim
   | _ => []
   end)
  = [DCDReporter (run2 // "sim.dcd") 2; StateDataReporter (run2 // "sim.log") 2].
Proof. split; vm_compute; reflexivity. Qed.

Lemma joinpath_neq p a b : a <> b -> p // a <> p // b.
Proof. intros N E. apply joinpath_inj in E. contradiction. Qed.

(** What a run that returns has done, in numbers: the steps of the step
    arithmetic taken, one frame written for every multiple of the report
    interval the step count has passed, and one contact map and one RMSD
    saved per frame. *)
Lemma run_reports_every_interval
    (config : MDSimulationSettings) (env : Env) `{Library}
    (input : MDSimulationInput) (st st' : State) (out : MDSimulationOutput) :
  run config env input st = (Returns out, st') ->
  exists st1 before sim nsteps report_steps frames contact_maps rmsds,
    initialize_run config env (simulation_start input) st = (Returns tt, st1) /\
    self_sim st1 = AttrSim before /\
    nsteps_of config = Returns nsteps /\
    report_steps_of config = Returns report_steps /\
    self_sim st' = AttrSim sim /\
    (0 < nsteps -> currentStep sim = currentStep before + nsteps) /\
    read_file (self_workdir st' // "sim.dcd") (files st')
    = Some (DcdData frames) /\
    (0 < nsteps -> 0 < report_steps ->
     Z.of_nat (List.length frames)
     = (currentStep before + nsteps) / report_steps
       - currentStep before / report_steps) /\
    read_file (self_workdir st' // "contact_map.npy") (files st')
    = Some (NpyContactMaps contact_maps) /\
    List.length contact_maps = List.length frames /\
    read_file (self_workdir st' // "rmsd.npy") (files st')
    = Some (NpyRmsds rmsds) /\
    List.length rmsds = List.length frames.
Proof.
  intros E. apply run_returns in E.
  destruct E as (st1 & report_steps & nsteps & st2 & sim2 & sim3 & st3 & pdb
                 & maps & rmsds & Einit & Hreport & Hnsteps & Esetup & Hsim2
                 & Estep & _ & Ean & -> & _).
  destruct (setup_reporters_returns _ _ _ _ _ Esetup eq_refl)
    as (before & Hbefore & Hst2).
  set (traj := self_workdir st1 // "sim.dcd") in *.
  set (log := self_workdir st1 // "sim.log") in *.
  assert (Hsim2' : sim2 = set_reporters
                     [DCDReporter traj report_steps;
                      StateDataReporter log report_steps] before).
  { rewrite Hst2 in Hsim2. simpl in Hsim2. inversion Hsim2. reflexivity. }
  apply Simulation_step_returns in Estep. destruct Estep as (_ & Hsim3 & Hst3).
  assert (Hneq : traj <> log) by (apply joinpath_neq; discriminate).
  assert (Hread0 : read_file traj (files st2) = Some (DcdData [])).
  { rewrite Hst2. simpl. rewrite read_write_other by exact Hneq.
    apply read_write_same. }
  destruct (simulate_reporters env (Z.to_nat nsteps) sim2 (files st2))
    as (_ & Hstep & _).
  rewrite <- Hsim3 in Hstep.
  assert (Hw3 : self_workdir st3 = self_workdir st1).
  { rewrite Hst3, Hst2. destruct (0 <? nsteps); reflexivity. }
  assert (Hframes : exists frames,
             read_file traj (files st3) = Some (DcdData frames) /\
             (0 < nsteps -> 0 < report_steps ->
              Z.of_nat (List.length frames)
              = (currentStep before + nsteps) / report_steps
                - currentStep before / report_steps)).
  { destruct (0 <? nsteps) eqn:Hpos.
    - apply Z.ltb_lt in Hpos.
      destruct (Z_lt_le_dec 0 report_steps) as [Hr | Hr].
      + destruct (simulate_frames env traj log report_steps (Z.to_nat nsteps)
                    sim2 (files st2) [] Hr Hneq
                    ltac:(rewrite Hsim2'; reflexivity) Hread0)
          as (frames & Hframes & Hlen).
        exists frames. rewrite Hst3. split; [exact Hframes |].
        intros _ _. rewrite Hlen, Hsim2'. cbn [currentStep set_reporters].
        rewrite Z2Nat.id by lia. simpl. lia.
      + rewrite Hst3. cbn [files set_files].
        assert (Hkeep : forall n s fs,
                   reporters s = [DCDReporter traj report_steps;
                                  StateDataReporter log report_steps] ->
                   snd (simulate env n s fs) = fs).
        { induction n as [| n IH]; intros s fs Hrep; [reflexivity |].
          cbn [simulate]. unfold step_once. cbn [reporters set_currentStep].
          rewrite Hrep. cbn [fold_left]. unfold due. cbn [reportInterval_of].
          replace (0 <? report_steps) with false
            by (symmetry; apply Z.ltb_ge; exact Hr).
          cbn [andb]. apply IH. exact Hrep. }
        rewrite Hkeep by (rewrite Hsim2'; reflexivity).
        exists []. split; [exact Hread0 |]. intros _ Hr'. lia.
    - exists []. rewrite Hst3. split; [exact Hread0 |].
      intros Hpos'. apply Z.ltb_ge in Hpos. lia. }
  destruct Hframes as (frames & Hframes & Hlen).
  apply analyze_simulation_returns in Ean.
  destruct Ean as (_ & frames' & Hread' & Hmaps & Hrmsds).
  cbn [files set_self_sim] in Hread'. unfold read_trajectory in Hread'.
  rewrite Hframes in Hread'. inversion Hread'; subst frames'; clear Hread'.
  exists st1, before, sim3, nsteps, report_steps, frames, maps, rmsds.
  cbn [self_sim self_workdir files set_files set_self_sim].
  rewrite Hw3. fold traj.
  split; [exact Einit |]. split; [exact Hbefore |]. split; [exact Hnsteps |].
  split; [exact Hreport |]. split; [reflexivity |].
  split.
  { intros Hpos. rewrite Hstep, Hsim2'. cbn [currentStep set_reporters].
    rewrite Z2Nat.id by lia. reflexivity. }
  split.
  { rewrite !read_write_other by (apply joinpath_neq; discriminate).
    exact Hframes. }
  split; [exact Hlen |].
  split.
  { rewrite read_write_other by (apply joinpath_neq; discriminate).
    apply read_write_same. }
  split; [exact Hmaps |].
  split; [apply read_write_same | exact Hrmsds].
Qed.

(** ** C5: the end-to-end scenario *)

(** C5, as the code has it.  With a timestep of 0.002 ps, a report interval
    of 0.002 ps and 0.01 ns of simulated time, the step count is the
    simulated time over the timestep in one unit, 10 ps / 0.002 ps = 5000,
    and a report is due every 0.002 / 0.002 = 1 step: a run that returns has
    taken 5000 steps, its trajectory has 5000 frames, and the contact-map
    array and the RMSD array it saved have 5000 entries each. *)
Theorem e2e_scenario_takes_5000_steps
    (config : MDSimulationSettings) (env : Env) `{Library}
    (input : MDSimulationInput) (st st' : State) (out : MDSimulationOutput) :
  dt_ps config = 0.002%Q ->
  report_interval_ps config = 0.002%Q ->
  simulation_length_ns config = 0.01%Q ->
  run config env input st = (Returns out, st') ->
  nsteps_of config = Returns 5000 /\
  report_steps_of config = Returns 1 /\
  exists st1 before sim frames contact_maps rmsds,
    initialize_run config env (simulation_start input) st = (Returns tt, st1) /\
    self_sim st1 = AttrSim before /\
    self_sim st' = AttrSim sim /\
    currentStep sim = currentStep before + 5000 /\
    read_file (self_workdir st' // "sim.dcd") (files st')
    = Some (DcdData frames) /\
    Z.of_nat (List.length frames) = 5000 /\
    read_file (self_workdir st' // "contact_map.npy") (files st')
    = Some (NpyContactMaps contact_maps) /\
    Z.of_nat (List.length contact_maps) = 5000 /\
    read_file (self_workdir st' // "rmsd.npy") (files st')
    = Some (NpyRmsds rmsds) /\
    Z.of_nat (List.length rmsds) = 5000.
Proof.
  intros Hdt Hreport Hlength E.
  assert (Hn : nsteps_of config = Returns 5000).
  { unfold nsteps_of. rewrite Hdt, Hlength. reflexivity. }
  assert (Hr : report_steps_of config = Returns 1).
  { unfold report_steps_of. rewrite Hdt, Hreport. reflexivity. }
  split; [exact Hn |]. split; [exact Hr |].
  apply run_reports_every_interval in E.
  destruct E as (st1 & before & sim & nsteps & report_steps & frames & maps
                 & rmsds & Einit & Hbefore & Hn' & Hr' & Hsim & Hsteps & Hframes
                 & Hcount & Hmaps & Hmapslen & Hrmsds & Hrmsdslen).
  rewrite Hn in Hn'. inversion Hn'; subst nsteps; clear Hn'.
  rewrite Hr in Hr'. inversion Hr'; subst report_steps; clear Hr'.
  assert (Hframes5000 : Z.of_nat (List.length frames) = 5000).
  { rewrite Hcount by lia. rewrite !Z.div_1_r. lia. }
  exists st1, before, sim, frames, maps, rmsds.
  split; [exact Einit |]. split; [exact Hbefore |]. split; [exact Hsim |].
  split; [apply Hsteps; lia |].
  split; [exact Hframes |]. split; [exact Hframes5000 |].
  split; [exact Hmaps |]. split; [rewrite Hmapslen; exact Hframes5000 |].
  split; [exact Hrmsds |]. rewrite Hrmsdslen. exact Hframes5000.
Qed.

Lemma e2e_scenario_takes_5000_steps_witness :
  nsteps_of config_e2e = Returns 5000 /\
  report_steps_of config_e2e = Returns 1 /\
  exists st1 before sim frames contact_maps rmsds,
    initialize_run config_e2e env_still from_pdb st0 = (Returns tt, st1) /\
    self_sim st1 = AttrSim before /\
    self_sim (snd (run config_e2e env_still {| simulation_start := from_pdb |} st0))
    = AttrSim sim /\
    currentStep sim = currentStep before + 5000 /\
    read_file
      (self_workdir
         (snd (run config_e2e env_still {| simulation_start := from_pdb |} st0))
       // "sim.dcd")
      (files (snd (run config_e2e env_still {| simulation_start := from_pdb |} st0)))
    = Some (DcdData frames) /\
    Z.of_nat (List.length frames) = 5000 /\
    read_file
      (self_workdir
         (snd (run config_e2e env_still {| simulation_start := from_pdb |} st0))
       // "contact_map.npy")
      (files (snd (run config_e2e env_still {| simulation_start := from_pdb |} st0)))
    = Some (NpyContactMaps contact_maps) /\
    Z.of_nat (List.length contact_maps) = 5000 /\
    read_file
      (self_workdir
         (snd (run config_e2e env_still {| simulation_start := from_pdb |} st0))
       // "rmsd.npy")
      (files (snd (run config_e2e env_still {| simulation_start := from_pdb |} st0)))
    = Some (NpyRmsds rmsds) /\
    Z.of_nat (List.length rmsds) = 5000.
Proof.
  assert (F : fst (run config_e2e env_still {| simulation_start := from_pdb |} st0)
              = Returns {| contact_map_path := out1 // "contact_map.npy";
                           rmsd_path := out1 // "rmsd.npy" |})
    by (vm_compute; reflexivity).
  assert (E : run config_e2e env_still {| simulation_start := from_pdb |} st0
              = (Returns {| contact_map_path := out1 // "contact_map.npy";
                            rmsd_path := out1 // "rmsd.npy" |},
                 snd (run config_e2e env_still
                        {| simulation_start := from_pdb |} st0))).
  { rewrite <- F. apply surjective_pairing. }
  exact (e2e_scenario_takes_5000_steps config_e2e env_still
           {| simulation_start := from_pdb |} st0 _ _
           eq_refl eq_refl eq_refl E).
Defined.

(** The working directory is the same before and after. *)
Lemma initialize_run_workdir config env start st st1 :
  initialize_run config env start st = (Returns tt, st1) ->
  self_workdir st1 = self_workdir st.
Proof.
  intros E. destruct start as [| pdb_file top_file | sim_dir frame]; simpl in E.
  - unfold init_continue_simulation, copy_to_workdir in E.
    unfold_monad_in E. repeat step_in E.
    all: inversion E; subst; clear E.
    all: repeat match goal with
           | H : (_, _) = (_, _) |- _ => inversion H; subst; clear H
           end.
    all: reflexivity.
  - apply init_simulation_from_pdb_returns in E.
    destruct E as (top' & sa & sb & Ea & Eb & Ec).
    apply init_simulation_installs in Ec.
    destruct Ec as (s & _ & _ & _ & _ & _ & _ & _ & _ & _ & _ & _ & _ & _
                    & Hwd & _).
    rewrite Hwd. apply copy_to_workdir_returns in Ea, Eb.
    destruct Ea as (d & _ & _ & ->).
    destruct top_file as [top_src |].
    + destruct Eb as (d' & _ & _ & ->). reflexivity.
    + destruct Eb as (_ & ->). reflexivity.
  - apply init_simulation_from_restart_returns in E.
    destruct E as (old_pdb & dcd & top & sa & sb & _ & _ & Ecopy & Ewrite & Ec).
    cbv zeta in Ewrite, Ec.
    apply init_simulation_installs in Ec.
    destruct Ec as (s & _ & _ & _ & _ & _ & _ & _ & _ & _ & _ & _ & _ & _
                    & Hwd & _).
    rewrite Hwd. apply write_pdb_frame_returns in Ewrite.
    destruct Ewrite as (u & u' & _ & _ & ->).
    apply copy_to_workdir_returns in Ecopy.
    destruct (match next_or_None (glob sim_dir ".top" (files st)) with
              | Some top_file => Some top_file
              | None => next_or_None (glob sim_dir ".prmtop" (files st))
              end) as [top_src |].
    + destruct Ecopy as (d & _ & _ & ->). reflexivity.
    + destruct Ecopy as (_ & ->). reflexivity.
Qed.

Lemma run_workdir config env `{Library} input st out st' :
  run config env input st = (Returns out, st') ->
  self_workdir st' = self_workdir st.
Proof.
  intros E. apply run_returns in E.
  destruct E as (st1 & r & n & st2 & sim2 & sim3 & st3 & pdb & maps & rmsds
                 & Einit & _ & _ & Esetup & _ & Estep & _ & _ & Hst' & _).
  apply initialize_run_workdir in Einit. rewrite Hst'.
  cbn [self_workdir set_files set_self_sim].
  destruct (setup_reporters_returns _ _ _ _ _ Esetup eq_refl)
    as (cached & _ & Hst2).
  apply Simulation_step_returns in Estep. destruct Estep as (_ & _ & Hst3).
  rewrite <- Einit, Hst3, Hst2. destruct (0 <? n); reflexivity.
Qed.

(** The scenario of the spec, in numbers. *)
Lemma e2e_scenario_numbers out st' :
  run config_e2e env_still {| simulation_start := from_pdb |} st0
  = (Returns out, st') ->
  exists sim frames contact_maps rmsds,
    self_sim st' = AttrSim sim /\
    currentStep sim = 5000 /\
    read_file (run1 // "sim.dcd") (files st') = Some (DcdData frames) /\
    Z.of_nat (List.length frames) = 5000 /\
    read_file (run1 // "contact_map.npy") (files st')
    = Some (NpyContactMaps contact_maps) /\
    Z.of_nat (List.length contact_maps) = 5000 /\
    read_file (run1 // "rmsd.npy") (files st') = Some (NpyRmsds rmsds) /\
    Z.of_nat (List.length rmsds) = 5000.
Proof.
  intros E.
  assert (Hn : nsteps_of config_e2e = Returns 5000) by reflexivity.
  assert (Hr : report_steps_of config_e2e = Returns 1) by reflexivity.
  pose proof (run_workdir _ _ _ _ _ _ E) as Hw.
  change (self_workdir st0) with run1 in Hw.
  apply run_reports_every_interval in E.
  destruct E as (st1 & before & sim & nsteps & report_steps & frames & maps
                 & rmsds & Einit & Hbefore & Hn' & Hr' & Hsim & Hsteps & Hframes
                 & Hcount & Hmaps & Hmapslen & Hrmsds & Hrmsdslen).
  rewrite Hn in Hn'. inversion Hn'; subst nsteps; clear Hn'.
  rewrite Hr in Hr'. inversion Hr'; subst report_steps; clear Hr'.
  cbn [simulation_start] in Einit.
  apply rebuilding_start_installs in Einit; [| discriminate].
  destruct Einit as (fresh & _ & Hfresh & _ & _ & _ & Hzero & _).
  rewrite Hbefore in Hfresh. inversion Hfresh; subst fresh; clear Hfresh.
  rewrite Hw in Hframes, Hmaps, Hrmsds.
  assert (Hframes5000 : Z.of_nat (List.length frames) = 5000).
  { rewrite Hcount by lia. rewrite Hzero. reflexivity. }
  exists sim, frames, maps, rmsds.
  split; [exact Hsim |].
  split; [rewrite Hsteps by lia; rewrite Hzero; reflexivity |].
  split; [exact Hframes |]. split; [exact Hframes5000 |].
  split; [exact Hmaps |]. split; [rewrite Hmapslen; exact Hframes5000 |].
  split; [exact Hrmsds |]. rewrite Hrmsdslen. exact Hframes5000.
Qed.

(** The run of the scenario returns. *)
Lemma e2e_run_returns :
  fst (run config_e2e env_still {| simulation_start := from_pdb |} st0)
  = Returns {| contact_map_path := out1 // "contact_map.npy";
               rmsd_path := out1 // "rmsd.npy" |}.
Proof. vm_compute. reflexivity. Qed.

(** C5, as the spec has it, fails: in its scenario the run takes 5000 steps,
    not 5, and leaves 5000 frames and two arrays of 5000 entries. *)
Lemma e2e_scenario_does_not_take_5_steps :
  nsteps_of config_e2e = Returns 5000 /\
  nsteps_of config_e2e <> Returns 5 /\
  exists out sim frames contact_maps rmsds,
    fst (run config_e2e env_still {| simulation_start := from_pdb |} st0)
    = Returns out /\
    self_sim (snd (run config_e2e env_still
                     {| simulation_start := from_pdb |} st0)) = AttrSim sim /\
    currentStep sim = 5000 /\
    read_file (run1 // "sim.dcd")
      (files (snd (run config_e2e env_still
                     {| simulation_start := from_pdb |} st0)))
    = Some (DcdData frames) /\
    Z.of_nat (List.length frames) = 5000 /\
    read_file (run1 // "contact_map.npy")
      (files (snd (run config_e2e env_still
                     {| simulation_start := from_pdb |} st0)))
    = Some (NpyContactMaps contact_maps) /\
    Z.of_nat (List.length contact_maps) = 5000 /\
    read_file (run1 // "rmsd.npy")
      (files (snd (run config_e2e env_still
                     {| simulation_start := from_pdb |} st0)))
    = Some (NpyRmsds rmsds) /\
    Z.of_nat (List.length rmsds) = 5000.
Proof.
  split; [reflexivity |]. split; [discriminate |].
  pose proof e2e_run_returns as F.
  assert (E : run config_e2e env_still {| simulation_start := from_pdb |} st0
              = (Returns {| contact_map_path := out1 // "contact_map.npy";
                            rmsd_path := out1 // "rmsd.npy" |},
                 snd (run config_e2e env_still
                        {| simulation_start := from_pdb |} st0))).
  { rewrite <- F. apply surjective_pairing. }
  destruct (e2e_scenario_numbers _ _ E)
    as (sim & frames & maps & rmsds & H1 & H2 & H3 & H4 & H5 & H6 & H7 & H8).
  exists {| contact_map_path := out1 // "contact_map.npy";
            rmsd_path := out1 // "rmsd.npy" |}, sim, frames, maps, rmsds.
  split; [exact F |]. split; [exact H1 |]. split; [exact H2 |].
  split; [exact H3 |]. split; [exact H4 |]. split; [exact H5 |].
  split; [exact H6 |]. split; [exact H7 | exact H8].
Qed.

(* ===================================================================== *)
(** * Further properties of the code *)
(* ===================================================================== *)
(** ** The configurator: platforms, toggles, failures *)

(** The hardware block takes the first platform to be had in the order
    CUDA, OpenCL, CPU, and fails only when none of the three is. *)
Theorem configure_hardware_priority (env : Env) (gpu_index : Z) :
  let has name_ := existsb (String.eqb name_) (available_platforms env) in
  match configure_hardware env gpu_index with
  | Returns (p, properties) =>
      has p = true /\
      ((p = "CUDA" /\
        properties = [("DeviceIndex", str gpu_index); ("CudaPrecision", "mixed")]) \/
       (p = "OpenCL" /\ has "CUDA" = false /\
        properties = [("DeviceIndex", str gpu_index)]) \/
       (p = "CPU" /\ has "CUDA" = false /\ has "OpenCL" = false /\
        properties = []))
  | Raises _ =>
      has "CUDA" = false /\ has "OpenCL" = false /\ has "CPU" = false
  end.
Proof.
  intros has. unfold configure_hardware, Platform_getPlatformByName.
  fold (has "CUDA"). fold (has "OpenCL"). fold (has "CPU").
  destruct (has "CUDA") eqn:Hcuda.
  - split; [exact Hcuda |]. left. split; reflexivity.
  - destruct (has "OpenCL") eqn:Hopencl.
    + split; [exact Hopencl |]. right; left. repeat split; reflexivity.
    + destruct (has "CPU") eqn:Hcpu.
      * split; [exact Hcpu |]. right; right. repeat split; reflexivity.
      * repeat split; reflexivity.
Qed.

(** Whatever its outcome, [configure_simulation] writes no file and leaves
    the attributes of the manager alone. *)
Lemma configure_simulation_frame
    (env : Env) (pdb : Path) (top : option Path) (solvent : string) (gpu : Z)
    (dt T fr : Q) (baro : string) (minimize positions velocities : bool)
    (st st' : State) (o : Outcome Simulation) :
  configure_simulation env pdb top solvent gpu dt T fr baro
    minimize positions velocities st = (o, st') ->
  files st' = files st /\
  self_sim st' = self_sim st /\
  self_pdb_file st' = self_pdb_file st /\
  self_top_file st' = self_top_file st /\
  self_workdir st' = self_workdir st /\
  self_persistent_dir st' = self_persistent_dir st.
Proof.
  unfold configure_simulation, _configure_amber_implicit,
    _configure_amber_explicit, Simulation_new, PDBFile_open,
    AmberPrmtopFile_open, randint_1_10000.
  intros E. unfold_monad_in E.
  repeat step_in E.
  all: inversion E; subst; clear E.
  all: repeat match goal with
         | H : (_, _) = (_, _) |- _ => inversion H; subst; clear H
         end.
  all: simpl; repeat split; reflexivity.
Qed.

(** Whether it returns or raises, [configure_simulation] writes no file and
    leaves the attributes of the manager alone; all it changes is the
    bookkeeping of object identities, random draws and events, and these
    only grow. *)
Theorem configure_simulation_touches_no_file
    (env : Env) (pdb : Path) (top : option Path) (solvent : string) (gpu : Z)
    (dt T fr : Q) (baro : string) (minimize positions velocities : bool)
    (st : State) :
  let st' := snd (configure_simulation env pdb top solvent gpu dt T fr baro
                    minimize positions velocities st) in
  files st' = files st /\
  self_sim st' = self_sim st /\
  self_pdb_file st' = self_pdb_file st /\
  self_top_file st' = self_top_file st /\
  self_workdir st' = self_workdir st /\
  self_persistent_dir st' = self_persistent_dir st /\
  (next_sim_id st <= next_sim_id st' <= S (next_sim_id st))%nat /\
  (rng_calls st <= rng_calls st' <= S (rng_calls st))%nat /\
  (events st' = events st \/ events st' = events st ++ [Built (next_sim_id st)]).
Proof.
  intros st'. subst st'.
  destruct (configure_simulation env pdb top solvent gpu dt T fr baro
              minimize positions velocities st) as [o st'] eqn:E.
  pose proof (configure_simulation_frame _ _ _ _ _ _ _ _ _ _ _ _ _ _ _ E)
    as (Hfiles & Hsim & Hpdb & Htop & Hw & Hp).
  cbn [snd]. do 6 (split; [assumption |]).
  revert E.
  unfold configure_simulation, _configure_amber_implicit,
    _configure_amber_explicit, Simulation_new, PDBFile_open,
    AmberPrmtopFile_open, randint_1_10000.
  intros E. unfold_monad_in E.
  repeat step_in E.
  all: inversion E; subst; clear E.
  all: repeat match goal with
         | H : (_, _) = (_, _) |- _ => inversion H; subst; clear H
         end.
  all: cbn [next_sim_id rng_calls events bump_rng log_event bump_sim_id].
  all: split; [lia |]; split; [lia |]; first [left; reflexivity | right; reflexivity].
Qed.

(** The three toggles are independent: positions are set exactly when
    [set_positions] is, and then from the structure file; the energy is
    minimised exactly when [run_minimization] is; velocities are drawn
    exactly when [set_velocities] is, with a seed between 1 and 10000, at the
    cost of one random draw. *)
Theorem configure_simulation_toggles
    (env : Env) (pdb : Path) (top : option Path) (solvent : string) (gpu : Z)
    (dt T fr : Q) (baro : string) (minimize positions velocities : bool)
    (st st' : State) (sim : Simulation) :
  configure_simulation env pdb top solvent gpu dt T fr baro
    minimize positions velocities st = (Returns sim, st') ->
  minimized sim = minimize /\
  (if positions
   then positions_file sim = Some pdb /\
        exists atoms coords box,
          read_file pdb (files st) = Some (PdbData atoms coords box) /\
          context_positions sim = Some coords
   else positions_file sim = None /\ context_positions sim = None) /\
  (if velocities
   then exists seed, velocities_seed sim = Some seed /\ 1 <= seed <= 10000
   else velocities_seed sim = None) /\
  rng_calls st' = (if velocities then S (rng_calls st) else rng_calls st) /\
  next_sim_id st' = S (next_sim_id st) /\
  reporters sim = [] /\ currentStep sim = 0.
Proof.
  unfold configure_simulation, _configure_amber_implicit,
    _configure_amber_explicit, Simulation_new, PDBFile_open,
    AmberPrmtopFile_open, randint_1_10000.
  intros E. unfold_monad_in E.
  assert (Hseed : forall n, 1 <= 1 + random_source env n mod 10000 <= 10000).
  { intros n. pose proof (Z.mod_pos_bound (random_source env n) 10000
                            ltac:(reflexivity)). lia. }
  repeat step_in E.
  all: inversion E; subst; clear E.
  all: repeat match goal with
         | H : (_, _) = (_, _) |- _ => inversion H; subst; clear H
         end.
  all: cbn [minimized positions_file context_positions velocities_seed
              reporters currentStep setVelocitiesToTemperature minimizeEnergy
              setPositions pdbfile_path pdbfile_positions rng_calls next_sim_id
              files bump_rng log_event bump_sim_id] in *.
  all: repeat match goal with
         | |- _ /\ _ => split
         | |- exists seed, Some ?s = Some seed /\ _ => exists s
         | |- exists a c b, _ =>
             do 3 eexists; split; [first [eassumption | reflexivity] | reflexivity]
         end.
  all: try reflexivity.
  all: apply Hseed.
Qed.

(** Explicit solvent without a topology file, or a solvent type that is
    neither ["implicit"] nor ["explicit"], fails an assertion once a platform
    is chosen; nothing is built and the state is left as found. *)
Theorem configure_simulation_rejects_solvent
    (env : Env) (pdb : Path) (top : option Path) (solvent : string) (gpu : Z)
    (dt T fr : Q) (baro : string) (minimize positions velocities : bool)
    (st : State) (hardware : string * list (string * string)) :
  configure_hardware env gpu = Returns hardware ->
  String.eqb solvent "implicit" = false ->
  String.eqb solvent "explicit" = false \/ top = None ->
  configure_simulation env pdb top solvent gpu dt T fr baro
    minimize positions velocities st = (Raises AssertionError, st).
Proof.
  intros Hhw Himplicit Hbad. unfold configure_simulation.
  unfold bind at 1. unfold lift at 1. rewrite Hhw. destruct hardware as [p l].
  rewrite Himplicit. unfold bind at 1.
  destruct (String.eqb solvent "explicit") eqn:Hexplicit.
  - destruct Hbad as [Hbad | ->]; [discriminate Hbad |]. reflexivity.
  - reflexivity.
Qed.

Lemma configure_simulation_rejects_solvent_witness :
  configure_simulation env_cpu (data_dir // "protein.pdb") None "explicit" 0
    0.002 310 1 "MonteCarloBarostat" true true true st0
  = (Raises AssertionError, st0).
Proof.
  apply (configure_simulation_rejects_solvent env_cpu
           (data_dir // "protein.pdb") None "explicit" 0 0.002 310 1
           "MonteCarloBarostat" true true true st0 ("CPU", [])).
  - reflexivity.
  - reflexivity.
  - right. reflexivity.
Defined.

(** In explicit solvent, a barostat name other than the two supported ones
    raises [ValueError] after the topology file is read and before a
    simulation is built: the state is left as found. *)
Theorem configure_simulation_rejects_barostat
    (env : Env) (pdb top : Path) (gpu : Z) (dt T fr : Q) (baro : string)
    (minimize positions velocities : bool) (st : State)
    (hardware : string * list (string * string)) (atoms : list Atom) :
  configure_hardware env gpu = Returns hardware ->
  read_file top (files st) = Some (PrmtopData atoms) ->
  String.eqb baro "MonteCarloBarostat" = false ->
  String.eqb baro "MonteCarloAnisotropicBarostat" = false ->
  configure_simulation env pdb (Some top) "explicit" gpu dt T fr baro
    minimize positions velocities st
  = (Raises (ValueError "Invalid explicit_barostat option"), st).
Proof.
  intros Hhw Hread Hiso Haniso.
  unfold configure_simulation, _configure_amber_explicit, AmberPrmtopFile_open.
  unfold assert. unfold bind, get, lift, ret, raise.
  rewrite Hhw. destruct hardware as [p l]. simpl.
  rewrite Hread, Hiso, Haniso. reflexivity.
Qed.

Lemma configure_simulation_rejects_barostat_witness :
  configure_simulation env_cpu (data_dir // "protein.pdb")
    (Some (data_dir // "protein.prmtop")) "explicit" 0 0.002 310 1
    "BogusBarostat" true true true st0
  = (Raises (ValueError "Invalid explicit_barostat option"), st0).
Proof.
  apply (configure_simulation_rejects_barostat env_cpu
           (data_dir // "protein.pdb") (data_dir // "protein.prmtop") 0
           0.002 310 1 "BogusBarostat" true true true st0 ("CPU", []) atoms20).
  - reflexivity.
  - reflexivity.
  - reflexivity.
  - reflexivity.
Defined.

(** Which system a returned simulation has.  Implicit solvent: a cutoff
    without periodicity, no barostat, and either the topology file with the
    OBC1 model or, without one, the topology of the structure file with the
    two force-field files.  Explicit solvent: particle-mesh Ewald, the
    topology file, and the barostat named, at 1 bar and the temperature of
    the integrator. *)
Lemma configure_simulation_system
    (env : Env) (pdb : Path) (top : option Path) (solvent : string) (gpu : Z)
    (dt T fr : Q) (baro : string) (minimize positions velocities : bool)
    (st st' : State) (sim : Simulation) :
  configure_simulation env pdb top solvent gpu dt T fr baro
    minimize positions velocities st = (Returns sim, st') ->
  integrator_temperature (integrator sim) = T /\
  integrator_friction (integrator sim) = fr /\
  integrator_dt_ps (integrator sim) = dt /\
  nonbondedCutoff_nm (system sim) = 1%Q /\
  constraints_HBonds (system sim) = true /\
  ((solvent = "implicit" /\
    nonbondedMethod (system sim) = CutoffNonPeriodic /\
    forces (system sim) = [] /\
    constraintTolerance (integrator sim) = Some (1 # 100000)%Q /\
    match top with
    | Some top_path =>
        read_file top_path (files st) = Some (PrmtopData (topology sim)) /\
        implicitSolvent (system sim) = Some OBC1 /\
        forcefield_files (system sim) = []
    | None =>
        (exists coords box,
            read_file pdb (files st) = Some (PdbData (topology sim) coords box)) /\
        implicitSolvent (system sim) = None /\
        forcefield_files (system sim) = ["amber99sbildn.xml"; "amber99_obc.xml"]
    end) \/
   (solvent = "explicit" /\
    nonbondedMethod (system sim) = PME /\
    implicitSolvent (system sim) = None /\
    forcefield_files (system sim) = [] /\
    constraintTolerance (integrator sim) = None /\
    (exists top_path,
        top = Some top_path /\
        read_file top_path (files st) = Some (PrmtopData (topology sim))) /\
    ((baro = "MonteCarloBarostat" /\
      forces (system sim) = [MonteCarloBarostat 1 T]) \/
     (baro = "MonteCarloAnisotropicBarostat" /\
      forces (system sim)
      = [MonteCarloAnisotropicBarostat 1 T false false true])))).
Proof.
  unfold configure_simulation, _configure_amber_implicit,
    _configure_amber_explicit, Simulation_new, PDBFile_open,
    AmberPrmtopFile_open, randint_1_10000.
  intros E. unfold_monad_in E.
  repeat step_in E.
  all: inversion E; subst; clear E.
  all: repeat match goal with
         | H : (_, _) = (_, _) |- _ => inversion H; subst; clear H
         | H : String.eqb _ _ = true |- _ => apply String.eqb_eq in H; subst
         end.
  all: cbn [integrator system topology integrator_temperature
              integrator_friction integrator_dt_ps nonbondedCutoff_nm
              constraints_HBonds nonbondedMethod forces constraintTolerance
              implicitSolvent forcefield_files setVelocitiesToTemperature
              minimizeEnergy setPositions pdbfile_topology files log_event
              bump_sim_id] in *.
  all: do 5 (split; [reflexivity |]).
  all: first
         [ left; split; [reflexivity |]; repeat split;
           solve [ reflexivity | assumption
                 | do 2 eexists; first [reflexivity | eassumption] ]
         | right; split; [reflexivity |]; do 4 (split; [reflexivity |]);
           split; [eexists; split; first [reflexivity | assumption] |];
           first [ left; split; reflexivity | right; split; reflexivity ] ].
Qed.

(** ** The lifecycle manager: what it asks of the configurator *)

(** A rebuilding start condition that returns has called the configurator
    once, on the structure and topology files now cached, with device 0, the
    isotropic barostat and the three toggles on. *)
Lemma rebuilding_start_configures config env start st st' :
  start <> ContinueSimulation ->
  initialize_run config env start st = (Returns tt, st') ->
  exists pdb st1 st2 sim,
    configure_simulation env pdb (self_top_file st') (solvent_type config) 0
      (dt_ps config) (temperature_kelvin config)
      (heat_bath_friction_coef config) "MonteCarloBarostat" true true true st1
    = (Returns sim, st2) /\
    self_sim st' = AttrSim sim /\
    self_pdb_file st' = Some pdb /\
    files st1 = files st' /\
    rng_calls st1 = rng_calls st.
Proof.
  intros Hstart E. destruct start as [| pdb_file top_file | sim_dir frame];
    [contradiction | |]; simpl in E.
  - apply init_simulation_from_pdb_returns in E.
    destruct E as (top' & sa & sb & Ea & Eb & E).
    apply copy_to_workdir_returns in Ea. destruct Ea as (data & _ & _ & ->).
    apply copy_to_workdir_returns in Eb.
    apply init_simulation_returns in E.
    destruct E as (st1 & sim & st2 & Erel & Econf & ->).
    apply release_cached_simulation_returns in Erel.
    pose proof (configure_simulation_returns _ _ _ _ _ _ _ _ _ _ _ _ Econf)
      as (Hst2 & _).
    exists (self_workdir st // name pdb_file), st1, st2, sim.
    assert (Hfacts : self_top_file st1 = top' /\
                     self_pdb_file st1 = Some (self_workdir st // name pdb_file) /\
                     rng_calls st1 = rng_calls st).
    { subst st1. destruct top_file as [top_src |].
      - destruct Eb as (d & _ & -> & ->).
        destruct (self_sim _); repeat split; reflexivity.
      - destruct Eb as (-> & ->).
        destruct (self_sim _); repeat split; reflexivity. }
    destruct Hfacts as (Htop & Hpdb & Hrng).
    rewrite Hst2. cbn [self_top_file self_sim self_pdb_file files log_event
                         set_self_sim bump_rng bump_sim_id].
    rewrite Htop. split; [rewrite <- Hst2; exact Econf |].
    split; [reflexivity |]. split; [exact Hpdb |]. split; [reflexivity |].
    exact Hrng.
  - apply init_simulation_from_restart_returns in E.
    destruct E as (old_pdb & dcd & top & sa & sb & _ & _ & Ecopy & Ewrite & E).
    cbv zeta in Ewrite, E.
    apply write_pdb_frame_returns in Ewrite.
    destruct Ewrite as (u & u' & _ & _ & ->).
    apply copy_to_workdir_returns in Ecopy.
    apply init_simulation_returns in E.
    destruct E as (st1 & sim & st2 & Erel & Econf & ->).
    apply release_cached_simulation_returns in Erel.
    pose proof (configure_simulation_returns _ _ _ _ _ _ _ _ _ _ _ _ Econf)
      as (Hst2 & _).
    eexists _, st1, st2, sim.
    assert (Hfacts : self_top_file st1 = top /\
                     self_pdb_file st1
                     = Some (self_workdir st
                             // (name (parent old_pdb) ++ "_frame"
                                 ++ format_06 frame ++ ".pdb")%string) /\
                     rng_calls st1 = rng_calls st).
    { subst st1.
      destruct (match next_or_None (glob sim_dir ".top" (files st)) with
                | Some top_file => Some top_file
                | None => next_or_None (glob sim_dir ".prmtop" (files st))
                end) as [top_src |].
      - destruct Ecopy as (d & _ & -> & ->).
        destruct (self_sim _); repeat split; reflexivity.
      - destruct Ecopy as (-> & ->).
        destruct (self_sim _); repeat split; reflexivity. }
    destruct Hfacts as (Htop & Hpdb & Hrng).
    rewrite Hst2. cbn [self_top_file self_sim self_pdb_file files log_event
                         set_self_sim bump_rng bump_sim_id].
    rewrite Htop. split; [rewrite <- Hst2; exact Econf |].
    split; [reflexivity |]. split; [exact Hpdb |]. split; [reflexivity |].
    exact Hrng.
Qed.

(** The simulation installed follows the settings in its integrator and in
    its solvent model, and nowhere else: in explicit solvent the barostat is
    the isotropic one at 1 bar whatever barostat the settings name; the
    velocity seed lies between 1 and 10000. *)
Theorem installed_simulation_follows_settings
    (config : MDSimulationSettings) (env : Env)
    (start : SimulationStartType) (st st' : State) :
  start <> ContinueSimulation ->
  initialize_run config env start st = (Returns tt, st') ->
  exists sim,
    self_sim st' = AttrSim sim /\
    integrator_temperature (integrator sim) = temperature_kelvin config /\
    integrator_friction (integrator sim) = heat_bath_friction_coef config /\
    integrator_dt_ps (integrator sim) = dt_ps config /\
    (exists seed, velocities_seed sim = Some seed /\ 1 <= seed <= 10000) /\
    ((solvent_type config = "implicit" /\
      nonbondedMethod (system sim) = CutoffNonPeriodic /\
      forces (system sim) = [] /\
      implicitSolvent (system sim)
      = match self_top_file st' with Some _ => Some OBC1 | None => None end) \/
     (solvent_type config = "explicit" /\
      nonbondedMethod (system sim) = PME /\
      implicitSolvent (system sim) = None /\
      self_top_file st' <> None /\
      forces (system sim)
      = [MonteCarloBarostat 1 (temperature_kelvin config)])).
Proof.
  intros Hstart E.
  apply rebuilding_start_configures in E; [| exact Hstart].
  destruct E as (pdb & st1 & st2 & sim & Econf & Hsim & _ & _ & _).
  pose proof (configure_simulation_returns _ _ _ _ _ _ _ _ _ _ _ _ Econf)
    as (_ & _ & _ & _ & _ & Hvel & _).
  assert (Hseed : exists seed, velocities_seed sim = Some seed /\
                               1 <= seed <= 10000).
  { eexists. split; [exact Hvel |].
    match goal with
    | |- _ <= 1 + ?x mod 10000 <= _ =>
        pose proof (Z.mod_pos_bound x 10000 ltac:(reflexivity)); lia
    end. }
  pose proof (configure_simulation_system _ _ _ _ _ _ _ _ _ _ _ _ _ _ _ Econf)
    as (HT & Hfr & Hdt & _ & _ & Hsys).
  exists sim. split; [exact Hsim |]. split; [exact HT |]. split; [exact Hfr |].
  split; [exact Hdt |]. split; [exact Hseed |].
  destruct Hsys as [(Hsolv & Hnb & Hforces & _ & Htop)
                   | (Hsolv & Hnb & Himp & _ & _ & (tp & Htop & _) & Hbaro)].
  - left. split; [exact Hsolv |]. split; [exact Hnb |]. split; [exact Hforces |].
    destruct (self_top_file st'); tauto.
  - right. split; [exact Hsolv |]. split; [exact Hnb |]. split; [exact Himp |].
    split; [rewrite Htop; discriminate |].
    destruct Hbaro as [(_ & Hf) | (Hname & _)]; [exact Hf | discriminate Hname].
Qed.

Lemma installed_simulation_follows_settings_witness :
  exists sim,
    self_sim st_first = AttrSim sim /\
    integrator_temperature (integrator sim) = temperature_kelvin config_short /\
    integrator_friction (integrator sim) = heat_bath_friction_coef config_short /\
    integrator_dt_ps (integrator sim) = dt_ps config_short /\
    (exists seed, velocities_seed sim = Some seed /\ 1 <= seed <= 10000) /\
    ((solvent_type config_short = "implicit" /\
      nonbondedMethod (system sim) = CutoffNonPeriodic /\
      forces (system sim) = [] /\
      implicitSolvent (system sim)
      = match self_top_file st_first with Some _ => Some OBC1 | None => None end) \/
     (solvent_type config_short = "explicit" /\
      nonbondedMethod (system sim) = PME /\
      implicitSolvent (system sim) = None /\
      self_top_file st_first <> None /\
      forces (system sim)
      = [MonteCarloBarostat 1 (temperature_kelvin config_short)])).
Proof.
  assert (Hstart : from_pdb <> ContinueSimulation) by discriminate.
  assert (E : initialize_run config_short env_cuda from_pdb st0
              = (Returns tt, st_first))
    by (vm_compute; reflexivity).
  exact (installed_simulation_follows_settings config_short env_cuda from_pdb
           st0 st_first Hstart E).
Defined.

(** ** The lifecycle manager: failures *)

(** A rebuild that fails in the configurator has already let go of the
    cached simulation: the attribute [sim] is deleted, not [None] and not the
    old simulation, no file has changed, and a following Continue raises
    [AttributeError] instead of continuing or reporting a missing
    simulation. *)
Theorem failed_rebuild_loses_cached_simulation
    (config : MDSimulationSettings) (env : Env) (pdb : Path)
    (top : option Path) (st st' : State) (e : Exception) :
  has_simulation st = true ->
  init_simulation config env pdb top st = (Raises e, st') ->
  self_sim st' = AttrDeleted /\
  files st' = files st /\
  self_pdb_file st' = self_pdb_file st /\
  initialize_run config env ContinueSimulation st'
  = (Raises (AttributeError "sim"), st').
Proof.
  intros Hsim E. unfold has_simulation in Hsim.
  destruct (self_sim st) as [| | old] eqn:Hold; try discriminate Hsim.
  unfold init_simulation in E. unfold bind at 1 in E.
  unfold release_cached_simulation in E. unfold bind at 1 in E.
  unfold get at 1 in E. rewrite Hold in E.
  unfold bind at 1 in E. unfold modify at 1 2 in E.
  unfold bind at 1 in E.
  destruct (configure_simulation env pdb top (solvent_type config) 0
              (dt_ps config) (temperature_kelvin config)
              (heat_bath_friction_coef config) "MonteCarloBarostat" true true
              true (log_event (Released (sim_id old))
                      (set_self_sim AttrDeleted st)))
    as [[sim | e'] st2] eqn:Econf.
  - unfold_monad_in E. discriminate E.
  - inversion E; subst e' st2; clear E.
    apply configure_simulation_frame in Econf.
    destruct Econf as (Hfiles & Hattr & Hpdb & _).
    cbn [files self_sim self_pdb_file log_event set_self_sim] in Hfiles, Hattr, Hpdb.
    split; [exact Hattr |]. split; [exact Hfiles |]. split; [exact Hpdb |].
    simpl. unfold init_continue_simulation, bind, get. rewrite Hattr.
    reflexivity.
Qed.

Lemma failed_rebuild_loses_cached_simulation_witness :
  self_sim (snd (init_simulation config_pbc env_cpu (data_dir // "protein.pdb")
                   None st_first)) = AttrDeleted /\
  files (snd (init_simulation config_pbc env_cpu (data_dir // "protein.pdb")
                None st_first)) = files st_first /\
  self_pdb_file (snd (init_simulation config_pbc env_cpu
                        (data_dir // "protein.pdb") None st_first))
  = self_pdb_file st_first /\
  initialize_run config_pbc env_cpu ContinueSimulation
    (snd (init_simulation config_pbc env_cpu (data_dir // "protein.pdb")
            None st_first))
  = (Raises (AttributeError "sim"),
     snd (init_simulation config_pbc env_cpu (data_dir // "protein.pdb")
            None st_first)).
Proof.
  assert (Hsim : has_simulation st_first = true) by reflexivity.
  assert (E : init_simulation config_pbc env_cpu (data_dir // "protein.pdb")
                None st_first
              = (Raises AssertionError,
                 snd (init_simulation config_pbc env_cpu
                        (data_dir // "protein.pdb") None st_first)))
    by (vm_compute; reflexivity).
  exact (failed_rebuild_loses_cached_simulation config_pbc env_cpu
           (data_dir // "protein.pdb") None st_first _ AssertionError Hsim E).
Defined.

(** A restart from a directory without a structure file, or without a
    trajectory file, raises [StopIteration] and leaves the state as found:
    nothing is copied, rebound, released or built. *)
Theorem restart_without_files_raises_StopIteration
    (config : MDSimulationSettings) (env : Env) (sim_dir : Path) (frame : Z)
    (st : State) :
  glob sim_dir ".pdb" (files st) = [] \/ glob sim_dir ".dcd" (files st) = [] ->
  initialize_run config env (SimulationFromRestart sim_dir frame) st
  = (Raises StopIteration, st).
Proof.
  intros Hnone. simpl. unfold init_simulation_from_restart.
  unfold bind at 1. unfold get at 1.
  unfold bind at 1. unfold lift at 1.
  destruct (glob sim_dir ".pdb" (files st)) as [| old_pdb pdbs] eqn:Hpdb.
  - reflexivity.
  - destruct Hnone as [Hnone | Hnone]; [discriminate Hnone |].
    simpl next. unfold bind at 1. unfold lift at 1. rewrite Hnone. reflexivity.
Qed.

Lemma restart_without_files_raises_StopIteration_witness :
  initialize_run config_short env_cpu (SimulationFromRestart data_dir 0) st0
  = (Raises StopIteration, st0).
Proof.
  apply (restart_without_files_raises_StopIteration config_short env_cpu
           data_dir 0 st0).
  right. reflexivity.
Defined.

Lemma trajectory_getitem_out_of_range u k :
  k < - Z.of_nat (List.length (u_trajectory u))
  \/ Z.of_nat (List.length (u_trajectory u)) <= k ->
  trajectory_getitem u k = Raises IndexError.
Proof.
  intros Hout. unfold trajectory_getitem.
  destruct (k <? 0) eqn:Hneg.
  - apply Z.ltb_lt in Hneg.
    replace (k + Z.of_nat (List.length (u_trajectory u)) <? 0) with true
      by (symmetry; apply Z.ltb_lt; lia).
    reflexivity.
  - apply Z.ltb_ge in Hneg.
    replace (Z.of_nat (List.length (u_trajectory u)) <=? k) with true
      by (symmetry; apply Z.leb_le; lia).
    replace (k <? 0) with false by (symmetry; apply Z.ltb_ge; lia).
    reflexivity.
Qed.

(** A restart from a frame index outside the trajectory raises [IndexError]
    before any simulation is released or built, but after the manager has
    rebound its files: the cached simulation is the old one, [top_file] is
    the copy of the topology of the source directory, and [pdb_file] names
    the structure file that was to be extracted, which has not been
    written. *)
Theorem restart_out_of_range_rebinds_files_only
    (config : MDSimulationSettings) (env : Env) (sim_dir : Path) (frame : Z)
    (st st1 : State) (old_pdb_file dcd_file : Path) (top : option Path)
    (mda_u : Universe) :
  next (glob sim_dir ".pdb" (files st)) = Returns old_pdb_file ->
  next (glob sim_dir ".dcd" (files st)) = Returns dcd_file ->
  copy_to_workdir
    (match next_or_None (glob sim_dir ".top" (files st)) with
     | None => next_or_None (glob sim_dir ".prmtop" (files st))
     | Some top_file => Some top_file
     end) st = (Returns top, st1) ->
  Universe_of_trajectory old_pdb_file dcd_file (files st1) = Returns mda_u ->
  frame < - Z.of_nat (List.length (u_trajectory mda_u))
  \/ Z.of_nat (List.length (u_trajectory mda_u)) <= frame ->
  exists st',
    initialize_run config env (SimulationFromRestart sim_dir frame) st
    = (Raises IndexError, st') /\
    self_sim st' = self_sim st /\
    events st' = events st /\
    files st' = files st1 /\
    self_top_file st' = top /\
    self_pdb_file st'
    = Some (self_workdir st
            // (name sim_dir ++ "_frame" ++ format_06 frame ++ ".pdb")%string).
Proof.
  intros Hpdb Hdcd Hcopy Hu Hout.
  pose proof (glob_first_is_child _ _ _ _ Hpdb) as (Hparent & _ & _).
  pose proof (trajectory_getitem_out_of_range _ _ Hout) as Hseek.
  simpl. unfold init_simulation_from_restart.
  unfold bind at 1. unfold get at 1.
  unfold bind at 1. unfold lift at 1. rewrite Hpdb.
  unfold bind at 1. unfold lift at 1. rewrite Hdcd.
  unfold bind at 1.
  match goal with
  | |- context [copy_to_workdir ?t st] =>
      replace (copy_to_workdir t st) with (Returns top, st1)
  end.
  2:{ rewrite <- Hcopy.
      destruct (next_or_None (glob sim_dir ".top" (files st))); reflexivity. }
  unfold bind at 1. unfold modify at 1.
  unfold bind at 1. unfold modify at 1.
  unfold bind at 1. unfold write_pdb_frame.
  unfold bind at 1. unfold get at 1.
  unfold bind at 1. unfold lift at 1.
  cbn [files set_self_pdb_file set_self_top_file]. rewrite Hu.
  unfold bind at 1. unfold lift at 1. rewrite Hseek.
  eexists. split; [reflexivity |].
  apply copy_to_workdir_returns in Hcopy.
  rewrite Hparent.
  destruct (match next_or_None (glob sim_dir ".top" (files st)) with
            | Some top_file => Some top_file
            | None => next_or_None (glob sim_dir ".prmtop" (files st))
            end) as [top_src |].
  - destruct Hcopy as (d & _ & -> & ->). repeat split; reflexivity.
  - destruct Hcopy as (-> & ->). repeat split; reflexivity.
Qed.

Lemma restart_out_of_range_rebinds_files_only_witness :
  exists st',
    initialize_run config_short env_cpu (SimulationFromRestart run1 10) st_restart
    = (Raises IndexError, st') /\
    self_sim st' = self_sim st_restart /\
    events st' = events st_restart /\
    files st'
    = files (snd (copy_to_workdir (Some (run1 // "protein.prmtop")) st_restart)) /\
    self_top_file st' = Some (run2 // "protein.prmtop") /\
    self_pdb_file st'
    = Some (self_workdir st_restart
            // (name run1 ++ "_frame" ++ format_06 10 ++ ".pdb")%string).
Proof.
  apply (restart_out_of_range_rebinds_files_only config_short env_cpu run1 10
           st_restart
           (snd (copy_to_workdir (Some (run1 // "protein.prmtop")) st_restart))
           (run1 // "protein.pdb") (run1 // "sim.dcd")
           (Some (run2 // "protein.prmtop"))
           {| u_atoms := atoms20;
              u_trajectory := map (fun i => drift 0 (Z.of_nat i)) (seq 1 10);
              u_frame := 0 |}).
  - reflexivity.
  - reflexivity.
  - vm_compute. reflexivity.
  - vm_compute. reflexivity.
  - right. vm_compute. discriminate.
Defined.

(** ** Extracting a frame *)

Lemma write_file_twice p d fs :
  write_file p d (write_file p d fs) = write_file p d fs.
Proof.
  induction fs as [| [q d'] fs IH]; simpl.
  - rewrite Path_eqb_refl. reflexivity.
  - destruct (Path_eqb p q) eqn:E; simpl; rewrite E; [reflexivity |].
    rewrite IH. reflexivity.
Qed.

Lemma frame_eta (fr : Frame) :
  {| frame_positions := frame_positions fr;
     frame_dimensions := frame_dimensions fr |} = fr.
Proof. destruct fr. reflexivity. Qed.

(** Write, then read: the structure file [write_pdb_frame] has written opens
    as a universe with the atoms of the source structure and, as its only
    frame, the frame asked for; every other file reads as before, and the
    attributes of the manager are untouched. *)
Theorem write_pdb_frame_round_trip
    (pdb_file dcd_file output_pdb_file : Path) (frame : Z) (st st' : State) :
  write_pdb_frame pdb_file dcd_file frame output_pdb_file st = (Returns tt, st') ->
  exists mda_u seeked,
    Universe_of_trajectory pdb_file dcd_file (files st) = Returns mda_u /\
    trajectory_getitem mda_u frame = Returns seeked /\
    Universe_of_structure output_pdb_file (files st')
    = Returns {| u_atoms := u_atoms mda_u;
                 u_trajectory := [ts seeked];
                 u_frame := 0 |} /\
    (forall p, p <> output_pdb_file ->
               read_file p (files st') = read_file p (files st)) /\
    st' = set_files (files st') st.
Proof.
  intros E. apply write_pdb_frame_returns in E.
  destruct E as (u & u' & Hu & Hu' & ->).
  exists u, u'. split; [exact Hu |]. split; [exact Hu' |].
  pose proof (trajectory_getitem_returns _ _ _ Hu') as (Hatoms & _ & _).
  split.
  - unfold Universe_of_structure, read_structure. cbn [files set_files].
    unfold atoms_write. rewrite read_write_same.
    rewrite frame_eta, Hatoms. reflexivity.
  - split; [| reflexivity].
    intros p Hp. cbn [files set_files]. unfold atoms_write.
    apply read_write_other. exact Hp.
Qed.

Lemma write_pdb_frame_round_trip_witness :
  exists mda_u seeked,
    Universe_of_trajectory (run1 // "protein.pdb") (run1 // "sim.dcd")
      (files st_restart) = Returns mda_u /\
    trajectory_getitem mda_u (-1) = Returns seeked /\
    Universe_of_structure (run2 // "last.pdb")
      (files (snd (write_pdb_frame (run1 // "protein.pdb") (run1 // "sim.dcd")
                     (-1) (run2 // "last.pdb") st_restart)))
    = Returns {| u_atoms := u_atoms mda_u;
                 u_trajectory := [ts seeked];
                 u_frame := 0 |} /\
    (forall p, p <> run2 // "last.pdb" ->
               read_file p
                 (files (snd (write_pdb_frame (run1 // "protein.pdb")
                                (run1 // "sim.dcd") (-1) (run2 // "last.pdb")
                                st_restart)))
               = read_file p (files st_restart)) /\
    snd (write_pdb_frame (run1 // "protein.pdb") (run1 // "sim.dcd") (-1)
           (run2 // "last.pdb") st_restart)
    = set_files
        (files (snd (write_pdb_frame (run1 // "protein.pdb")
                       (run1 // "sim.dcd") (-1) (run2 // "last.pdb")
                       st_restart)))
        st_restart.
Proof.
  assert (E : write_pdb_frame (run1 // "protein.pdb") (run1 // "sim.dcd") (-1)
                (run2 // "last.pdb") st_restart
              = (Returns tt,
                 snd (write_pdb_frame (run1 // "protein.pdb")
                        (run1 // "sim.dcd") (-1) (run2 // "last.pdb")
                        st_restart)))
    by (vm_compute; reflexivity).
  exact (write_pdb_frame_round_trip _ _ _ _ _ _ E).
Defined.

(** Extracting the same frame again changes nothing, as long as the output
    is neither the source structure nor the source trajectory. *)
Theorem write_pdb_frame_idempotent
    (pdb_file dcd_file output_pdb_file : Path) (frame : Z) (st st' : State) :
  output_pdb_file <> pdb_file ->
  output_pdb_file <> dcd_file ->
  write_pdb_frame pdb_file dcd_file frame output_pdb_file st = (Returns tt, st') ->
  write_pdb_frame pdb_file dcd_file frame output_pdb_file st' = (Returns tt, st').
Proof.
  intros Hpdb Hdcd E. apply write_pdb_frame_returns in E.
  destruct E as (u & u' & Hu & Hu' & ->).
  assert (Hu1 : Universe_of_trajectory pdb_file dcd_file
                  (atoms_write u' output_pdb_file (files st)) = Returns u).
  { unfold Universe_of_trajectory, read_structure, read_trajectory in *.
    unfold atoms_write.
    rewrite !read_write_other by (intros Heq; subst; contradiction).
    exact Hu. }
  unfold write_pdb_frame, bind, get, lift, modify.
  cbn [files set_files]. rewrite Hu1, Hu'.
  unfold atoms_write. rewrite write_file_twice. reflexivity.
Qed.

Lemma write_pdb_frame_idempotent_witness :
  write_pdb_frame (run1 // "protein.pdb") (run1 // "sim.dcd") 3
    (run2 // "frame.pdb")
    (snd (write_pdb_frame (run1 // "protein.pdb") (run1 // "sim.dcd") 3
            (run2 // "frame.pdb") st_restart))
  = (Returns tt,
     snd (write_pdb_frame (run1 // "protein.pdb") (run1 // "sim.dcd") 3
            (run2 // "frame.pdb") st_restart)).
Proof.
  apply (write_pdb_frame_idempotent (run1 // "protein.pdb") (run1 // "sim.dcd")
           (run2 // "frame.pdb") 3 st_restart).
  - discriminate.
  - discriminate.
  - vm_compute. reflexivity.
Defined.

(** With both source files readable, [write_pdb_frame] returns exactly for
    the indices from minus the number of frames up to the number of frames,
    excluded, negative ones counting from the end; for every other index it
    raises [IndexError] and writes nothing. *)
Theorem write_pdb_frame_bounds
    (pdb_file dcd_file output_pdb_file : Path) (frame : Z) (st : State)
    (mda_u : Universe) :
  Universe_of_trajectory pdb_file dcd_file (files st) = Returns mda_u ->
  let n := Z.of_nat (List.length (u_trajectory mda_u)) in
  if (- n <=? frame) && (frame <? n) then
    exists st',
      write_pdb_frame pdb_file dcd_file frame output_pdb_file st
      = (Returns tt, st') /\
      read_file output_pdb_file (files st')
      = Some (let fr := nth (Z.to_nat (if frame <? 0 then frame + n else frame))
                            (u_trajectory mda_u) empty_frame in
              PdbData (u_atoms mda_u) (frame_positions fr) (frame_dimensions fr))
  else
    write_pdb_frame pdb_file dcd_file frame output_pdb_file st
    = (Raises IndexError, st).
Proof.
  intros Hu n.
  destruct ((- n <=? frame) && (frame <? n)) eqn:Hin.
  - apply andb_true_iff in Hin. destruct Hin as [Hlo Hhi].
    apply Z.leb_le in Hlo. apply Z.ltb_lt in Hhi.
    unfold write_pdb_frame, bind, get, lift, modify. rewrite Hu.
    unfold trajectory_getitem. fold n.
    replace ((if frame <? 0 then frame + n else frame) <? 0) with false
      by (symmetry; apply Z.ltb_ge; destruct (frame <? 0) eqn:Hneg; lia).
    replace (n <=? (if frame <? 0 then frame + n else frame)) with false
      by (symmetry; apply Z.leb_gt; destruct (frame <? 0) eqn:Hneg;
          [apply Z.ltb_lt in Hneg |]; lia).
    cbn [orb]. eexists. split; [reflexivity |].
    cbn [files set_files]. unfold atoms_write. rewrite read_write_same.
    reflexivity.
  - unfold write_pdb_frame, bind, get, lift. rewrite Hu.
    rewrite trajectory_getitem_out_of_range; [reflexivity |].
    fold n. apply andb_false_iff in Hin. destruct Hin as [Hlo | Hhi].
    + apply Z.leb_gt in Hlo. left. lia.
    + apply Z.ltb_ge in Hhi. right. lia.
Qed.

Lemma write_pdb_frame_bounds_witness :
  write_pdb_frame (run1 // "protein.pdb") (run1 // "sim.dcd") (-11)
    (run2 // "frame.pdb") st_restart
  = (Raises IndexError, st_restart).
Proof.
  exact (write_pdb_frame_bounds (run1 // "protein.pdb") (run1 // "sim.dcd")
           (run2 // "frame.pdb") (-11) st_restart
           {| u_atoms := atoms20;
              u_trajectory := map (fun i => drift 0 (Z.of_nat i)) (seq 1 10);
              u_frame := 0 |} eq_refl).
Defined.

(** ** The name of the extracted file *)

Lemma decimal_value_acc_bound s : forall acc v,
  0 <= acc ->
  decimal_value_acc acc s = Some v ->
  acc * 10 ^ Z.of_nat (String.length s) <= v
  < (acc + 1) * 10 ^ Z.of_nat (String.length s).
Proof.
  induction s as [| c s IH]; intros acc v Hacc E.
  - simpl in *. inversion E. lia.
  - cbn [decimal_value_acc] in E.
    destruct ((48 <=? Z.of_nat (nat_of_ascii c))
              && (Z.of_nat (nat_of_ascii c) <=? 57)) eqn:Hdigit;
      [| discriminate E].
    apply andb_true_iff in Hdigit. destruct Hdigit as [Hlo Hhi].
    apply Z.leb_le in Hlo. apply Z.leb_le in Hhi.
    apply IH in E; [| lia].
    cbn [String.length]. rewrite Nat2Z.inj_succ, Z.pow_succ_r by lia.
    nia.
Qed.

Lemma digits_value (n : Z) :
  0 <= n -> decimal_value (digits n) = Some n.
Proof.
  intros Hn. unfold decimal_value.
  rewrite <- (string_app_nil_r (digits n)). unfold digits.
  rewrite digits_fuel_value
    by (split; [lia | apply digits_fuel_enough; lia]).
  reflexivity.
Qed.

Lemma digits_length_wide (n : Z) :
  1000000 <= n -> (7 <= String.length (digits n))%nat.
Proof.
  intros Hn.
  pose proof (digits_value n ltac:(lia)) as Hvalue.
  unfold decimal_value in Hvalue.
  apply decimal_value_acc_bound in Hvalue; [| lia].
  destruct (le_lt_dec 7 (String.length (digits n))) as [Hlen | Hlen];
    [exact Hlen |].
  assert (Hpow : 10 ^ Z.of_nat (String.length (digits n)) <= 10 ^ 6).
  { apply Z.pow_le_mono_r; lia. }
  change (10 ^ 6) with 1000000 in Hpow. lia.
Qed.

Lemma format_06_six_or_more (k : Z) :
  (6 <= String.length (format_06 k))%nat /\
  (0 <= k -> decimal_value (format_06 k) = Some k).
Proof.
  unfold format_06. destruct (k <? 0) eqn:Hneg.
  - apply Z.ltb_lt in Hneg. cbv zeta. split; [| intros; lia].
    cbn [String.length]. rewrite string_length_app, zeros_length. lia.
  - apply Z.ltb_ge in Hneg. cbv zeta. split.
    + rewrite string_length_app, zeros_length. lia.
    + intros _. unfold decimal_value. rewrite zeros_value.
      apply digits_value. exact Hneg.
Qed.

(** The width six of the frame index is a minimum.  The formatted index is
    as long as the longer of six characters and the plain decimal; for a
    non-negative index it reads back as the index, so no two indices share
    a formatted form; from a million on it is the plain decimal, with more
    than six digits. *)
Theorem format_06_width_is_a_minimum (k : Z) :
  String.length (format_06 k) = Nat.max 6 (String.length (str k)) /\
  (0 <= k -> decimal_value (format_06 k) = Some k) /\
  (1000000 <= k ->
   format_06 k = str k /\ (6 < String.length (format_06 k))%nat).
Proof.
  unfold format_06, str. destruct (k <? 0) eqn:Hneg.
  - apply Z.ltb_lt in Hneg. cbv zeta. split; [| split; intros; lia].
    cbn [String.length]. rewrite string_length_app, zeros_length. lia.
  - apply Z.ltb_ge in Hneg. cbv zeta. split; [| split].
    + rewrite string_length_app, zeros_length. lia.
    + intros _. unfold decimal_value. rewrite zeros_value.
      apply digits_value. exact Hneg.
    + intros Hwide. pose proof (digits_length_wide k Hwide) as Hlen.
      replace (6 - String.length (digits k))%nat with 0%nat by lia.
      cbn [zeros String.append]. split; [reflexivity | lia].
Qed.

Lemma string_app_inv_head (a b c : string) :
  (a ++ b = a ++ c)%string -> b = c.
Proof.
  induction a as [| x a IH]; simpl; intros E; [exact E |].
  inversion E. auto.
Qed.

Lemma string_app_inv_tail (s : string) : forall a b,
  (a ++ s = b ++ s)%string -> a = b.
Proof.
  intros a. induction a as [| x a IH]; intros b E.
  - destruct b as [| y b]; [reflexivity |].
    apply (f_equal String.length) in E.
    simpl in E. rewrite string_length_app in E. lia.
  - destruct b as [| y b].
    + apply (f_equal String.length) in E.
      simpl in E. rewrite string_length_app in E. lia.
    + simpl in E. inversion E. f_equal. apply IH. assumption.
Qed.

(** Restarts from two different frames of one source directory never name
    the same structure file. *)
Theorem restart_file_names_are_distinct (workdir sim_dir : Path) (j k : Z) :
  0 <= j -> 0 <= k -> j <> k ->
  workdir // (name sim_dir ++ "_frame" ++ format_06 j ++ ".pdb")%string
  <> workdir // (name sim_dir ++ "_frame" ++ format_06 k ++ ".pdb")%string.
Proof.
  intros Hj Hk Hneq E. apply Hneq. apply joinpath_inj in E.
  apply string_app_inv_head in E. apply string_app_inv_head in E.
  apply string_app_inv_tail in E.
  destruct (format_06_six_or_more j) as (_ & Hvj).
  destruct (format_06_six_or_more k) as (_ & Hvk).
  specialize (Hvj Hj). specialize (Hvk Hk).
  rewrite E in Hvj. rewrite Hvj in Hvk. inversion Hvk. reflexivity.
Qed.

Lemma restart_file_names_are_distinct_witness :
  run2 // (name run1 ++ "_frame" ++ format_06 3 ++ ".pdb")%string
  <> run2 // (name run1 ++ "_frame" ++ format_06 1000003 ++ ".pdb")%string.
Proof.
  apply (restart_file_names_are_distinct run2 run1 3 1000003); lia.
Defined.

(** ** The run *)

Lemma initialize_run_persistent_dir config env start st st1 :
  initialize_run config env start st = (Returns tt, st1) ->
  self_persistent_dir st1 = self_persistent_dir st.
Proof.
  intros E. destruct start as [| pdb_file top_file | sim_dir frame]; simpl in E.
  - unfold init_continue_simulation, copy_to_workdir in E.
    unfold_monad_in E. repeat step_in E.
    all: inversion E; subst; clear E.
    all: repeat match goal with
           | H : (_, _) = (_, _) |- _ => inversion H; subst; clear H
           end.
    all: reflexivity.
  - apply init_simulation_from_pdb_returns in E.
    destruct E as (top' & sa & sb & Ea & Eb & Ec).
    apply init_simulation_installs in Ec.
    destruct Ec as (s & _ & _ & _ & _ & _ & _ & _ & _ & _ & _ & _ & _ & _
                    & _ & Hpd).
    rewrite Hpd. apply copy_to_workdir_returns in Ea, Eb.
    destruct Ea as (d & _ & _ & ->).
    destruct top_file as [top_src |].
    + destruct Eb as (d' & _ & _ & ->). reflexivity.
    + destruct Eb as (_ & ->). reflexivity.
  - apply init_simulation_from_restart_returns in E.
    destruct E as (old_pdb & dcd & top & sa & sb & _ & _ & Ecopy & Ewrite & Ec).
    cbv zeta in Ewrite, Ec.
    apply init_simulation_installs in Ec.
    destruct Ec as (s & _ & _ & _ & _ & _ & _ & _ & _ & _ & _ & _ & _ & _
                    & _ & Hpd).
    rewrite Hpd. apply write_pdb_frame_returns in Ewrite.
    destruct Ewrite as (u & u' & _ & _ & ->).
    apply copy_to_workdir_returns in Ecopy.
    destruct (match next_or_None (glob sim_dir ".top" (files st)) with
              | Some top_file => Some top_file
              | None => next_or_None (glob sim_dir ".prmtop" (files st))
              end) as [top_src |].
    + destruct Ecopy as (d & _ & _ & ->). reflexivity.
    + destruct Ecopy as (_ & ->). reflexivity.
Qed.

(** A run that returns answers the two paths under the persistent
    directory, while it has saved the two arrays, of one length, under the
    working directory; neither directory attribute has changed. *)
Theorem run_returns_persistent_paths
    (config : MDSimulationSettings) (env : Env) `{Library}
    (input : MDSimulationInput) (st st' : State) (out : MDSimulationOutput) :
  run config env input st = (Returns out, st') ->
  contact_map_path out = self_persistent_dir st // "contact_map.npy" /\
  rmsd_path out = self_persistent_dir st // "rmsd.npy" /\
  self_workdir st' = self_workdir st /\
  self_persistent_dir st' = self_persistent_dir st /\
  exists contact_maps rmsds,
    read_file (self_workdir st // "contact_map.npy") (files st')
    = Some (NpyContactMaps contact_maps) /\
    read_file (self_workdir st // "rmsd.npy") (files st')
    = Some (NpyRmsds rmsds) /\
    List.length contact_maps = List.length rmsds.
Proof.
  intros E.
  pose proof (run_workdir _ _ _ _ _ _ E) as Hw.
  pose proof (run_reports_every_interval _ _ _ _ _ _ E)
    as (st1' & before & sim & n & r & frames & maps & rmsds & _ & _ & _ & _ & _
        & _ & _ & _ & Hmaps & Hmapslen & Hrmsds & Hrmsdslen).
  apply run_returns in E.
  destruct E as (st1 & report_steps & nsteps & st2 & sim2 & sim3 & st3 & pdb
                 & maps' & rmsds' & Einit & _ & _ & Esetup & _ & Estep & _ & _
                 & Hst' & Hout).
  apply initialize_run_persistent_dir in Einit.
  destruct (setup_reporters_returns _ _ _ _ _ Esetup eq_refl)
    as (cached & _ & Hst2).
  apply Simulation_step_returns in Estep. destruct Estep as (_ & _ & Hst3).
  assert (Hpd : self_persistent_dir st3 = self_persistent_dir st).
  { rewrite Hst3, Hst2, <- Einit. destruct (0 <? nsteps); reflexivity. }
  rewrite Hout. cbn [contact_map_path rmsd_path]. rewrite Hpd.
  split; [reflexivity |]. split; [reflexivity |]. split; [exact Hw |].
  split.
  { rewrite Hst'. cbn [self_persistent_dir set_files set_self_sim]. exact Hpd. }
  rewrite Hw in Hmaps, Hrmsds.
  exists maps, rmsds. split; [exact Hmaps |]. split; [exact Hrmsds |].
  congruence.
Qed.

Lemma run_returns_persistent_paths_witness :
  contact_map_path {| contact_map_path := out1 // "contact_map.npy";
                      rmsd_path := out1 // "rmsd.npy" |}
  = self_persistent_dir st0 // "contact_map.npy" /\
  rmsd_path {| contact_map_path := out1 // "contact_map.npy";
               rmsd_path := out1 // "rmsd.npy" |}
  = self_persistent_dir st0 // "rmsd.npy" /\
  self_workdir (snd (run config_short env_cpu
                       {| simulation_start := from_pdb |} st0))
  = self_workdir st0 /\
  self_persistent_dir (snd (run config_short env_cpu
                              {| simulation_start := from_pdb |} st0))
  = self_persistent_dir st0 /\
  exists contact_maps rmsds,
    read_file (self_workdir st0 // "contact_map.npy")
      (files (snd (run config_short env_cpu
                     {| simulation_start := from_pdb |} st0)))
    = Some (NpyContactMaps contact_maps) /\
    read_file (self_workdir st0 // "rmsd.npy")
      (files (snd (run config_short env_cpu
                     {| simulation_start := from_pdb |} st0)))
    = Some (NpyRmsds rmsds) /\
    List.length contact_maps = List.length rmsds.
Proof.
  assert (F : fst (run config_short env_cpu
                     {| simulation_start := from_pdb |} st0)
              = Returns {| contact_map_path := out1 // "contact_map.npy";
                           rmsd_path := out1 // "rmsd.npy" |})
    by (vm_compute; reflexivity).
  assert (E : run config_short env_cpu {| simulation_start := from_pdb |} st0
              = (Returns {| contact_map_path := out1 // "contact_map.npy";
                            rmsd_path := out1 // "rmsd.npy" |},
                 snd (run config_short env_cpu
                        {| simulation_start := from_pdb |} st0))).
  { rewrite <- F. apply surjective_pairing. }
  exact (run_returns_persistent_paths config_short env_cpu
           {| simulation_start := from_pdb |} st0 _ _ E).
Defined.

(** A zero timestep is found out only after initialisation: the run raises
    [ZeroDivisionError] in the state initialisation has left, with the
    simulation built or kept, no reporter attached and no trajectory file
    opened. *)
Theorem run_with_zero_timestep
    (config : MDSimulationSettings) (env : Env) `{Library}
    (input : MDSimulationInput) (st st1 : State) :
  Qnum (dt_ps config) = 0 ->
  initialize_run config env (simulation_start input) st = (Returns tt, st1) ->
  run config env input st = (Raises ZeroDivisionError, st1).
Proof.
  intros Hdt Einit. unfold run. rewrite (bind_returns _ _ _ _ _ Einit).
  unfold report_steps_of, quantity_div, quantity. cbn [q_value q_unit].
  unfold Qis_zero. rewrite Hdt. reflexivity.
Qed.

Lemma run_with_zero_timestep_witness :
  run config_zero_dt env_cpu {| simulation_start := ContinueSimulation |}
    st_second
  = (Raises ZeroDivisionError,
     snd (initialize_run config_zero_dt env_cpu ContinueSimulation st_second)).
Proof.
  assert (F : fst (initialize_run config_zero_dt env_cpu ContinueSimulation
                     st_second) = Returns tt)
    by (vm_compute; reflexivity).
  assert (E : initialize_run config_zero_dt env_cpu ContinueSimulation st_second
              = (Returns tt,
                 snd (initialize_run config_zero_dt env_cpu ContinueSimulation
                        st_second))).
  { rewrite <- F. apply surjective_pairing. }
  exact (run_with_zero_timestep config_zero_dt env_cpu
           {| simulation_start := ContinueSimulation |} st_second _
           eq_refl E).
Defined.






(** ** The analysis: what an entry holds *)

Lemma int16_exact_iff z : int16 z = z <-> -32768 <= z <= 32767.
Proof.
  unfold int16. split.
  - intros E. pose proof (Z.mod_pos_bound (z + 32768) 65536 ltac:(reflexivity)).
    lia.
  - intros Hz. rewrite Z.mod_small; lia.
Qed.

(** The cast to sixteen bits keeps an index array as it is exactly when
    every index lies between -32768 and 32767; an index from 32768 up to
    65535 comes out negative, 65536 too small. *)
Theorem astype_int16_exact_iff_in_range (a : list Z) :
  (astype_int16 a = a <-> Forall (fun z => -32768 <= z <= 32767) a) /\
  (forall z, In z a -> 32768 <= z < 65536 -> In (z - 65536) (astype_int16 a)).
Proof.
  split.
  - unfold astype_int16. induction a as [| z a IH]; simpl.
    + split; [intros _; constructor | reflexivity].
    + split.
      * intros E. injection E as Hz Ha. constructor.
        -- apply int16_exact_iff. exact Hz.
        -- apply IH. exact Ha.
      * intros Hall. inversion Hall as [| z' a' Hz Ha]; subst.
        apply int16_exact_iff in Hz. apply IH in Ha. rewrite Hz, Ha.
        reflexivity.
  - intros z Hin Hz. unfold astype_int16. apply in_map_iff. exists z.
    split; [| exact Hin]. unfold int16.
    replace (z + 32768) with (z - 32768 + 1 * 65536) by lia.
    rewrite Z.mod_add by lia. rewrite Z.mod_small by lia. lia.
Qed.

Lemma firstn_app_exact {A} (l1 l2 : list A) :
  firstn (List.length l1) (l1 ++ l2) = l1.
Proof.
  induction l1 as [| x l1 IH]; simpl; [destruct l2; reflexivity |].
  rewrite IH. reflexivity.
Qed.

Lemma skipn_app_exact {A} (l1 l2 : list A) :
  skipn (List.length l1) (l1 ++ l2) = l2.
Proof. induction l1 as [| x l1 IH]; simpl; [reflexivity | exact IH]. Qed.

(** An entry of the contact-map list is two halves of one length: cut in
    the middle and paired up position by position, it gives back the
    contacts of its frame, row with column, in the order of the contact
    matrix, each index cast to sixteen bits. *)
Theorem contact_map_entry_splits_in_the_middle
    (config : MDSimulationSettings) `{Library} (mda_u ref_u : Universe)
    (k : nat) (entry : list Z) :
  nth_error (fst (analyze_universe config mda_u ref_u)) k = Some entry ->
  exists (fr : Frame) (contacts : Sparse),
    nth_error (u_trajectory (AlignTraj_run mda_u ref_u (mda_selection config))) k
    = Some fr /\
    contacts
    = contact_matrix
        (group_positions (select_atoms (mda_selection config) (u_atoms mda_u)) fr)
        (cutoff_angstrom config)
        (frame_dimensions (nth 0 (u_trajectory mda_u) empty_frame)) /\
    List.length entry = (2 * List.length contacts)%nat /\
    combine (firstn (List.length contacts) entry)
            (skipn (List.length contacts) entry)
    = map (fun ij => (int16 (fst ij), int16 (snd ij))) contacts.
Proof.
  intros Hk. rewrite analyze_universe_maps in Hk. cbv zeta in Hk.
  unfold fst in Hk. rewrite nth_error_map in Hk.
  destruct (nth_error (u_trajectory (AlignTraj_run mda_u ref_u
                                       (mda_selection config))) k)
    as [fr |] eqn:Hfr; [| discriminate Hk].
  cbn [option_map] in Hk. inversion Hk as [Hentry]; clear Hk.
  rewrite analysis_box_is_first_frame_box.
  exists fr. eexists. split; [reflexivity |]. split; [reflexivity |].
  unfold frame_coo, tocoo, astype_int16. cbn [coo_row coo_col u_atoms AlignTraj_run].
  set (contacts := contact_matrix _ _ _).
  rewrite !map_map.
  assert (Hlen : List.length (map (fun x => int16 (fst x)) contacts)
                 = List.length contacts) by apply length_map.
  split.
  - rewrite length_app, !length_map. lia.
  - rewrite <- Hlen at 1. rewrite firstn_app_exact.
    rewrite <- Hlen. rewrite skipn_app_exact.
    rewrite combine_map_map. reflexivity.
Qed.

Lemma contact_map_entry_splits_in_the_middle_witness :
  exists (fr : Frame) (contacts : Sparse),
    nth_error
      (u_trajectory
         (AlignTraj_run
            {| u_atoms := ["CA"; "CA"];
               u_trajectory := [frame_box10; frame_box20]; u_frame := 0 |}
            {| u_atoms := ["CA"; "CA"]; u_trajectory := [frame_box10];
               u_frame := 0 |}
            (mda_selection config_pbc))) 1
    = Some fr /\
    contacts
    = contact_matrix
        (group_positions
           (select_atoms (mda_selection config_pbc)
              (u_atoms {| u_atoms := ["CA"; "CA"];
                          u_trajectory := [frame_box10; frame_box20];
                          u_frame := 0 |})) fr)
        (cutoff_angstrom config_pbc)
        (frame_dimensions
           (nth 0 (u_trajectory {| u_atoms := ["CA"; "CA"];
                                   u_trajectory := [frame_box10; frame_box20];
                                   u_frame := 0 |}) empty_frame)) /\
    List.length [0; 0; 1; 1; 0; 1; 0; 1] = (2 * List.length contacts)%nat /\
    combine (firstn (List.length contacts) [0; 0; 1; 1; 0; 1; 0; 1])
            (skipn (List.length contacts) [0; 0; 1; 1; 0; 1; 0; 1])
    = map (fun ij => (int16 (fst ij), int16 (snd ij))) contacts.
Proof.
  assert (Hk : nth_error
                 (fst (analyze_universe config_pbc
                         {| u_atoms := ["CA"; "CA"];
                            u_trajectory := [frame_box10; frame_box20];
                            u_frame := 0 |}
                         {| u_atoms := ["CA"; "CA"];
                            u_trajectory := [frame_box10]; u_frame := 0 |})) 1
               = Some [0; 0; 1; 1; 0; 1; 0; 1])
    by (vm_compute; reflexivity).
  exact (contact_map_entry_splits_in_the_middle config_pbc _ _ 1%nat _ Hk).
Defined.

(** ** Where a run writes *)

Lemma is_child_joinpath dir s : is_child dir (dir // s) = true.
Proof.
  unfold is_child, joinpath, parent.
  destruct (dir ++ [s]) as [| c q] eqn:E.
  - destruct dir; discriminate E.
  - rewrite <- E. rewrite removelast_last. apply Path_eqb_refl.
Qed.

Lemma same_outside_refl dir fs : same_outside dir fs fs.
Proof. intros p _. reflexivity. Qed.

Lemma same_outside_trans dir fs1 fs2 fs3 :
  same_outside dir fs1 fs2 -> same_outside dir fs2 fs3 ->
  same_outside dir fs1 fs3.
Proof. intros H12 H23 p Hp. rewrite (H23 p Hp). apply H12. exact Hp. Qed.

Lemma same_outside_write dir q d fs :
  is_child dir q = true -> same_outside dir fs (write_file q d fs).
Proof.
  intros Hq p Hp. apply read_write_other. intros ->. congruence.
Qed.

Lemma within_workdir_refl st : within_workdir st st.
Proof. split; [reflexivity | apply same_outside_refl]. Qed.

Lemma within_workdir_trans st1 st2 st3 :
  within_workdir st1 st2 -> within_workdir st2 st3 -> within_workdir st1 st3.
Proof.
  intros [Hw12 Hf12] [Hw23 Hf23]. split; [congruence |].
  rewrite Hw12 in Hf23. eapply same_outside_trans; eassumption.
Qed.

Lemma within_workdir_same_files st st' :
  self_workdir st' = self_workdir st -> files st' = files st ->
  within_workdir st st'.
Proof.
  intros Hw Hf. split; [exact Hw |]. rewrite Hf. apply same_outside_refl.
Qed.

Lemma within_workdir_write st q d :
  is_child (self_workdir st) q = true ->
  within_workdir st (set_files (write_file q d (files st)) st).
Proof.
  intros Hq. split; [reflexivity |]. apply same_outside_write. exact Hq.
Qed.

(** Sequencing: the first computation stays within the working directory,
    and so does the second from wherever the first has returned. *)
Lemma bind_within {A B} (m : M State A) (k : A -> M State B) st :
  within_workdir st (snd (m st)) ->
  (forall a st1, m st = (Returns a, st1) -> within_workdir st1 (snd (k a st1))) ->
  within_workdir st (snd (bind m k st)).
Proof.
  intros Hm Hk. unfold bind.
  destruct (m st) as [[a | e] st1] eqn:E.
  - eapply within_workdir_trans; [exact Hm |]. apply Hk. reflexivity.
  - exact Hm.
Qed.

Lemma copy_to_workdir_within p st :
  within_workdir st (snd (copy_to_workdir p st)).
Proof.
  unfold copy_to_workdir. destruct p as [src |].
  - unfold bind, get, modify, ret, raise.
    destruct (read_file src (files st)) as [data |]; cbn [snd].
    + apply within_workdir_write. apply is_child_joinpath.
    + apply within_workdir_refl.
  - apply within_workdir_refl.
Qed.

Lemma write_pdb_frame_within pdb dcd frame out st :
  is_child (self_workdir st) out = true ->
  within_workdir st (snd (write_pdb_frame pdb dcd frame out st)).
Proof.
  intros Hout. unfold write_pdb_frame, bind, get, lift, modify.
  destruct (Universe_of_trajectory pdb dcd (files st)) as [u | e];
    [| apply within_workdir_refl].
  destruct (trajectory_getitem u frame) as [u' | e];
    [| apply within_workdir_refl].
  cbn [snd]. unfold atoms_write. apply within_workdir_write. exact Hout.
Qed.

Lemma init_simulation_within config env pdb top st :
  within_workdir st (snd (init_simulation config env pdb top st)).
Proof.
  unfold init_simulation.
  apply bind_within.
  - unfold release_cached_simulation, bind, get, modify, ret, raise.
    destruct (self_sim st); cbn [snd];
      apply within_workdir_same_files; reflexivity.
  - intros [] st1 _. apply bind_within.
    + destruct (configure_simulation env pdb top (solvent_type config) 0
                  (dt_ps config) (temperature_kelvin config)
                  (heat_bath_friction_coef config) "MonteCarloBarostat"
                  true true true st1) as [o st2] eqn:E.
      apply configure_simulation_frame in E.
      destruct E as (Hf & _ & _ & _ & Hw & _).
      apply within_workdir_same_files; assumption.
    + intros sim st2 _. unfold bind, modify. cbn [snd].
      apply within_workdir_same_files; reflexivity.
Qed.

Lemma modify_within (f : State -> State) st :
  self_workdir (f st) = self_workdir st -> files (f st) = files st ->
  within_workdir st (snd (modify f st)).
Proof. intros Hw Hf. apply within_workdir_same_files; assumption. Qed.

Lemma initialize_run_within config env start st :
  within_workdir st (snd (initialize_run config env start st)).
Proof.
  destruct start as [| pdb_file top_file | sim_dir frame]; cbn [initialize_run].
  - unfold init_continue_simulation.
    unfold bind at 1. unfold get at 1.
    destruct (self_sim st); try apply within_workdir_refl.
    apply bind_within.
    { unfold assert. destruct (self_pdb_file st); apply within_workdir_refl. }
    intros [] st1 _. apply bind_within; [apply copy_to_workdir_within |].
    intros pdb st2 _. apply bind_within; [apply modify_within; reflexivity |].
    intros [] st3 _. apply bind_within; [apply copy_to_workdir_within |].
    intros top st4 _. apply modify_within; reflexivity.
  - unfold init_simulation_from_pdb.
    apply bind_within; [apply copy_to_workdir_within |].
    intros pdb st1 _. apply bind_within; [apply modify_within; reflexivity |].
    intros [] st2 _. apply bind_within; [apply copy_to_workdir_within |].
    intros top st3 _. apply bind_within; [apply modify_within; reflexivity |].
    intros [] st4 _. destruct pdb as [pdb_path |].
    + apply init_simulation_within.
    + apply within_workdir_refl.
  - unfold init_simulation_from_restart.
    unfold bind at 1. unfold get at 1.
    apply bind_within; [apply within_workdir_refl |].
    intros old_pdb s E. unfold lift in E. inversion E; subst s; clear E.
    apply bind_within; [apply within_workdir_refl |].
    intros dcd s E. unfold lift in E. inversion E; subst s; clear E.
    apply bind_within; [apply copy_to_workdir_within |].
    intros top st1 E1.
    assert (Hw1 : self_workdir st1 = self_workdir st).
    { pose proof (copy_to_workdir_within
                    (match next_or_None (glob sim_dir ".top" (files st)) with
                     | Some _ => next_or_None (glob sim_dir ".top" (files st))
                     | None => next_or_None (glob sim_dir ".prmtop" (files st))
                     end) st) as [Hw _].
      rewrite E1 in Hw. exact Hw. }
    apply bind_within; [apply modify_within; reflexivity |].
    intros [] st2 E2. unfold modify in E2. inversion E2; subst st2; clear E2.
    apply bind_within; [apply modify_within; reflexivity |].
    intros [] st3 E3. unfold modify in E3. inversion E3; subst st3; clear E3.
    apply bind_within.
    + apply write_pdb_frame_within.
      cbn [self_workdir set_self_pdb_file set_self_top_file].
      rewrite Hw1. apply is_child_joinpath.
    + intros [] st4 _. apply init_simulation_within.
Qed.

Lemma report_same_outside env dir s r fs :
  is_child dir (reporter_file r) = true ->
  same_outside dir fs (report env s r fs).
Proof.
  intros Hr. unfold report. destruct r as [file n | file n]; cbn [reporter_file] in Hr.
  - destruct (read_file file fs) as [[] |];
      apply same_outside_write; exact Hr.
  - destruct (read_file file fs) as [[] |];
      apply same_outside_write; exact Hr.
Qed.

Lemma simulate_same_outside env dir n : forall s fs,
  (forall r, In r (reporters s) -> is_child dir (reporter_file r) = true) ->
  same_outside dir fs (snd (simulate env n s fs)).
Proof.
  induction n as [| n IH]; intros s fs Hrs; [apply same_outside_refl |].
  cbn [simulate]. unfold step_once.
  eapply same_outside_trans; [| apply IH; exact Hrs].
  cbn [reporters set_currentStep].
  generalize (set_currentStep (currentStep s + 1) s). intros s'.
  revert fs. induction (reporters s) as [| r rs IHrs]; intros fs.
  - apply same_outside_refl.
  - cbn [fold_left].
    eapply same_outside_trans;
      [| apply IHrs; intros r' Hr'; apply Hrs; right; exact Hr'].
    destruct (due r (currentStep s')).
    + apply report_same_outside. apply Hrs. left. reflexivity.
    + apply same_outside_refl.
Qed.

Lemma Simulation_step_within env steps s st :
  (forall r, In r (reporters s) ->
             is_child (self_workdir st) (reporter_file r) = true) ->
  within_workdir st (snd (Simulation_step env steps s st)).
Proof.
  intros Hrs. unfold Simulation_step.
  destruct (0 <? steps); [| apply within_workdir_refl].
  destruct (existsb _ (reporters s)); [apply within_workdir_refl |].
  unfold bind, get, modify, ret.
  pose proof (simulate_same_outside env (self_workdir st) (Z.to_nat steps) s
                (files st) Hrs) as Hsim.
  destruct (simulate env (Z.to_nat steps) s (files st)) as [s' fs'].
  cbn [snd] in *. split; [reflexivity | exact Hsim].
Qed.

Lemma setup_reporters_within name_ r st :
  within_workdir st (snd (setup_reporters (self_workdir st // name_) r st)).
Proof.
  unfold setup_reporters, update_sim, the_sim, DCDReporter_new,
    StateDataReporter_new, bind, get, modify, ret, raise.
  destruct (self_sim st); cbn [snd self_sim set_self_sim];
    try apply within_workdir_refl.
  split; [reflexivity |]. cbn [files set_files set_self_sim self_workdir].
  eapply same_outside_trans; apply same_outside_write; apply is_child_joinpath.
Qed.

Lemma analyze_simulation_state config `{Library} pdb traj st :
  snd (analyze_simulation config pdb traj st) = st.
Proof.
  unfold analyze_simulation, bind, get, lift, ret.
  destruct (Universe_of_trajectory pdb traj (files st)); [| reflexivity].
  destruct (Universe_of_structure (rmsd_reference_pdb config) (files st));
    reflexivity.
Qed.

(** Whatever its outcome, a run leaves the working directory attribute as it
    is and changes files in the working directory only. *)
Lemma run_within config env `{Library} input st :
  within_workdir st (snd (run config env input st)).
Proof.
  unfold run.
  apply bind_within; [apply initialize_run_within |].
  intros [] st1 _.
  apply bind_within; [apply within_workdir_refl |].
  intros report_steps s E. unfold lift in E. inversion E; subst s; clear E.
  apply bind_within; [apply within_workdir_refl |].
  intros nsteps s E. unfold lift in E. inversion E; subst s; clear E.
  unfold bind at 1. unfold get at 1.
  apply bind_within; [apply setup_reporters_within |].
  intros [] st2 Esetup.
  destruct (setup_reporters_returns _ _ _ _ _ Esetup eq_refl)
    as (cached & _ & Hst2).
  apply bind_within.
  { unfold the_sim, bind, get, ret, raise.
    destruct (self_sim st2); apply within_workdir_refl. }
  intros sim s E.
  assert (Hsim : sim = set_reporters
                         [DCDReporter (self_workdir st1 // "sim.dcd") report_steps;
                          StateDataReporter (self_workdir st1 // "sim.log")
                            report_steps] cached /\ s = st2).
  { unfold the_sim, bind, get, ret, raise in E. rewrite Hst2 in E.
    cbn [self_sim set_self_sim] in E. inversion E. split; [reflexivity |].
    symmetry. exact Hst2. }
  destruct Hsim as [-> ->]. clear E.
  assert (Hw2 : self_workdir st2 = self_workdir st1) by (rewrite Hst2; reflexivity).
  apply bind_within.
  { apply Simulation_step_within. cbn [reporters set_reporters].
    rewrite Hw2. intros r [<- | [<- | []]]; apply is_child_joinpath. }
  intros sim3 st3 _.
  apply bind_within; [apply modify_within; reflexivity |].
  intros [] s E. unfold modify in E. inversion E; subst s; clear E.
  unfold bind at 1. unfold get at 1.
  cbn [self_pdb_file set_self_sim self_workdir self_persistent_dir].
  destruct (self_pdb_file st3) as [pdb_file |]; [| apply within_workdir_refl].
  apply bind_within.
  { rewrite analyze_simulation_state. apply within_workdir_refl. }
  intros [contact_maps rmsds] s E.
  assert (Hs : s = set_self_sim (AttrSim sim3) st3).
  { pose proof (analyze_simulation_state config pdb_file
                  (self_workdir st1 // "sim.dcd")
                  (set_self_sim (AttrSim sim3) st3)) as Hs.
    rewrite E in Hs. exact Hs. }
  subst s. clear E.
  apply bind_within.
  { unfold np_save, bind, get, modify. cbn [snd].
    apply within_workdir_write. apply is_child_joinpath. }
  intros [] s E. unfold np_save, bind, get, modify in E.
  inversion E; subst s; clear E.
  apply bind_within.
  { unfold np_save, bind, get, modify. cbn [snd].
    apply within_workdir_write. apply is_child_joinpath. }
  intros [] s _. apply within_workdir_refl.
Qed.

(** Whatever its outcome, a run creates, overwrites or changes no file that
    is not a child of its working directory. *)
Theorem run_writes_only_in_workdir
    (config : MDSimulationSettings) (env : Env) `{Library}
    (input : MDSimulationInput) (st : State) (p : Path) :
  is_child (self_workdir st) p = false ->
  read_file p (files (snd (run config env input st))) = read_file p (files st).
Proof.
  intros Hp. destruct (run_within config env input st) as [_ Hfiles].
  apply Hfiles. exact Hp.
Qed.

Lemma run_writes_only_in_workdir_witness :
  read_file (data_dir // "protein.pdb")
    (files (snd (run config_short env_cpu {| simulation_start := from_pdb |} st0)))
  = read_file (data_dir // "protein.pdb") (files st0).
Proof.
  apply (run_writes_only_in_workdir config_short env_cpu
           {| simulation_start := from_pdb |} st0 (data_dir // "protein.pdb")).
  reflexivity.
Defined.

(** The two paths a run returns lie in the persistent directory, where the
    run writes nothing: when the persistent directory is not the working
    directory, the files at those two paths are after the run what they
    were before it, and absent if they were absent. *)
Theorem run_leaves_returned_paths_untouched
    (config : MDSimulationSettings) (env : Env) `{Library}
    (input : MDSimulationInput) (st st' : State) (out : MDSimulationOutput) :
  self_persistent_dir st <> self_workdir st ->
  run config env input st = (Returns out, st') ->
  read_file (contact_map_path out) (files st')
  = read_file (contact_map_path out) (files st) /\
  read_file (rmsd_path out) (files st') = read_file (rmsd_path out) (files st).
Proof.
  intros Hdirs E.
  destruct (run_within config env input st) as [_ Hfiles].
  rewrite E in Hfiles. cbn [snd] in Hfiles.
  assert (Hout : forall s, is_child (self_workdir st)
                             (self_persistent_dir st // s) = false).
  { intros s. unfold is_child, joinpath, parent.
    destruct (self_persistent_dir st ++ [s]) as [| c q] eqn:Eq.
    - reflexivity.
    - rewrite <- Eq. rewrite removelast_last.
      apply Path_eqb_neq. exact Hdirs. }
  apply run_returns in E.
  destruct E as (st1 & r & n & st2 & sim2 & sim3 & st3 & pdb & maps & rmsds
                 & Einit & _ & _ & Esetup & _ & Estep & _ & _ & _ & Hout').
  apply initialize_run_persistent_dir in Einit.
  destruct (setup_reporters_returns _ _ _ _ _ Esetup eq_refl)
    as (cached & _ & Hst2).
  apply Simulation_step_returns in Estep. destruct Estep as (_ & _ & Hst3).
  assert (Hpd : self_persistent_dir st3 = self_persistent_dir st).
  { rewrite Hst3, Hst2, <- Einit. destruct (0 <? n); reflexivity. }
  rewrite Hout'. cbn [contact_map_path rmsd_path]. rewrite Hpd.
  split; apply Hfiles; apply Hout.
Qed.

Lemma run_leaves_returned_paths_untouched_witness :
  read_file (contact_map_path {| contact_map_path := out1 // "contact_map.npy";
                                 rmsd_path := out1 // "rmsd.npy" |})
    (files (snd (run config_short env_cpu {| simulation_start := from_pdb |} st0)))
  = read_file (contact_map_path {| contact_map_path := out1 // "contact_map.npy";
                                   rmsd_path := out1 // "rmsd.npy" |})
      (files st0) /\
  read_file (rmsd_path {| contact_map_path := out1 // "contact_map.npy";
                          rmsd_path := out1 // "rmsd.npy" |})
    (files (snd (run config_short env_cpu {| simulation_start := from_pdb |} st0)))
  = read_file (rmsd_path {| contact_map_path := out1 // "contact_map.npy";
                            rmsd_path := out1 // "rmsd.npy" |})
      (files st0).
Proof.
  assert (Hdirs : self_persistent_dir st0 <> self_workdir st0) by discriminate.
  assert (F : fst (run config_short env_cpu
                     {| simulation_start := from_pdb |} st0)
              = Returns {| contact_map_path := out1 // "contact_map.npy";
                           rmsd_path := out1 // "rmsd.npy" |})
    by (vm_compute; reflexivity).
  assert (E : run config_short env_cpu {| simulation_start := from_pdb |} st0
              = (Returns {| contact_map_path := out1 // "contact_map.npy";
                            rmsd_path := out1 // "rmsd.npy" |},
                 snd (run config_short env_cpu
                        {| simulation_start := from_pdb |} st0))).
  { rewrite <- F. apply surjective_pairing. }
  exact (run_leaves_returned_paths_untouched config_short env_cpu
           {| simulation_start := from_pdb |} st0 _ _ Hdirs E).
Defined.

(** ** The configurator: instances of the toggles and of the solvent models *)

Lemma configure_simulation_toggles_witness :
  exists sim st',
    configure_simulation env_cpu (data_dir // "protein.pdb")
      (Some (data_dir // "protein.prmtop")) "implicit" 0 0.002 310 1
      "MonteCarloBarostat" false true false st0 = (Returns sim, st') /\
    minimized sim = false /\
    (positions_file sim = Some (data_dir // "protein.pdb") /\
     exists atoms coords box,
       read_file (data_dir // "protein.pdb") (files st0)
       = Some (PdbData atoms coords box) /\
       context_positions sim = Some coords) /\
    velocities_seed sim = None /\
    rng_calls st' = rng_calls st0 /\
    next_sim_id st' = S (next_sim_id st0) /\
    reporters sim = [] /\ currentStep sim = 0.
Proof.
  assert (F : exists sim,
             fst (configure_simulation env_cpu (data_dir // "protein.pdb")
                    (Some (data_dir // "protein.prmtop")) "implicit" 0 0.002
                    310 1 "MonteCarloBarostat" false true false st0)
             = Returns sim)
    by (vm_compute; eexists; reflexivity).
  destruct F as [sim F].
  assert (E : configure_simulation env_cpu (data_dir // "protein.pdb")
                (Some (data_dir // "protein.prmtop")) "implicit" 0 0.002
                310 1 "MonteCarloBarostat" false true false st0
              = (Returns sim,
                 snd (configure_simulation env_cpu (data_dir // "protein.pdb")
                        (Some (data_dir // "protein.prmtop")) "implicit" 0
                        0.002 310 1 "MonteCarloBarostat" false true false st0))).
  { rewrite <- F. apply surjective_pairing. }
  exists sim. eexists. split; [exact E |].
  exact (configure_simulation_toggles env_cpu (data_dir // "protein.pdb")
           (Some (data_dir // "protein.prmtop")) "implicit" 0 0.002 310 1
           "MonteCarloBarostat" false true false st0 _ sim E).
Defined.

(** Which system a returned simulation has.  Implicit solvent: a cutoff of
    1 nm without periodicity, no barostat, and either the topology file with
    the OBC1 model or, without one, the topology of the structure file with
    the two force-field files.  Explicit solvent: particle-mesh Ewald, the
    topology file, and the barostat named (the anisotropic one scaling along
    z only), at 1 bar and the temperature of the integrator.  The integrator
    has the temperature, the friction and the timestep handed in. *)
Theorem configure_simulation_builds_the_solvent_model
    (env : Env) (pdb : Path) (top : option Path) (solvent : string) (gpu : Z)
    (dt T fr : Q) (baro : string) (minimize positions velocities : bool)
    (st st' : State) (sim : Simulation) :
  configure_simulation env pdb top solvent gpu dt T fr baro
    minimize positions velocities st = (Returns sim, st') ->
  integrator_temperature (integrator sim) = T /\
  integrator_friction (integrator sim) = fr /\
  integrator_dt_ps (integrator sim) = dt /\
  nonbondedCutoff_nm (system sim) = 1%Q /\
  constraints_HBonds (system sim) = true /\
  ((solvent = "implicit" /\
    nonbondedMethod (system sim) = CutoffNonPeriodic /\
    forces (system sim) = [] /\
    constraintTolerance (integrator sim) = Some (1 # 100000)%Q /\
    match top with
    | Some top_path =>
        read_file top_path (files st) = Some (PrmtopData (topology sim)) /\
        implicitSolvent (system sim) = Some OBC1 /\
        forcefield_files (system sim) = []
    | None =>
        (exists coords box,
            read_file pdb (files st) = Some (PdbData (topology sim) coords box)) /\
        implicitSolvent (system sim) = None /\
        forcefield_files (system sim) = ["amber99sbildn.xml"; "amber99_obc.xml"]
    end) \/
   (solvent = "explicit" /\
    nonbondedMethod (system sim) = PME /\
    implicitSolvent (system sim) = None /\
    forcefield_files (system sim) = [] /\
    constraintTolerance (integrator sim) = None /\
    (exists top_path,
        top = Some top_path /\
        read_file top_path (files st) = Some (PrmtopData (topology sim))) /\
    ((baro = "MonteCarloBarostat" /\
      forces (system sim) = [MonteCarloBarostat 1 T]) \/
     (baro = "MonteCarloAnisotropicBarostat" /\
      forces (system sim)
      = [MonteCarloAnisotropicBarostat 1 T false false true])))).
Proof.
  intros E.
  exact (configure_simulation_system env pdb top solvent gpu dt T fr baro
           minimize positions velocities st st' sim E).
Qed.

Lemma configure_simulation_builds_the_solvent_model_witness :
  exists sim st',
    configure_simulation env_cpu (data_dir // "protein.pdb")
      (Some (data_dir // "protein.prmtop")) "explicit" 0 0.002 310 1
      "MonteCarloAnisotropicBarostat" true true true st0 = (Returns sim, st') /\
    forces (system sim)
    = [MonteCarloAnisotropicBarostat 1 310 false false true] /\
    nonbondedMethod (system sim) = PME.
Proof.
  assert (F : exists sim,
             fst (configure_simulation env_cpu (data_dir // "protein.pdb")
                    (Some (data_dir // "protein.prmtop")) "explicit" 0 0.002
                    310 1 "MonteCarloAnisotropicBarostat" true true true st0)
             = Returns sim)
    by (vm_compute; eexists; reflexivity).
  destruct F as [sim F].
  assert (E : configure_simulation env_cpu (data_dir // "protein.pdb")
                (Some (data_dir // "protein.prmtop")) "explicit" 0 0.002
                310 1 "MonteCarloAnisotropicBarostat" true true true st0
              = (Returns sim,
                 snd (configure_simulation env_cpu (data_dir // "protein.pdb")
                        (Some (data_dir // "protein.prmtop")) "explicit" 0
                        0.002 310 1 "MonteCarloAnisotropicBarostat" true true
                        true st0))).
  { rewrite <- F. apply surjective_pairing. }
  exists sim. eexists. split; [exact E |].
  destruct (configure_simulation_builds_the_solvent_model env_cpu
              (data_dir // "protein.pdb") (Some (data_dir // "protein.prmtop"))
              "explicit" 0 0.002 310 1 "MonteCarloAnisotropicBarostat"
              true true true st0 _ sim E)
    as (_ & _ & _ & _ & _ & [(Hsolvent & _) | (_ & Hpme & _ & _ & _ & _ & Hbaro)]).
  - discriminate Hsolvent.
  - destruct Hbaro as [(Hname & _) | (_ & Hforces)]; [discriminate Hname |].
    split; [exact Hforces | exact Hpme].
Defined.

(** ** The mock application *)

Lemma read_write_absent p q d e fs :
  read_file q fs = None -> read_file p fs = Some d ->
  read_file p (write_file q e fs) = Some d.
Proof.
  intros Hq Hp. rewrite read_write_other; [exact Hp |].
  intros ->. congruence.
Qed.

Lemma touch_state empty_file p st :
  MockMDSimulationApplication.touch empty_file p st
  = (Returns tt,
     if exists_file p (files st) then st
     else set_files (write_file p empty_file (files st)) st).
Proof.
  unfold MockMDSimulationApplication.touch, bind, get, modify, ret.
  destruct (exists_file p (files st)); reflexivity.
Qed.

Lemma mock_run_state empty_file input st :
  MockMDSimulationApplication.run empty_file input st
  = (Returns {| contact_map_path := self_persistent_dir st // "contact_map.npy";
                rmsd_path := self_persistent_dir st // "rmsd.npy" |},
     let st1 :=
       if exists_file (self_workdir st // "contact_map.npy") (files st) then st
       else set_files (write_file (self_workdir st // "contact_map.npy")
                         empty_file (files st)) st in
     if exists_file (self_workdir st // "rmsd.npy") (files st1) then st1
     else set_files (write_file (self_workdir st // "rmsd.npy")
                       empty_file (files st1)) st1).
Proof.
  unfold MockMDSimulationApplication.run.
  unfold bind at 1. unfold get at 1.
  unfold bind at 1. rewrite touch_state.
  unfold bind at 1. rewrite touch_state. reflexivity.
Qed.

Lemma mock_run_leaves_both_files empty_file input st :
  fst (MockMDSimulationApplication.run empty_file input st)
  = Returns {| contact_map_path := self_persistent_dir st // "contact_map.npy";
               rmsd_path := self_persistent_dir st // "rmsd.npy" |} /\
  exists_file (self_workdir st // "contact_map.npy")
    (files (snd (MockMDSimulationApplication.run empty_file input st))) = true /\
  exists_file (self_workdir st // "rmsd.npy")
    (files (snd (MockMDSimulationApplication.run empty_file input st))) = true.
Proof.
  assert (Hneq : self_workdir st // "contact_map.npy"
                 <> self_workdir st // "rmsd.npy")
    by (apply joinpath_neq; discriminate).
  assert (Hneq' : self_workdir st // "rmsd.npy"
                  <> self_workdir st // "contact_map.npy")
    by (apply joinpath_neq; discriminate).
  rewrite mock_run_state. cbn [fst snd]. cbv zeta.
  split; [reflexivity |]. unfold exists_file.
  destruct (read_file (self_workdir st // "contact_map.npy") (files st))
    as [d1 |] eqn:H1;
    destruct (read_file (self_workdir st // "rmsd.npy") (files st))
      as [d2 |] eqn:H2;
    repeat (cbn [files set_files];
            first [ rewrite read_write_same
                  | rewrite (read_write_other _ _ _ _ Hneq)
                  | rewrite (read_write_other _ _ _ _ Hneq')
                  | rewrite H1 | rewrite H2 ]);
    split; reflexivity.
Qed.

(** The mock run always returns, with the two paths under the persistent
    directory.  It leaves both array files in the working directory; a file
    that was there keeps its content, whichever file it is, and no other
    path comes into being; run again, it changes nothing. *)
Theorem mock_run_creates_and_never_overwrites
    (empty_file : FileData) (input : MDSimulationInput) (st : State) :
  let contact_map := self_workdir st // "contact_map.npy" in
  let rmsd_file := self_workdir st // "rmsd.npy" in
  let st' := snd (MockMDSimulationApplication.run empty_file input st) in
  fst (MockMDSimulationApplication.run empty_file input st)
  = Returns {| contact_map_path := self_persistent_dir st // "contact_map.npy";
               rmsd_path := self_persistent_dir st // "rmsd.npy" |} /\
  exists_file contact_map (files st') = true /\
  exists_file rmsd_file (files st') = true /\
  (forall p d, read_file p (files st) = Some d ->
               read_file p (files st') = Some d) /\
  (forall p, p <> contact_map -> p <> rmsd_file ->
             read_file p (files st') = read_file p (files st)) /\
  MockMDSimulationApplication.run empty_file input st'
  = (fst (MockMDSimulationApplication.run empty_file input st), st').
Proof.
  intros contact_map rmsd_file st'. subst st' contact_map rmsd_file.
  assert (Hneq : self_workdir st // "contact_map.npy"
                 <> self_workdir st // "rmsd.npy")
    by (apply joinpath_neq; discriminate).
  assert (Hneq' : self_workdir st // "rmsd.npy"
                  <> self_workdir st // "contact_map.npy")
    by (apply joinpath_neq; discriminate).
  rewrite !mock_run_state. cbn [fst snd]. cbv zeta. unfold exists_file.
  destruct (read_file (self_workdir st // "contact_map.npy") (files st))
    as [d1 |] eqn:H1;
    destruct (read_file (self_workdir st // "rmsd.npy") (files st))
      as [d2 |] eqn:H2;
    repeat (cbn [files set_files self_workdir self_persistent_dir];
            first [ rewrite read_write_same
                  | rewrite (read_write_other _ _ _ _ Hneq)
                  | rewrite (read_write_other _ _ _ _ Hneq')
                  | rewrite H1 | rewrite H2 ]).
  all: split; [reflexivity |].
  all: split; [reflexivity |].
  all: split; [reflexivity |].
  all: split;
    [ intros p d Hp;
      repeat (rewrite read_write_other by (intros ->; congruence)); exact Hp |].
  all: split;
    [ intros p Hp1 Hp2;
      repeat (rewrite read_write_other by assumption); reflexivity |].
  all: reflexivity.
Qed.

(** The mock stands in for the real application: from the same state it
    returns the very output a real run returns, and like the real run it
    leaves both array files in the working directory. *)
Theorem mock_run_answers_like_a_real_run
    (config : MDSimulationSettings) (env : Env) `{Library}
    (empty_file : FileData) (input : MDSimulationInput) (st st' : State)
    (out : MDSimulationOutput) :
  run config env input st = (Returns out, st') ->
  fst (MockMDSimulationApplication.run empty_file input st) = Returns out /\
  exists_file (self_workdir st // "contact_map.npy") (files st') = true /\
  exists_file (self_workdir st // "rmsd.npy") (files st') = true /\
  exists_file (self_workdir st // "contact_map.npy")
    (files (snd (MockMDSimulationApplication.run empty_file input st))) = true /\
  exists_file (self_workdir st // "rmsd.npy")
    (files (snd (MockMDSimulationApplication.run empty_file input st))) = true.
Proof.
  intros E.
  pose proof (run_workdir _ _ _ _ _ _ E) as Hw.
  pose proof (run_reports_every_interval _ _ _ _ _ _ E)
    as (st1' & before & sim & n & r' & frames & maps & rmsds & _ & _ & _ & _ & _
        & _ & _ & _ & Hmaps & _ & Hrmsds & _).
  rewrite Hw in Hmaps, Hrmsds.
  apply run_returns in E.
  destruct E as (st1 & r & n' & st2 & sim2 & sim3 & st3 & pdb & maps' & rmsds'
                 & Einit & _ & _ & Esetup & _ & Estep & _ & _ & _ & Hout).
  apply initialize_run_persistent_dir in Einit.
  destruct (setup_reporters_returns _ _ _ _ _ Esetup eq_refl)
    as (cached & _ & Hst2).
  apply Simulation_step_returns in Estep. destruct Estep as (_ & _ & Hst3).
  assert (Hpd : self_persistent_dir st3 = self_persistent_dir st).
  { rewrite Hst3, Hst2, <- Einit. destruct (0 <? n'); reflexivity. }
  destruct (mock_run_leaves_both_files empty_file input st)
    as (Hfst & Hcm & Hrm).
  split; [rewrite Hfst, Hout, Hpd; reflexivity |].
  unfold exists_file at 1 2. rewrite Hmaps, Hrmsds.
  split; [reflexivity |]. split; [reflexivity |].
  split; assumption.
Qed.

Lemma mock_run_answers_like_a_real_run_witness :
  fst (MockMDSimulationApplication.run (NpyRmsds [])
         {| simulation_start := from_pdb |} st0)
  = Returns {| contact_map_path := out1 // "contact_map.npy";
               rmsd_path := out1 // "rmsd.npy" |} /\
  exists_file (self_workdir st0 // "contact_map.npy")
    (files (snd (run config_short env_cpu {| simulation_start := from_pdb |} st0)))
  = true /\
  exists_file (self_workdir st0 // "rmsd.npy")
    (files (snd (run config_short env_cpu {| simulation_start := from_pdb |} st0)))
  = true /\
  exists_file (self_workdir st0 // "contact_map.npy")
    (files (snd (MockMDSimulationApplication.run (NpyRmsds [])
                   {| simulation_start := from_pdb |} st0))) = true /\
  exists_file (self_workdir st0 // "rmsd.npy")
    (files (snd (MockMDSimulationApplication.run (NpyRmsds [])
                   {| simulation_start := from_pdb |} st0))) = true.
Proof.
  assert (F : fst (run config_short env_cpu
                     {| simulation_start := from_pdb |} st0)
              = Returns {| contact_map_path := out1 // "contact_map.npy";
                           rmsd_path := out1 // "rmsd.npy" |})
    by (vm_compute; reflexivity).
  assert (E : run config_short env_cpu {| simulation_start := from_pdb |} st0
              = (Returns {| contact_map_path := out1 // "contact_map.npy";
                            rmsd_path := out1 // "rmsd.npy" |},
                 snd (run config_short env_cpu
                        {| simulation_start := from_pdb |} st0))).
  { rewrite <- F. apply surjective_pairing. }
  exact (mock_run_answers_like_a_real_run config_short env_cpu (NpyRmsds [])
           {| simulation_start := from_pdb |} st0 _ _ E).
Defined.
